(** * Loss-analytics jobs: anomaly detector and OEE calculator

    A shallow embedding of
      services/loss-analytics-service/pyjobs/anomaly_detector.py
      services/loss-analytics-service/pyjobs/oee_calculator.py
    and the properties their specification states about them.

    Numbers.  Python [float]s are modelled as exact rationals [Q]: the
    arithmetic of the model has no rounding, no NaN and no infinity, and the
    decimal literals of the source (2.5, 99.9, 15.09, 0.1) denote themselves.
    Integer counts are [Z].  A [datetime] is the number of microseconds since
    the epoch ([Z]); [isoformat()] only renders it and is left out.

    Collaborators.  What a [cursor.fetchone()] / [cursor.fetchall()] returns is
    an input of the embedded function.  The redis client is a finite map that
    the functions thread through.  [scipy.stats.norm.cdf] and the numpy
    linear algebra of the multivariate detector are parameters. *)

From Stdlib Require Import QArith Qround Qabs Qminmax Lqa Lia ZArith Sorted.
From stdpp Require Import base strings gmap list pretty.

Open Scope Q_scope.

(** ** Python builtins used by the two modules *)
Module Py.

(** [x or 0] for a nullable SQL number: [None] and [0] are falsy. *)
Definition or0 (x : option Q) : Q :=
  match x with
  | Some v => if Qeq_bool v 0 then 0 else v
  | None => 0
  end.

Definition or0Z (x : option Z) : Z :=
  match x with
  | Some v => if Z.eqb v 0 then 0%Z else v
  | None => 0%Z
  end.

(** [min(a, b)] returns [b] only when [b < a]; [max(a, b)] returns [b] only
    when [b > a].  [Qmin] and [Qmax] choose the same way. *)
Definition min (a b : Q) : Q := Qmin a b.
Definition max (a b : Q) : Q := Qmax a b.
Definition abs (a : Q) : Q := Qabs a.

Definition Qlt_bool (a b : Q) : bool := negb (Qle_bool b a).

(** Exceptions the embedded code can raise. *)
Inductive exn : Type :=
| ValueError (msg : string)
| ZeroDivisionError.

Inductive result (A : Type) : Type :=
| Ok (a : A)
| Raise (e : exn).
Arguments Ok {A} a.
Arguments Raise {A} e.

(** [a / b] on numbers. *)
Definition truediv (a b : Q) : result Q :=
  if Qeq_bool b 0 then Raise ZeroDivisionError else Ok (a / b).

(** Rounding to the nearest integer, ties to even. *)
Definition round_half_even (q : Q) : Z :=
  let f := Qfloor q in
  let r := q - inject_Z f in
  if Qlt_bool r (1 # 2) then f
  else if Qlt_bool (1 # 2) r then (f + 1)%Z
  else if Z.even f then f else (f + 1)%Z.

(** [round(x, 2)]. *)
Definition round2 (x : Q) : Q := inject_Z (round_half_even (x * 100)) / 100.

(** [f"{x:.1f}"]. *)
Definition fmt_1f (x : Q) : string :=
  let n := round_half_even (Qabs x * 10) in
  (if Qlt_bool x 0 then "-" else "")
    +:+ pretty (n / 10)%Z +:+ "." +:+ pretty (n mod 10)%Z.

(** [sorted(l, key=key, reverse=True)]: a stable sort, largest key first;
    elements with equal keys keep the order they had in [l]. *)
Section Sorted.
Context {A K : Type} (leb : K -> K -> bool) (key : A -> K).

(** [x] stood before every element of the already sorted [l]. *)
Fixpoint insert_rev (x : A) (l : list A) : list A :=
  match l with
  | [] => [x]
  | y :: l' => if leb (key y) (key x) then x :: l else y :: insert_rev x l'
  end.

Definition sorted_rev (l : list A) : list A := foldr insert_rev [] l.
End Sorted.

End Py.

(** ** anomaly_detector.py *)
Module AnomalyDetector.

Record Anomaly : Type := {
  timestamp : Z;
  asset_id : string;
  metric : string;
  value : Q;
  expected_value : Q;
  deviation : Q;
  severity : string;
  confidence : Q;
  description : string
}.

(** [self.z_threshold], a dict in insertion order. *)
Definition z_threshold : list (string * Q) :=
  [("LOW", 2.0); ("MEDIUM", 2.5); ("HIGH", 3.0); ("CRITICAL", 3.5)].

(** The loop of [_check_anomaly]: the first level, thresholds descending,
    that the score reaches. *)
Fixpoint first_level (z_score : Q) (items : list (string * Q)) : option string :=
  match items with
  | [] => None
  | (level, threshold) :: rest =>
      if Qle_bool threshold z_score then Some level
      else first_level z_score rest
  end.

Definition severity_of (z_score : Q) : option string :=
  first_level z_score (Py.sorted_rev Qle_bool snd z_threshold).

Definition z_score_of (value mean std : Q) : Q := Py.abs ((value - mean) / std).

Section CheckAnomaly.
(** [stats.norm.cdf]. *)
Variable norm_cdf : Q -> Q.

Definition _check_anomaly (value mean : Q) (std : option Q)
    (metric : string) (timestamp : Z) (asset_id : string) : option Anomaly :=
  match std with
  | None => None
  | Some std =>
      if Qeq_bool std 0 then None
      else
        let z_score := z_score_of value mean std in
        match severity_of z_score with
        | None => None
        | Some "" => None
        | Some severity =>
            let confidence := Py.min 99.9 (norm_cdf z_score * 100) in
            let direction :=
              if Py.Qlt_bool value mean then "below" else "above" in
            let description :=
              metric +:+ " is " +:+ Py.fmt_1f (Py.abs (value - mean))
                +:+ " points " +:+ direction
                +:+ " normal (" +:+ Py.fmt_1f mean +:+ ")" in
            Some {| timestamp := timestamp;
                    asset_id := asset_id;
                    metric := metric;
                    value := value;
                    expected_value := mean;
                    deviation := z_score;
                    severity := severity;
                    confidence := confidence;
                    description := description |}
        end
  end.
End CheckAnomaly.

(** A row of the recent-data query and a row of the baseline query of
    [detect_oee_anomalies].  [STDDEV] is NULL over a single sample. *)
Record OeeRow : Type := {
  r_asset_id : string;
  r_timestamp : Z;
  r_oee : Q;
  r_availability : Q;
  r_performance : Q;
  r_quality : Q
}.

Record BaselineRow : Type := {
  b_asset_id : string;
  avg_oee : Q;
  std_oee : option Q;
  avg_availability : Q;
  std_availability : option Q;
  avg_performance : Q;
  std_performance : option Q;
  avg_quality : Q;
  std_quality : option Q
}.

(** [if a: anomalies.append(a)]. *)
Definition append_if (a : option Anomaly) (anomalies : list Anomaly) : list Anomaly :=
  match a with
  | Some a => anomalies ++ [a]
  | None => anomalies
  end.

Section DetectOee.
Variable norm_cdf : Q -> Q.

Definition check_data_point (baselines : gmap string BaselineRow)
    (anomalies : list Anomaly) (data_point : OeeRow) : list Anomaly :=
  let asset_id := r_asset_id data_point in
  match baselines !! asset_id with
  | None => anomalies
  | Some baseline =>
      let ts := r_timestamp data_point in
      let anomalies :=
        append_if (_check_anomaly norm_cdf (r_oee data_point)
                     (avg_oee baseline) (std_oee baseline)
                     "OEE" ts asset_id) anomalies in
      let anomalies :=
        append_if (_check_anomaly norm_cdf (r_availability data_point)
                     (avg_availability baseline) (std_availability baseline)
                     "Availability" ts asset_id) anomalies in
      let anomalies :=
        append_if (_check_anomaly norm_cdf (r_performance data_point)
                     (avg_performance baseline) (std_performance baseline)
                     "Performance" ts asset_id) anomalies in
      append_if (_check_anomaly norm_cdf (r_quality data_point)
                   (avg_quality baseline) (std_quality baseline)
                   "Quality" ts asset_id) anomalies
  end.

(** [detect_oee_anomalies], from the results of its two queries. *)
Definition detect_oee_anomalies (recent_data : list OeeRow)
    (baseline_rows : list BaselineRow) : list Anomaly :=
  let baselines : gmap string BaselineRow :=
    foldl (fun m row => <[b_asset_id row := row]> m) ∅ baseline_rows in
  foldl (check_data_point baselines) [] recent_data.
End DetectOee.

(** *** Pattern detector *)

(** A row of the telemetry query of [detect_pattern_anomalies]; a NULL cell
    is [None].  In the data frame a column with a number in some row is a
    float column, where NULL is NaN; a column that is NULL in every row is a
    column of dtype object. *)
Record PatternRow : Type := {
  p_timestamp : Z;
  p_oee : option Q;
  p_runtime : option Q;
  p_downtime : option Q;
  p_good_count : option Q;
  p_reject_count : option Q
}.

(** An event dict; [e_value] is [None] where the dict has no 'value' key. *)
Record PatternEvent : Type := {
  e_type : string;
  e_metric : string;
  e_timestamp : Z;
  e_value : option (option Q);
  e_severity : string;
  e_description : string
}.

(** A column of dtype object: every cell is NULL. *)
Definition object_column (s : list (option Q)) : bool :=
  forallb (fun cell => match cell with None => true | Some _ => false end) s.

(** What a call on the data frame comes to. *)
Inductive outcome (A : Type) : Type :=
| Returns (a : A)
| RaisesTypeError.
Arguments Returns {A} a.
Arguments RaisesTypeError {A}.

(** Arithmetic and comparison of float cells: NaN propagates through an
    operation and makes every comparison false. *)
Definition nan_sub (a b : option Q) : option Q :=
  match a, b with
  | Some x, Some y => Some (x - y)
  | _, _ => None
  end.

Definition nan_mul (a b : option Q) : option Q :=
  match a, b with
  | Some x, Some y => Some (x * y)
  | _, _ => None
  end.

Definition nan_lt (a b : option Q) : bool :=
  match a, b with
  | Some x, Some y => Py.Qlt_bool x y
  | _, _ => false
  end.

(** [Series.diff()]: NaN for the first row. *)
Definition series_diff (s : list (option Q)) : list (option Q) :=
  match s with
  | [] => []
  | _ :: rest => None :: zip_with nan_sub rest s
  end.

(** [Series.mean()]: the mean of the cells that are not NaN, NaN when there
    is none. *)
Definition series_mean (s : list (option Q)) : option Q :=
  match omap id s with
  | [] => None
  | vals => Some (foldl Qplus 0 vals / inject_Z (Z.of_nat (length vals)))
  end.

(** [data[mask]]: the rows whose mask cell is true, in order. *)
Fixpoint select {A} (data : list A) (mask : list bool) : list A :=
  match data, mask with
  | row :: data', m :: mask' =>
      if m then row :: select data' mask' else select data' mask'
  | _, _ => []
  end.

Section Patterns.
(** How a timestamp prints inside an f-string. *)
Variable str_timestamp : Z -> string.

(** pandas on a column of dtype object.  [Series.diff()] subtracts the
    cells as Python objects and raises TypeError on None.  [*] and [>] on
    such a column either raise TypeError as well or go through pandas'
    masking of the NULL cells (NaN, then False): [object_arith_raises]
    says which. *)
Variable object_arith_raises : bool.

Definition sudden_drop_event (row : PatternRow) : PatternEvent :=
  {| e_type := "SUDDEN_DROP";
     e_metric := "OEE";
     e_timestamp := p_timestamp row;
     e_value := Some (p_oee row);
     e_severity := "HIGH";
     e_description :=
       "Sudden OEE drop detected at " +:+ str_timestamp (p_timestamp row) |}.

Definition trend_event (end_time : Z) : PatternEvent :=
  {| e_type := "TREND";
     e_metric := "Quality";
     e_timestamp := end_time;
     e_value := None;
     e_severity := "MEDIUM";
     e_description := "Increasing reject rate trend detected" |}.

Definition threshold_breach_event (row : PatternRow) : PatternEvent :=
  {| e_type := "THRESHOLD_BREACH";
     e_metric := "Downtime";
     e_timestamp := p_timestamp row;
     e_value := Some (p_downtime row);
     e_severity := "HIGH";
     e_description :=
       "Excessive downtime at " +:+ str_timestamp (p_timestamp row) |}.

(** [detect_pattern_anomalies]: [data] is what [cursor.fetchall()] returned,
    [end_time] what [datetime.now()] returns. *)
Definition detect_pattern_anomalies (data : list PatternRow) (end_time : Z)
    : outcome (list PatternEvent) :=
  if (length data <? 10)%nat then Returns []
  else if object_column (p_oee <$> data) then RaisesTypeError
  else
    let oee_diff := series_diff (p_oee <$> data) in
    let sudden_drops :=
      select data ((fun d => nan_lt d (Some (-20))) <$> oee_diff) in
    let patterns := sudden_drop_event <$> sudden_drops in
    let patterns :=
      if (20 <=? length data)%nat then
        let recent_rejects :=
          series_mean (p_reject_count <$> drop (length data - 10) data) in
        let historical_rejects :=
          series_mean (p_reject_count <$> take 10 data) in
        if nan_lt (nan_mul historical_rejects (Some 1.5)) recent_rejects
        then patterns ++ [trend_event end_time]
        else patterns
      else patterns in
    if object_arith_raises
       && (object_column (p_runtime <$> data)
           || object_column (p_downtime <$> data))
    then RaisesTypeError
    else
      let high_downtime :=
        select data
          ((fun row =>
              nan_lt (nan_mul (p_runtime row) (Some 0.3)) (p_downtime row))
             <$> data) in
      Returns (patterns ++ (threshold_breach_event <$> high_downtime)).
End Patterns.

(** *** Multivariate detector *)

(** A row of the telemetry query; [oee] and [current] may be NULL. *)
Record TelemetryRow : Type := {
  t_timestamp : Z;
  t_asset_id : string;
  t_oee : option Q;
  t_temperature : Q;
  t_pressure : Q;
  t_vibration : Q;
  t_current : option Q
}.

Record MultivariateAnomaly : Type := {
  m_timestamp : Z;
  m_asset_id : string;
  m_type : string;
  m_distance : Q;
  m_severity : string;
  m_description : string;
  m_parameters : gmap string (option Q)
}.

Section Multivariate.
(** The numpy/pandas part of the function: mean imputation, covariance,
    [np.linalg.pinv] and, for the row at position [idx],
    [np.sqrt(diff.T @ inv_cov @ diff)].  [None] when [pinv] raises. *)
Variable mahalanobis : list TelemetryRow -> option (nat -> Q).

Definition flag_row (distance : nat -> Q) (idx : nat) (row : TelemetryRow)
    : list MultivariateAnomaly :=
  let m_distance := distance idx in
  if Py.Qlt_bool 15.09 m_distance then
    [ {| m_timestamp := t_timestamp row;
         m_asset_id := t_asset_id row;
         m_type := "MULTIVARIATE";
         m_distance := m_distance;
         m_severity := if Py.Qlt_bool 20 m_distance then "HIGH" else "MEDIUM";
         m_description := "Multiple parameters showing unusual combination";
         m_parameters :=
           {[ "oee" := t_oee row;
              "temperature" := Some (t_temperature row);
              "pressure" := Some (t_pressure row);
              "vibration" := Some (t_vibration row) ]} |} ]
  else [].

Definition detect_multivariate_anomalies (data : list TelemetryRow)
    : list MultivariateAnomaly :=
  if (length data <? 30)%nat then []
  else
    match mahalanobis data with
    | None => []
    | Some distance => mjoin (imap (flag_row distance) data)
    end.
End Multivariate.

(** *** Alerts *)

Inductive Alert : Type :=
| MULTIPLE_ANOMALIES (asset_id severity : string) (count : nat)
    (metrics : gset string) (action : string) (timestamp : Z)
| SINGLE_ANOMALY (asset_id severity metric : string) (value expected : Q)
    (action : string) (timestamp : Z).

(** [x['severity']]. *)
Definition alert_severity (x : Alert) : string :=
  match x with
  | MULTIPLE_ANOMALIES _ severity _ _ _ _ => severity
  | SINGLE_ANOMALY _ severity _ _ _ _ _ => severity
  end.

Definition actions : gmap string (gmap string string) :=
  {[ "OEE" := {[ "HIGH" := "Check production line immediately";
                 "CRITICAL" := "Stop production and investigate" ]};
     "Availability" := {[ "HIGH" := "Check for equipment failures";
                          "CRITICAL" := "Initiate maintenance protocol" ]};
     "Performance" := {[ "HIGH" := "Review cycle times and minor stops";
                         "CRITICAL" := "Check for major speed losses" ]};
     "Quality" := {[ "HIGH" := "Increase quality inspections";
                     "CRITICAL" := "Quarantine recent production" ]} ]}.

Definition _get_recommended_action (anomaly : Anomaly) : string :=
  default "Monitor situation closely"
    (default ∅ (actions !! metric anomaly) !! severity anomaly).

(** [grouped[key].append(anomaly)] on a [defaultdict(list)]; the dict keeps
    its keys in the order of their first insertion. *)
Fixpoint group_append (key : string * string) (anomaly : Anomaly)
    (grouped : list ((string * string) * list Anomaly))
    : list ((string * string) * list Anomaly) :=
  match grouped with
  | [] => [(key, [anomaly])]
  | (k, group) :: rest =>
      if decide (k = key) then (k, group ++ [anomaly]) :: rest
      else (k, group) :: group_append key anomaly rest
  end.

Definition group_anomalies (anomalies : list Anomaly)
    : list ((string * string) * list Anomaly) :=
  foldl (fun grouped anomaly =>
           group_append (asset_id anomaly, severity anomaly) anomaly grouped)
        [] anomalies.

(** [max(a.timestamp for a in group)]; the group is not empty. *)
Definition max_timestamp (group : list Anomaly) : Z :=
  match group with
  | [] => 0%Z
  | a :: rest => foldl (fun m b => Z.max m (timestamp b)) (timestamp a) rest
  end.

Definition alerts_of_group (entry : (string * string) * list Anomaly) : list Alert :=
  let '((asset_id, severity), group) := entry in
  if (3 <=? length group)%nat then
    [ MULTIPLE_ANOMALIES asset_id severity (length group)
        (list_to_set (metric <$> group))
        "Immediate investigation required"
        (max_timestamp group) ]
  else if bool_decide (severity = "HIGH" \/ severity = "CRITICAL") then
    (fun anomaly =>
       SINGLE_ANOMALY asset_id severity (metric anomaly) (value anomaly)
         (expected_value anomaly) (_get_recommended_action anomaly)
         (timestamp anomaly)) <$> group
  else [].

Definition generate_alerts (anomalies : list Anomaly) : list Alert :=
  let alerts := mjoin (alerts_of_group <$> group_anomalies anomalies) in
  Py.sorted_rev String.leb alert_severity alerts.

End AnomalyDetector.

(** ** oee_calculator.py *)
Module OEECalculator.

Record OEEMetrics : Type := {
  timestamp : Z;
  asset_id : string;
  line_id : string;
  oee : Q;
  availability : Q;
  performance : Q;
  quality : Q;
  runtime : Q;
  downtime : Q;
  total_count : Z;
  good_count : Z;
  reject_count : Z
}.

(** The row of the aggregate query of [calculate_oee]; a [SUM] or [AVG]
    over NULLs is NULL. *)
Record AggregateRow : Type := {
  a_asset_id : string;
  a_line_id : string;
  total_runtime : option Q;
  total_downtime : option Q;
  total_good : option Z;
  total_reject : option Z;
  avg_temp : option Q;
  avg_vibration : option Q
}.

(** *** The redis client and the effects of [calculate_oee]

    A key holds the number its string denotes, with the expiry it was set
    with.  A computation reads and writes the cache and returns a value or
    raises. *)
Abbreviation Redis := (gmap string (Z * Q)).

Definition M (A : Type) : Type := Redis -> Py.result A * Redis.

Definition ret {A} (a : A) : M A := fun r => (Py.Ok a, r).
Definition raise {A} (e : Py.exn) : M A := fun r => (Py.Raise e, r).
Definition bind {A B} (c : M A) (k : A -> M B) : M B :=
  fun r =>
    match c r with
    | (Py.Ok a, r') => k a r'
    | (Py.Raise e, r') => (Py.Raise e, r')
    end.
Definition lift {A} (x : Py.result A) : M A := fun r => (x, r).
Definition redis_get (key : string) : M (option Q) :=
  fun r => (Py.Ok (snd <$> r !! key), r).
Definition redis_setex (key : string) (ttl : Z) (v : Q) : M unit :=
  fun r => (Py.Ok tt, <[key := (ttl, v)]> r).

Notation "x <- c ;; k" := (bind c (fun x => k))
  (at level 100, c at next level, right associativity).

Definition _get_ideal_cycle_time (asset_id : string) : M Q :=
  let cache_key := "ideal_cycle_time:" +:+ asset_id in
  cached_value <- redis_get cache_key ;;
  match cached_value with
  | Some v => ret v
  | None =>
      let ideal_time := 1.0 in
      _ <- redis_setex cache_key 3600 ideal_time ;;
      ret ideal_time
  end.

(** The three components before the cap, as [calculate_oee] computes
    them: [x / y * 100 if guard > 0 else 0]. *)
Definition ratio_pct (guard x y : Q) : M Q :=
  if Py.Qlt_bool 0 guard then
    q <- lift (Py.truediv x y) ;; ret (q * 100)
  else ret 0.

Definition cap (x : Q) : Q := Py.min 100 (Py.max 0 x).

(** [calculate_oee]: [data] is what [cursor.fetchone()] returned, [now]
    what [datetime.now()] returns. *)
Definition calculate_oee (data : option AggregateRow) (now : Z)
    (asset_id : string) (start_time end_time : Z) : M OEEMetrics :=
  match data with
  | None => raise (Py.ValueError ("No data found for asset " +:+ asset_id))
  | Some data =>
      let planned_time := inject_Z (end_time - start_time) / 1000000 / 60 in
      let runtime := Py.or0 (total_runtime data) in
      let downtime := Py.or0 (total_downtime data) in
      let good_count := Py.or0Z (total_good data) in
      let reject_count := Py.or0Z (total_reject data) in
      let total_count := (good_count + reject_count)%Z in
      availability <- ratio_pct planned_time runtime planned_time ;;
      ideal_cycle_time <- _get_ideal_cycle_time asset_id ;;
      performance <-
        ratio_pct runtime (inject_Z total_count * ideal_cycle_time) runtime ;;
      quality <-
        ratio_pct (inject_Z total_count) (inject_Z good_count)
          (inject_Z total_count) ;;
      let oee := (availability * performance * quality) / 10000 in
      let availability := cap availability in
      let performance := cap performance in
      let quality := cap quality in
      let oee := cap oee in
      ret {| timestamp := now;
             asset_id := asset_id;
             line_id := a_line_id data;
             oee := oee;
             availability := availability;
             performance := performance;
             quality := quality;
             runtime := runtime;
             downtime := downtime;
             total_count := total_count;
             good_count := good_count;
             reject_count := reject_count |}
  end.

(** *** Loss analysis *)

Record LossRow : Type := {
  l_category : string;
  l_subcategory : string;
  l_reason : string;
  total_duration : Q;
  total_impact : Q;
  l_occurrences : Z
}.

Record ParetoEntry : Type := {
  category : string;
  subcategory : string;
  reason : string;
  duration : Q;
  impact : Q;
  occurrences : Z;
  percentage : Q;
  cumulative_percentage : Q
}.

Record Recommendation : Type := {
  area : string;
  priority : string;
  action : string;
  expected_impact : string
}.

Record LossAnalysis : Type := {
  period : Z * Z;
  total_loss_time : Q;
  total_losses : nat;
  pareto_analysis : list ParetoEntry;
  vital_few : list ParetoEntry;
  recommendations : list Recommendation
}.

Definition sum_durations (losses : list LossRow) : Q :=
  foldl (fun acc loss => acc + total_duration loss) 0 losses.

(** The Pareto loop; [cumulative_percentage] is the running sum before the
    loop reaches [losses].  The guard excludes a zero divisor. *)
Fixpoint pareto_loop (total_loss_time cumulative_percentage : Q)
    (losses : list LossRow) : list ParetoEntry :=
  match losses with
  | [] => []
  | loss :: rest =>
      let percentage :=
        if Py.Qlt_bool 0 total_loss_time
        then total_duration loss / total_loss_time * 100 else 0 in
      let cumulative_percentage := cumulative_percentage + percentage in
      {| category := l_category loss;
         subcategory := l_subcategory loss;
         reason := l_reason loss;
         duration := total_duration loss;
         impact := total_impact loss;
         occurrences := l_occurrences loss;
         percentage := Py.round2 percentage;
         cumulative_percentage := Py.round2 cumulative_percentage |}
        :: pareto_loop total_loss_time cumulative_percentage rest
  end.

(** The 80% loop: append, then stop at the first entry that reaches 80. *)
Fixpoint vital_few_loop (pareto_losses : list ParetoEntry) : list ParetoEntry :=
  match pareto_losses with
  | [] => []
  | loss :: rest =>
      loss :: (if Qle_bool 80 (cumulative_percentage loss) then []
               else vital_few_loop rest)
  end.

Definition recommend (loss : ParetoEntry) : list Recommendation :=
  if String.eqb (category loss) "AVAILABILITY" then
    if String.eqb (subcategory loss) "BREAKDOWN" then
      [ {| area := "Maintenance"; priority := "HIGH";
           action := "Implement predictive maintenance for " +:+ reason loss;
           expected_impact :=
             "Reduce downtime by " +:+ Py.fmt_1f (percentage loss / 2) +:+ "%" |} ]
    else if String.eqb (subcategory loss) "SETUP" then
      [ {| area := "Process"; priority := "MEDIUM";
           action := "Apply SMED techniques to reduce " +:+ reason loss +:+ " time";
           expected_impact := "Reduce setup time by 30-50%" |} ]
    else []
  else if String.eqb (category loss) "PERFORMANCE" then
    if String.eqb (subcategory loss) "MINOR_STOPS" then
      [ {| area := "Automation"; priority := "MEDIUM";
           action := "Automate or eliminate minor stops due to " +:+ reason loss;
           expected_impact :=
             "Improve performance by " +:+ Py.fmt_1f (percentage loss / 3) +:+ "%" |} ]
    else if String.eqb (subcategory loss) "SPEED_LOSS" then
      [ {| area := "Optimization"; priority := "LOW";
           action := "Optimize process parameters for " +:+ reason loss;
           expected_impact := "Increase speed by 10-15%" |} ]
    else []
  else if String.eqb (category loss) "QUALITY" then
    [ {| area := "Quality Control"; priority := "HIGH";
         action := "Implement SPC and root cause analysis for " +:+ reason loss;
         expected_impact :=
           "Reduce defects by " +:+ Py.fmt_1f (percentage loss / 2) +:+ "%" |} ]
  else [].

Definition _generate_recommendations (vital_losses : list ParetoEntry)
    : list Recommendation :=
  mjoin (recommend <$> take 5 vital_losses).

Inductive LossResult : Type :=
| NoLosses (message : string)
| Losses (analysis : LossAnalysis).

(** [analyze_losses]: [losses] is what [cursor.fetchall()] returned. *)
Definition analyze_losses (losses : list LossRow) (start_time end_time : Z)
    : LossResult :=
  match losses with
  | [] => NoLosses "No losses found for the period"
  | _ =>
      let total_loss_time := sum_durations losses in
      let pareto_losses := pareto_loop total_loss_time 0 losses in
      let vital_few := vital_few_loop pareto_losses in
      Losses {| period := (start_time, end_time);
                total_loss_time := total_loss_time;
                total_losses := length losses;
                pareto_analysis := pareto_losses;
                vital_few := vital_few;
                recommendations := _generate_recommendations vital_few |}
  end.

(** *** Trend forecast *)

Record TrendReport : Type := {
  historical_average : Q;
  trend : string;
  trend_strength : Q;
  daily_change : Q;
  forecast : list (Z * Q)
}.

Inductive TrendResult : Type :=
| TrendError (error : string)
| Trend (report : TrendReport).

Definition np_sum (l : list Q) : Q := foldl Qplus 0 l.
Definition np_mean (l : list Q) : Q := np_sum l / inject_Z (Z.of_nat (length l)).

(** The fitted slope of the daily values [y] against their day numbers. *)
Definition day_nums (n : nat) : list Q :=
  (fun i => inject_Z (Z.of_nat i)) <$> seq 0 n.

Definition slope_of (y : list Q) : Q :=
  let x := day_nums (length y) in
  let x_mean := np_mean x in
  let y_mean := np_mean y in
  let numerator :=
    np_sum (zip_with (fun xi yi => (xi - x_mean) * (yi - y_mean)) x y) in
  let denominator := np_sum ((fun xi => (xi - x_mean) ^ 2) <$> x) in
  if Qeq_bool denominator 0 then 0 else numerator / denominator.

Definition trend_of (slope : Q) : string :=
  if Py.Qlt_bool 0.1 slope then "IMPROVING"
  else if Py.Qlt_bool slope (-0.1) then "DECLINING"
  else "STABLE".

Definition microseconds_per_day : Z := 86400000000.

(** [predict_oee_trend]: [data] is what [cursor.fetchall()] returned, one
    row [(date, daily_oee)] per day that has data, [now] what
    [datetime.now()] returns. *)
Definition predict_oee_trend (data : list (Z * Q)) (now : Z)
    (days_forecast : Z) : TrendResult :=
  if (length data <? 7)%nat then
    TrendError "Insufficient data for trend analysis"
  else
    let end_date := now in
    let y := snd <$> data in
    let x := day_nums (length y) in
    let n := length x in
    let x_mean := np_mean x in
    let y_mean := np_mean y in
    let slope := slope_of y in
    let intercept := y_mean - slope * x_mean in
    let y_pred := (fun xi => slope * xi + intercept) <$> x in
    let ss_res := np_sum (zip_with (fun yi pi => (yi - pi) ^ 2) y y_pred) in
    let ss_tot := np_sum ((fun yi => (yi - y_mean) ^ 2) <$> y) in
    let r_squared := if Qeq_bool ss_tot 0 then 0 else 1 - ss_res / ss_tot in
    let forecast_days := seq n (Z.to_nat days_forecast) in
    let forecast_values :=
      (fun day => slope * inject_Z (Z.of_nat day) + intercept) <$> forecast_days in
    let forecast_dates :=
      (fun i => (end_date + (Z.of_nat i + 1) * microseconds_per_day)%Z)
        <$> seq 0 (Z.to_nat days_forecast) in
    Trend {| historical_average := y_mean;
             trend := trend_of slope;
             trend_strength := r_squared;
             daily_change := slope;
             forecast :=
               zip_with (fun date value => (date, Py.min 100 (Py.max 0 value)))
                 forecast_dates forecast_values |}.

End OEECalculator.

(** ** The ideal cycle time on the cache as redis holds it

    [OEECalculator] keeps, for a key, the number its string denotes.  Here
    the cache holds the strings themselves, so that an empty string and a
    string that is not a number can be told apart. *)
Module RedisStrings.

Section Float.
(** Python's [float] on a string: [None] where it raises ValueError. *)
Variable float : string -> option Q.

Definition _get_ideal_cycle_time (asset_id : string)
    (r : gmap string (Z * string)) : Py.result Q * gmap string (Z * string) :=
  let cache_key := "ideal_cycle_time:" +:+ asset_id in
  let cached_value := snd <$> r !! cache_key in
  let miss :=
    let ideal_time := 1.0 in
    (Py.Ok ideal_time, <[cache_key := (3600%Z, "1.0")]> r) in
  match cached_value with
  | Some cached_value =>
      if String.eqb cached_value "" then miss
      else
        match float cached_value with
        | Some x => (Py.Ok x, r)
        | None =>
            (Py.Raise
               (Py.ValueError
                  ("could not convert string to float: '" +:+ cached_value
                     +:+ "'")), r)
        end
  | None => miss
  end.
End Float.

End RedisStrings.
(** * Properties *)

(** ** Comparisons and the Python builtins *)

Lemma Qlt_bool_iff (a b : Q) : Py.Qlt_bool a b = true <-> a < b.
Proof.
  unfold Py.Qlt_bool. rewrite negb_true_iff.
  destruct (Qle_bool b a) eqn:E.
  - apply Qle_bool_iff in E. split; [discriminate | lra].
  - split; [intros _ | reflexivity].
    apply Qnot_le_lt. intros H. apply Qle_bool_iff in H. congruence.
Qed.

Lemma Qlt_bool_false (a b : Q) : Py.Qlt_bool a b = false <-> b <= a.
Proof.
  destruct (Py.Qlt_bool a b) eqn:E.
  - apply Qlt_bool_iff in E. split; [discriminate | lra].
  - split; [intros _ | reflexivity].
    apply Qnot_lt_le. intros H. apply Qlt_bool_iff in H. congruence.
Qed.

Lemma Qle_bool_false (a b : Q) : Qle_bool a b = false <-> b < a.
Proof.
  destruct (Qle_bool a b) eqn:E.
  - apply Qle_bool_iff in E. split; [discriminate | lra].
  - split; [intros _ | reflexivity].
    apply Qnot_le_lt. intros H. apply Qle_bool_iff in H. congruence.
Qed.

Lemma Qeq_bool_false (a b : Q) : Qeq_bool a b = false <-> ~ a == b.
Proof.
  split.
  - intros E H. apply Qeq_bool_iff in H. congruence.
  - intros H. destruct (Qeq_bool a b) eqn:E; [| reflexivity].
    apply Qeq_bool_iff in E. contradiction.
Qed.

(** Case analysis on the boolean comparisons of a goal, keeping the facts. *)
Ltac case_cmp :=
  match goal with
  | |- context [Qle_bool ?a ?b] =>
      let E := fresh "E" in
      destruct (Qle_bool a b) eqn:E;
      [apply Qle_bool_iff in E | apply Qle_bool_false in E]
  | |- context [Py.Qlt_bool ?a ?b] =>
      let E := fresh "E" in
      destruct (Py.Qlt_bool a b) eqn:E;
      [apply Qlt_bool_iff in E | apply Qlt_bool_false in E]
  | |- context [Qeq_bool ?a ?b] =>
      let E := fresh "E" in
      destruct (Qeq_bool a b) eqn:E;
      [apply Qeq_bool_iff in E | apply Qeq_bool_false in E]
  end.

(** ** The univariate check *)
Section Univariate.
Import AnomalyDetector.

(** The thresholds as the loop of [_check_anomaly] visits them. *)
Lemma thresholds_descending :
  Py.sorted_rev Qle_bool snd z_threshold
  = [("CRITICAL", 3.5); ("HIGH", 3.0); ("MEDIUM", 2.5); ("LOW", 2.0)].
Proof. reflexivity. Qed.

Lemma severity_of_cases (z : Q) :
  severity_of z =
    if Qle_bool 3.5 z then Some "CRITICAL"
    else if Qle_bool 3.0 z then Some "HIGH"
    else if Qle_bool 2.5 z then Some "MEDIUM"
    else if Qle_bool 2.0 z then Some "LOW"
    else None.
Proof. unfold severity_of. rewrite thresholds_descending. reflexivity. Qed.

(** What a call returns, as a function of the level the score reaches. *)
Lemma check_anomaly_severity cdf value mean std metric ts asset :
  ~ std == 0 ->
  severity <$> _check_anomaly cdf value mean (Some std) metric ts asset
  = severity_of (z_score_of value mean std).
Proof.
  intros Hstd. unfold _check_anomaly.
  apply Qeq_bool_false in Hstd. rewrite Hstd.
  rewrite severity_of_cases. repeat case_cmp; reflexivity.
Qed.

Lemma check_anomaly_none cdf value mean std metric ts asset :
  ~ std == 0 ->
  severity_of (z_score_of value mean std) = None ->
  _check_anomaly cdf value mean (Some std) metric ts asset = None.
Proof.
  intros Hstd Hz. unfold _check_anomaly.
  apply Qeq_bool_false in Hstd. rewrite Hstd, Hz. reflexivity.
Qed.

(** The intended order of the labels: no anomaly, then LOW < MEDIUM < HIGH
    < CRITICAL. *)
Definition severity_rank (s : option string) : nat :=
  match s with
  | Some "LOW" => 1
  | Some "MEDIUM" => 2
  | Some "HIGH" => 3
  | Some "CRITICAL" => 4
  | _ => 0
  end.

Lemma severity_of_monotone (z1 z2 : Q) :
  z1 <= z2 ->
  (severity_rank (severity_of z1) <= severity_rank (severity_of z2))%nat.
Proof.
  intros H. rewrite !severity_of_cases.
  repeat case_cmp; simpl; solve [lia | lra].
Qed.

Lemma z_score_of_positive_std (value mean std : Q) :
  0 < std -> z_score_of value mean std == Qabs (value - mean) / std.
Proof.
  intros Hstd. unfold z_score_of, Py.abs, Qdiv.
  rewrite Qabs_Qmult. rewrite (Qabs_pos (/ std)); [reflexivity |].
  apply Qlt_le_weak, Qinv_lt_0_compat, Hstd.
Qed.

(** C1. A check against a baseline whose stddev is undefined or zero
    returns no anomaly.  Otherwise, with z the score the code computes
    (which is |value - mean| / stddev for a positive stddev), the call
    returns an anomaly of severity CRITICAL when z >= 3.5, HIGH when
    3.0 <= z < 3.5, MEDIUM when 2.5 <= z < 3.0, LOW when 2.0 <= z < 2.5, and
    no anomaly when z < 2.0; the rank of the result never decreases as z
    grows. *)
Theorem check_anomaly_severity_bands (cdf : Q -> Q) (value mean : Q)
    (metric : string) (ts : Z) (asset : string) :
  _check_anomaly cdf value mean None metric ts asset = None
  /\ (forall std, std == 0 ->
        _check_anomaly cdf value mean (Some std) metric ts asset = None)
  /\ (forall std, ~ std == 0 ->
        let z := z_score_of value mean std in
        let r := _check_anomaly cdf value mean (Some std) metric ts asset in
        (0 < std -> z == Qabs (value - mean) / std)
        /\ (3.5 <= z -> severity <$> r = Some "CRITICAL")
        /\ (3.0 <= z < 3.5 -> severity <$> r = Some "HIGH")
        /\ (2.5 <= z < 3.0 -> severity <$> r = Some "MEDIUM")
        /\ (2.0 <= z < 2.5 -> severity <$> r = Some "LOW")
        /\ (z < 2.0 -> r = None)
        /\ (forall a, r = Some a -> deviation a = z))
  /\ (forall std value' mean' std', ~ std == 0 -> ~ std' == 0 ->
        z_score_of value mean std <= z_score_of value' mean' std' ->
        (severity_rank
           (severity <$> _check_anomaly cdf value mean (Some std) metric ts asset)
         <= severity_rank
              (severity <$> _check_anomaly cdf value' mean' (Some std') metric ts asset))%nat).
Proof.
  split; [reflexivity |]. split; [| split].
  - intros std Hstd. unfold _check_anomaly.
    apply Qeq_bool_iff in Hstd. rewrite Hstd. reflexivity.
  - intros std Hstd z r.
    split; [apply z_score_of_positive_std |].
    assert (Hsev : severity <$> r = severity_of z)
      by (apply check_anomaly_severity, Hstd).
    rewrite severity_of_cases in Hsev.
    repeat split.
    + intros H. rewrite Hsev. repeat case_cmp; solve [reflexivity | lra].
    + intros [H1 H2]. rewrite Hsev. repeat case_cmp; solve [reflexivity | lra].
    + intros [H1 H2]. rewrite Hsev. repeat case_cmp; solve [reflexivity | lra].
    + intros [H1 H2]. rewrite Hsev. repeat case_cmp; solve [reflexivity | lra].
    + intros H. apply check_anomaly_none; [exact Hstd |].
      fold z. rewrite severity_of_cases.
      repeat case_cmp; solve [reflexivity | lra].
    + intros a Ha. subst r. unfold _check_anomaly in Ha.
      apply Qeq_bool_false in Hstd. rewrite Hstd in Ha.
      fold z in Ha. destruct (severity_of z) as [[| c s] |]; try discriminate.
      injection Ha as <-. reflexivity.
  - intros std value' mean' std' Hstd Hstd' Hz.
    rewrite !check_anomaly_severity by assumption.
    apply severity_of_monotone, Hz.
Qed.

(** The scenario of the specification: mean 80, stddev 5, sample 95. *)
Lemma check_anomaly_severity_bands_witness :
  let r := _check_anomaly (fun _ => 0.9987) 95 80 (Some 5) "OEE" 0 "A1" in
  severity <$> r = Some "HIGH"
  /\ description <$> r = Some "OEE is 15.0 points above normal (80.0)".
Proof.
  split; [| reflexivity].
  destruct (check_anomaly_severity_bands (fun _ => 0.9987) 95 80 "OEE" 0 "A1")
    as (_ & _ & H & _).
  destruct (H 5) as (_ & _ & Hhigh & _).
  - intros E. vm_compute in E. discriminate.
  - apply Hhigh. split; vm_compute; [discriminate | reflexivity].
Defined.

End Univariate.

(** ** Confidence of the univariate detector *)
Section Confidence.
Import AnomalyDetector.

(** An anomaly that some call of [_check_anomaly] returned. *)
Definition emitted (cdf : Q -> Q) (a : Anomaly) : Prop :=
  exists value mean std metric ts asset,
    _check_anomaly cdf value mean std metric ts asset = Some a.

Lemma append_if_emitted cdf value mean std metric ts asset anomalies :
  Forall (emitted cdf) anomalies ->
  Forall (emitted cdf)
    (append_if (_check_anomaly cdf value mean std metric ts asset) anomalies).
Proof.
  intros H. unfold append_if.
  destruct (_check_anomaly cdf value mean std metric ts asset) as [a |] eqn:E;
    [| exact H].
  apply Forall_app. split; [exact H |].
  constructor; [| constructor].
  exists value, mean, std, metric, ts, asset. exact E.
Qed.

Lemma check_data_point_emitted cdf baselines anomalies data_point :
  Forall (emitted cdf) anomalies ->
  Forall (emitted cdf) (check_data_point cdf baselines anomalies data_point).
Proof.
  intros H. unfold check_data_point.
  destruct (baselines !! r_asset_id data_point); [| exact H].
  repeat apply append_if_emitted. exact H.
Qed.

(** [detect_oee_anomalies] returns only what [_check_anomaly] returned. *)
Lemma detect_oee_anomalies_emitted cdf recent_data baseline_rows :
  Forall (emitted cdf) (detect_oee_anomalies cdf recent_data baseline_rows).
Proof.
  unfold detect_oee_anomalies.
  generalize (foldl (fun m row => <[b_asset_id row := row]> m)
                (∅ : gmap string BaselineRow) baseline_rows).
  intros baselines.
  assert (H : Forall (emitted cdf) []) by constructor.
  revert H. generalize (@nil Anomaly).
  induction recent_data as [| data_point rest IH]; intros acc H; simpl.
  - exact H.
  - apply IH, check_data_point_emitted, H.
Qed.

Lemma emitted_confidence cdf a :
  emitted cdf a -> confidence a = Qmin 99.9 (cdf (deviation a) * 100).
Proof.
  intros (value & mean & std & metric & ts & asset & E).
  unfold _check_anomaly in E.
  destruct std as [std |]; [| discriminate].
  destruct (Qeq_bool std 0); [discriminate |].
  destruct (severity_of (z_score_of value mean std)) as [[| c s] |];
    try discriminate.
  injection E as <-. reflexivity.
Qed.

(** A step function that stays below the standard normal distribution
    function: non-negative and non-decreasing. *)
Definition cdf_steps (z : Q) : Q :=
  if Py.Qlt_bool z 0 then 0
  else if Py.Qlt_bool z 2 then 0.5
  else if Py.Qlt_bool z 3 then 0.977
  else if Py.Qlt_bool z 4 then 0.9986
  else 0.99996.

Lemma cdf_steps_nonneg (z : Q) : 0 <= cdf_steps z.
Proof. unfold cdf_steps. repeat case_cmp; lra. Qed.

Lemma cdf_steps_monotone (z1 z2 : Q) : z1 <= z2 -> cdf_steps z1 <= cdf_steps z2.
Proof. intros H. unfold cdf_steps. repeat case_cmp; lra. Qed.

(** C8. With [norm.cdf] a non-negative, non-decreasing function, every
    anomaly the univariate detector emits has confidence
    min(99.9, cdf(z) * 100) for its score z; the confidence lies in
    [0, 99.9], and of two emitted anomalies the one with the larger score
    has at least the confidence of the other. *)
Theorem confidence_min_cdf (cdf : Q -> Q)
    (cdf_nonneg : forall z, 0 <= cdf z)
    (cdf_monotone : forall z1 z2, z1 <= z2 -> cdf z1 <= cdf z2) :
  (forall recent_data baseline_rows,
      Forall (emitted cdf) (detect_oee_anomalies cdf recent_data baseline_rows))
  /\ (forall a, emitted cdf a ->
        confidence a = Qmin 99.9 (cdf (deviation a) * 100)
        /\ 0 <= confidence a <= 99.9)
  /\ (forall a1 a2, emitted cdf a1 -> emitted cdf a2 ->
        deviation a1 <= deviation a2 -> confidence a1 <= confidence a2).
Proof.
  split; [intros; apply detect_oee_anomalies_emitted |]. split.
  - intros a Ha. split; [apply emitted_confidence, Ha |].
    rewrite (emitted_confidence cdf a Ha). split.
    + apply Q.min_glb; [lra |]. pose proof (cdf_nonneg (deviation a)). lra.
    + apply Q.le_min_l.
  - intros a1 a2 H1 H2 Hz.
    rewrite (emitted_confidence cdf a1 H1), (emitted_confidence cdf a2 H2).
    apply Q.min_le_compat_l.
    pose proof (cdf_monotone _ _ Hz). lra.
Qed.

Lemma confidence_min_cdf_witness :
  exists a, _check_anomaly cdf_steps 95 80 (Some 5) "OEE" 0 "A1" = Some a
            /\ 0 <= confidence a <= 99.9.
Proof.
  eexists. split; [reflexivity |].
  apply (confidence_min_cdf cdf_steps cdf_steps_nonneg cdf_steps_monotone).
  exists 95, 80, (Some 5), "OEE", 0%Z, "A1". reflexivity.
Defined.

End Confidence.

(** ** The multivariate detector *)
Section MultivariateFacts.
Import AnomalyDetector.

Lemma flag_row_spec distance idx row obs :
  obs ∈ flag_row distance idx row ->
  15.09 < distance idx
  /\ obs = {| m_timestamp := t_timestamp row;
              m_asset_id := t_asset_id row;
              m_type := "MULTIVARIATE";
              m_distance := distance idx;
              m_severity :=
                if Py.Qlt_bool 20 (distance idx) then "HIGH" else "MEDIUM";
              m_description := "Multiple parameters showing unusual combination";
              m_parameters :=
                {[ "oee" := t_oee row;
                   "temperature" := Some (t_temperature row);
                   "pressure" := Some (t_pressure row);
                   "vibration" := Some (t_vibration row) ]} |}.
Proof.
  unfold flag_row. case_cmp.
  - intros H. apply list_elem_of_singleton in H. split; [exact E | exact H].
  - intros H. inversion H.
Qed.

(** Where an emitted observation comes from. *)
Lemma detect_multivariate_anomalies_inv mahalanobis data obs :
  obs ∈ detect_multivariate_anomalies mahalanobis data ->
  (30 <= length data)%nat
  /\ exists distance idx row,
       mahalanobis data = Some distance
       /\ data !! idx = Some row
       /\ obs ∈ flag_row distance idx row.
Proof.
  unfold detect_multivariate_anomalies.
  destruct (length data <? 30)%nat eqn:Hlen; [intros H; inversion H |].
  apply Nat.ltb_ge in Hlen.
  destruct (mahalanobis data) as [distance |]; [| intros H; inversion H].
  intros H. split; [exact Hlen |].
  apply list_elem_of_join in H as (l & Hobs & Hl).
  apply elem_of_lookup_imap in Hl as (idx & row & -> & Hrow).
  exists distance, idx, row. auto.
Qed.

(** C9, as the code has it.  Every observation that
    [detect_multivariate_anomalies] emits has a distance above 15.09, is
    HIGH when the distance is above 20 and MEDIUM otherwise, and its
    parameter snapshot holds the original oee, temperature, pressure and
    vibration of the flagged row. *)
Theorem multivariate_observation_snapshot
    (mahalanobis : list TelemetryRow -> option (nat -> Q))
    (data : list TelemetryRow) (obs : MultivariateAnomaly) :
  obs ∈ detect_multivariate_anomalies mahalanobis data ->
  15.09 < m_distance obs
  /\ (20 < m_distance obs -> m_severity obs = "HIGH")
  /\ (m_distance obs <= 20 -> m_severity obs = "MEDIUM")
  /\ exists distance idx row,
       mahalanobis data = Some distance
       /\ data !! idx = Some row
       /\ m_distance obs = distance idx
       /\ m_parameters obs !! "oee" = Some (t_oee row)
       /\ m_parameters obs !! "temperature" = Some (Some (t_temperature row))
       /\ m_parameters obs !! "pressure" = Some (Some (t_pressure row))
       /\ m_parameters obs !! "vibration" = Some (Some (t_vibration row)).
Proof.
  intros H.
  apply detect_multivariate_anomalies_inv in H
    as (_ & distance & idx & row & Hm & Hrow & Hobs).
  apply flag_row_spec in Hobs as [Hd ->]. simpl.
  split; [exact Hd |]. split; [| split].
  - intros H20. apply Qlt_bool_iff in H20. rewrite H20. reflexivity.
  - intros H20. apply Qlt_bool_false in H20. rewrite H20. reflexivity.
  - exists distance, idx, row.
    repeat split; first [assumption | reflexivity].
Qed.

(** A window of 300 rows: 299 alike and an outlier at the end, with the
    distances such a window has (about 0.06 and 17.26). *)
Definition steady_row : TelemetryRow :=
  {| t_timestamp := 0; t_asset_id := "A1"; t_oee := Some 80;
     t_temperature := 60; t_pressure := 5; t_vibration := 1;
     t_current := Some 10 |}.

Definition outlier_row : TelemetryRow :=
  {| t_timestamp := 299; t_asset_id := "A1"; t_oee := Some 20;
     t_temperature := 95; t_pressure := 9; t_vibration := 7;
     t_current := Some 31 |}.

Definition outlier_window : list TelemetryRow :=
  replicate 299 steady_row ++ [outlier_row].

Definition outlier_distance (data : list TelemetryRow) : option (nat -> Q) :=
  Some (fun idx => if (idx =? 299)%nat then 17.26 else 0.06).

Lemma multivariate_observation_snapshot_witness :
  exists obs,
    detect_multivariate_anomalies outlier_distance outlier_window = [obs]
    /\ 15.09 < m_distance obs
    /\ m_parameters obs !! "oee" = Some (Some 20).
Proof.
  eexists. split; [vm_compute; reflexivity |].
  destruct (multivariate_observation_snapshot outlier_distance outlier_window
              (Build_MultivariateAnomaly 299 "A1" "MULTIVARIATE" 17.26 "MEDIUM"
                 "Multiple parameters showing unusual combination"
                 {[ "oee" := Some 20; "temperature" := Some 95;
                    "pressure" := Some 9; "vibration" := Some 7 ]}))
    as (Hd & _).
  - replace (detect_multivariate_anomalies outlier_distance outlier_window)
      with [Build_MultivariateAnomaly 299 "A1" "MULTIVARIATE" 17.26 "MEDIUM"
              "Multiple parameters showing unusual combination"
              {[ "oee" := Some 20; "temperature" := Some 95;
                 "pressure" := Some 9; "vibration" := Some 7 ]}]
      by (vm_compute; reflexivity).
    apply list_elem_of_singleton. reflexivity.
  - split; [exact Hd | reflexivity].
Defined.

(** The snapshot of an emitted observation has no entry for the fifth
    feature, [current]. *)
Lemma multivariate_snapshot_lacks_current :
  exists obs,
    obs ∈ detect_multivariate_anomalies outlier_distance outlier_window
    /\ m_parameters obs !! "current" = None.
Proof.
  exists (Build_MultivariateAnomaly 299 "A1" "MULTIVARIATE" 17.26 "MEDIUM"
            "Multiple parameters showing unusual combination"
            {[ "oee" := Some 20; "temperature" := Some 95;
               "pressure" := Some 9; "vibration" := Some 7 ]}).
  split; [| reflexivity].
  replace (detect_multivariate_anomalies outlier_distance outlier_window)
    with [Build_MultivariateAnomaly 299 "A1" "MULTIVARIATE" 17.26 "MEDIUM"
            "Multiple parameters showing unusual combination"
            {[ "oee" := Some 20; "temperature" := Some 95;
               "pressure" := Some 9; "vibration" := Some 7 ]}]
    by (vm_compute; reflexivity).
  apply list_elem_of_singleton. reflexivity.
Qed.

(** Fewer than 30 rows, or a failed inversion, give no observation. *)
Example detect_multivariate_29_rows :
  detect_multivariate_anomalies outlier_distance (replicate 29 outlier_row) = [].
Proof. reflexivity. Qed.

Example detect_multivariate_no_inverse :
  detect_multivariate_anomalies (fun _ => None) outlier_window = [].
Proof. reflexivity. Qed.

End MultivariateFacts.

(** ** The order of the alerts *)
Section AlertOrder.
Import AnomalyDetector.

(** The intended rank of a severity label: LOW < MEDIUM < HIGH < CRITICAL. *)
Definition label_rank (label : string) : nat := severity_rank (Some label).

(** Most severe first: no alert is followed by a more severe one. *)
Definition most_severe_first (alerts : list Alert) : Prop :=
  forall i j a b,
    (i < j)%nat -> alerts !! i = Some a -> alerts !! j = Some b ->
    (label_rank (alert_severity b) <= label_rank (alert_severity a))%nat.

(** What [sorted(..., reverse=True)] guarantees for a total comparison:
    each element is followed by one whose key is not larger. *)
Lemma insert_rev_sorted {A K} (leb : K -> K -> bool) (key : A -> K)
    (x : A) (l : list A) :
  (forall a b, leb a b = true \/ leb b a = true) ->
  Sorted (fun a b => leb (key b) (key a) = true) l ->
  Sorted (fun a b => leb (key b) (key a) = true) (Py.insert_rev leb key x l).
Proof.
  intros Htotal Hl. induction Hl as [| y l Hl IH Hy]; simpl.
  - repeat constructor.
  - destruct (leb (key y) (key x)) eqn:E.
    + constructor; [constructor; assumption | constructor; exact E].
    + constructor; [exact IH |].
      destruct Hy as [| z l' Hz]; simpl.
      * constructor. destruct (Htotal (key x) (key y)); congruence.
      * destruct (leb (key z) (key x));
          constructor; [destruct (Htotal (key x) (key y)); congruence | exact Hz].
Qed.

Lemma sorted_rev_sorted {A K} (leb : K -> K -> bool) (key : A -> K) (l : list A) :
  (forall a b, leb a b = true \/ leb b a = true) ->
  Sorted (fun a b => leb (key b) (key a) = true) (Py.sorted_rev leb key l).
Proof.
  intros Htotal. unfold Py.sorted_rev.
  induction l as [| x l IH]; simpl; [constructor |].
  apply insert_rev_sorted; assumption.
Qed.

(** The order [generate_alerts] returns: the labels descend as strings, and
    as strings CRITICAL < HIGH < LOW < MEDIUM. *)
Lemma generate_alerts_sorted_by_label (anomalies : list Anomaly) :
  Sorted (fun a b => String.leb (alert_severity b) (alert_severity a) = true)
    (generate_alerts anomalies).
Proof. apply sorted_rev_sorted, String.leb_total. Qed.

Lemma labels_as_strings :
  String.ltb "CRITICAL" "HIGH" = true
  /\ String.ltb "HIGH" "LOW" = true
  /\ String.ltb "LOW" "MEDIUM" = true.
Proof. repeat split. Qed.

Definition critical_oee : Anomaly :=
  {| timestamp := 1; asset_id := "A1"; metric := "OEE"; value := 40;
     expected_value := 80; deviation := 4; severity := "CRITICAL";
     confidence := 99.9;
     description := "OEE is 40.0 points below normal (80.0)" |}.

Definition high_availability : Anomaly :=
  {| timestamp := 2; asset_id := "A1"; metric := "Availability"; value := 74;
     expected_value := 90; deviation := 3.2; severity := "HIGH";
     confidence := 99.9;
     description := "Availability is 16.0 points below normal (90.0)" |}.

Lemma generate_alerts_critical_high :
  generate_alerts [critical_oee; high_availability]
  = [ SINGLE_ANOMALY "A1" "HIGH" "Availability" 74 90
        "Check for equipment failures" 2;
      SINGLE_ANOMALY "A1" "CRITICAL" "OEE" 40 80
        "Stop production and investigate" 1 ].
Proof. vm_compute. reflexivity. Qed.

(** C3 at a CRITICAL and a HIGH anomaly of one asset: the sort compares the
    labels as strings, largest first, so the HIGH alert comes before the
    CRITICAL one and the list is not ordered most severe first. *)
Theorem generate_alerts_high_before_critical :
  alert_severity <$> generate_alerts [critical_oee; high_availability]
  = ["HIGH"; "CRITICAL"]
  /\ ~ most_severe_first (generate_alerts [critical_oee; high_availability]).
Proof.
  rewrite generate_alerts_critical_high. split; [reflexivity |].
  intros H.
  specialize (H 0%nat 1%nat _ _ (Nat.lt_0_succ 0) eq_refl eq_refl).
  vm_compute in H. lia.
Qed.

(** Three HIGH anomalies of one asset give one alert that counts them and
    names their distinct metrics. *)
Example generate_alerts_three_high :
  generate_alerts
    [ {| timestamp := 3; asset_id := "A1"; metric := "OEE"; value := 60;
         expected_value := 80; deviation := 3.2; severity := "HIGH";
         confidence := 99.9; description := "" |};
      {| timestamp := 5; asset_id := "A1"; metric := "Quality"; value := 70;
         expected_value := 95; deviation := 3.1; severity := "HIGH";
         confidence := 99.9; description := "" |};
      {| timestamp := 4; asset_id := "A1"; metric := "OEE"; value := 61;
         expected_value := 80; deviation := 3.3; severity := "HIGH";
         confidence := 99.9; description := "" |} ]
  = [ MULTIPLE_ANOMALIES "A1" "HIGH" 3 {[ "OEE"; "Quality" ]}
        "Immediate investigation required" 5 ].
Proof. vm_compute. reflexivity. Qed.

End AlertOrder.

(** ** calculate_oee *)
Section CalculateOee.
Import OEECalculator.

(** The guarded quotient never divides by zero. *)
Lemma ratio_pct_ok (guard x : Q) (r : Redis) :
  ratio_pct guard x guard r
  = (Py.Ok (if Py.Qlt_bool 0 guard then x / guard * 100 else 0), r).
Proof.
  unfold ratio_pct. case_cmp; [| reflexivity].
  unfold bind, lift, Py.truediv.
  assert (Hg : Qeq_bool guard 0 = false) by (apply Qeq_bool_false; lra).
  rewrite Hg. reflexivity.
Qed.

(** The inputs of the four formulas, read off the row and the window. *)
Definition planned_time_of (start_time end_time : Z) : Q :=
  inject_Z (end_time - start_time) / 1000000 / 60.
Definition runtime_of (data : AggregateRow) : Q := Py.or0 (total_runtime data).
Definition good_count_of (data : AggregateRow) : Z := Py.or0Z (total_good data).
Definition reject_count_of (data : AggregateRow) : Z := Py.or0Z (total_reject data).
Definition total_count_of (data : AggregateRow) : Z :=
  (good_count_of data + reject_count_of data)%Z.

(** The ideal cycle time the call uses: the cached one, 1.0 on a miss. *)
Definition ideal_cycle_time_of (asset_id : string) (r : Redis) : Q :=
  match r !! ("ideal_cycle_time:" +:+ asset_id) with
  | Some (_, v) => v
  | None => 1.0
  end.

(** The components before the cap. *)
Definition availability_raw (data : AggregateRow) (start_time end_time : Z) : Q :=
  let planned_time := planned_time_of start_time end_time in
  if Py.Qlt_bool 0 planned_time
  then runtime_of data / planned_time * 100 else 0.

Definition performance_raw (data : AggregateRow) (ideal_cycle_time : Q) : Q :=
  if Py.Qlt_bool 0 (runtime_of data)
  then inject_Z (total_count_of data) * ideal_cycle_time / runtime_of data * 100
  else 0.

Definition quality_raw (data : AggregateRow) : Q :=
  if Py.Qlt_bool 0 (inject_Z (total_count_of data))
  then inject_Z (good_count_of data) / inject_Z (total_count_of data) * 100
  else 0.

Lemma _get_ideal_cycle_time_ok (asset_id : string) (r : Redis) :
  exists r', _get_ideal_cycle_time asset_id r
             = (Py.Ok (ideal_cycle_time_of asset_id r), r').
Proof.
  unfold _get_ideal_cycle_time, ideal_cycle_time_of, bind, redis_get.
  destruct (r !! ("ideal_cycle_time:" +:+ asset_id)) as [[ttl v] |]; simpl.
  - exists r. reflexivity.
  - eexists. reflexivity.
Qed.

(** A call on a row returns, and this is the record it returns. *)
Lemma calculate_oee_returns (data : AggregateRow) (now : Z) (asset : string)
    (start_time end_time : Z) (r : Redis) :
  let a := availability_raw data start_time end_time in
  let p := performance_raw data (ideal_cycle_time_of asset r) in
  let q := quality_raw data in
  exists r',
    calculate_oee (Some data) now asset start_time end_time r
    = (Py.Ok {| timestamp := now;
                asset_id := asset;
                line_id := a_line_id data;
                oee := cap (a * p * q / 10000);
                availability := cap a;
                performance := cap p;
                quality := cap q;
                runtime := runtime_of data;
                downtime := Py.or0 (total_downtime data);
                total_count := total_count_of data;
                good_count := good_count_of data;
                reject_count := reject_count_of data |}, r').
Proof.
  intros a p q. unfold calculate_oee.
  destruct (_get_ideal_cycle_time_ok asset r) as [r' Hr'].
  exists r'. unfold bind at 1. rewrite ratio_pct_ok.
  unfold bind at 1. rewrite Hr'.
  unfold bind at 1. rewrite ratio_pct_ok.
  unfold bind at 1. rewrite ratio_pct_ok.
  reflexivity.
Qed.

Lemma cap_cases (x : Q) :
  (x <= 0 /\ cap x == 0) \/ (0 <= x <= 100 /\ cap x == x)
  \/ (100 <= x /\ cap x == 100).
Proof.
  unfold cap, Py.min, Py.max.
  destruct (Q.max_spec 0 x) as [[H1 E1] | [H1 E1]];
    destruct (Q.min_spec 100 (Qmax 0 x)) as [[H2 E2] | [H2 E2]];
    rewrite E2, ?E1 in *; rewrite ?E1 in *.
  - right. right. split; [lra | reflexivity].
  - right. left. split; [lra | reflexivity].
  - lra.
  - left. split; [lra | reflexivity].
Qed.

Lemma cap_bounds (x : Q) : 0 <= cap x <= 100.
Proof. destruct (cap_cases x) as [[H E] | [[H E] | [H E]]]; rewrite E; lra. Qed.

Lemma cap_nonpos (x : Q) : x <= 0 -> cap x == 0.
Proof.
  intros Hx. destruct (cap_cases x) as [[H E] | [[H E] | [H E]]];
    rewrite E; lra.
Qed.

Lemma availability_raw_no_runtime data start_time end_time :
  runtime_of data == 0 -> availability_raw data start_time end_time == 0.
Proof.
  intros H. unfold availability_raw. cbv zeta.
  case_cmp; [| reflexivity]. rewrite H. unfold Qdiv. ring.
Qed.

Lemma performance_raw_no_runtime data ideal :
  runtime_of data <= 0 -> performance_raw data ideal = 0.
Proof.
  intros H. unfold performance_raw. case_cmp; [lra | reflexivity].
Qed.

Lemma quality_raw_no_count data :
  (total_count_of data <= 0)%Z -> quality_raw data = 0.
Proof.
  intros H. unfold quality_raw. case_cmp; [| reflexivity].
  exfalso. assert (inject_Z (total_count_of data) <= inject_Z 0)
    by (rewrite <- Zle_Qle; exact H).
  change (inject_Z 0) with 0 in *. lra.
Qed.

(** With no runtime the availability, the performance and the product are
    0 after the cap. *)
Lemma no_runtime_zero data start_time end_time ideal :
  runtime_of data == 0 ->
  cap (availability_raw data start_time end_time) == 0
  /\ cap (performance_raw data ideal) == 0
  /\ cap (availability_raw data start_time end_time
          * performance_raw data ideal * quality_raw data / 10000) == 0.
Proof.
  intros H.
  rewrite performance_raw_no_runtime by lra.
  split; [| split]; apply cap_nonpos.
  - rewrite availability_raw_no_runtime by exact H. lra.
  - lra.
  - unfold Qdiv. ring_simplify. lra.
Qed.

(** C2. On every aggregate row and window the call returns, and the four
    percentages of the record lie in [0,100].  With no runtime the
    availability, the performance and the oee are 0; a planned time, a
    runtime or a total count that is not positive gives 0 for its ratio,
    and no division is attempted. *)
Theorem calculate_oee_percentages_bounded (data : AggregateRow) (now : Z)
    (asset : string) (start_time end_time : Z) (r : Redis) :
  exists m r',
    calculate_oee (Some data) now asset start_time end_time r = (Py.Ok m, r')
    /\ 0 <= availability m <= 100
    /\ 0 <= performance m <= 100
    /\ 0 <= quality m <= 100
    /\ 0 <= oee m <= 100
    /\ (runtime_of data == 0 ->
          availability m == 0 /\ performance m == 0 /\ oee m == 0)
    /\ (planned_time_of start_time end_time <= 0 -> availability m == 0)
    /\ (runtime_of data <= 0 -> performance m == 0)
    /\ ((total_count_of data <= 0)%Z -> quality m == 0).
Proof.
  destruct (calculate_oee_returns data now asset start_time end_time r)
    as [r' Hr'].
  eexists. exists r'. split; [exact Hr' |]. simpl.
  repeat (split; [solve [apply cap_bounds] |]).
  split; [| split; [| split]].
  - apply no_runtime_zero.
  - intros H. unfold availability_raw. cbv zeta.
    fold (planned_time_of start_time end_time).
    case_cmp; [lra |]. apply cap_nonpos. lra.
  - intros H. rewrite performance_raw_no_runtime by exact H.
    apply cap_nonpos. lra.
  - intros H. rewrite quality_raw_no_count by exact H. apply cap_nonpos. lra.
Qed.

(** One hour with no runtime and no count. *)
Definition idle_row : AggregateRow :=
  {| a_asset_id := "A1"; a_line_id := "L1";
     total_runtime := Some 0; total_downtime := Some 60;
     total_good := Some 0%Z; total_reject := Some 0%Z;
     avg_temp := None; avg_vibration := None |}.

Lemma calculate_oee_percentages_bounded_witness :
  exists m r',
    calculate_oee (Some idle_row) 0 "A1" 0 3600000000 ∅ = (Py.Ok m, r')
    /\ availability m == 0 /\ performance m == 0 /\ oee m == 0.
Proof.
  destruct (calculate_oee_percentages_bounded idle_row 0 "A1" 0 3600000000 ∅)
    as (m & r' & Hm & _ & _ & _ & _ & H & _).
  exists m, r'. split; [exact Hm |]. apply H. reflexivity.
Defined.

(** C6. The call raises if and only if the query returned no row, and what
    it raises then is the "No data found" error; a row whose runtime and
    counts are zero returns a record whose four percentages are 0. *)
Theorem calculate_oee_raises_iff_no_row (data : option AggregateRow) (now : Z)
    (asset : string) (start_time end_time : Z) (r : Redis) :
  ((exists e, (calculate_oee data now asset start_time end_time r).1
              = Py.Raise e)
   <-> data = None)
  /\ (data = None ->
      (calculate_oee data now asset start_time end_time r).1
      = Py.Raise (Py.ValueError ("No data found for asset " +:+ asset)))
  /\ (forall row, data = Some row ->
        runtime_of row == 0 -> good_count_of row = 0%Z ->
        reject_count_of row = 0%Z ->
        exists m,
          (calculate_oee data now asset start_time end_time r).1 = Py.Ok m
          /\ availability m == 0 /\ performance m == 0
          /\ quality m == 0 /\ oee m == 0).
Proof.
  split; [split |].
  - intros [e He]. destruct data as [row |]; [| reflexivity].
    destruct (calculate_oee_returns row now asset start_time end_time r)
      as [r' Hr'].
    rewrite Hr' in He. discriminate.
  - intros ->. eexists. reflexivity.
  - split; [intros ->; reflexivity |].
    intros row -> Hrt Hgood Hrej.
    destruct (calculate_oee_returns row now asset start_time end_time r)
      as [r' Hr'].
    eexists. rewrite Hr'. split; [reflexivity |]. simpl.
    destruct (no_runtime_zero row start_time end_time
                (ideal_cycle_time_of asset r) Hrt) as (Ha & Hp & Ho).
    repeat split; try assumption.
    rewrite quality_raw_no_count; [apply cap_nonpos; lra |].
    unfold total_count_of. lia.
Qed.

Lemma calculate_oee_raises_iff_no_row_witness :
  exists m,
    (calculate_oee (Some idle_row) 0 "A1" 0 3600000000 ∅).1 = Py.Ok m
    /\ availability m == 0 /\ performance m == 0
    /\ quality m == 0 /\ oee m == 0.
Proof.
  destruct (calculate_oee_raises_iff_no_row (Some idle_row) 0 "A1" 0
              3600000000 ∅) as (_ & _ & H).
  apply (H idle_row); reflexivity.
Defined.

(** *** The product of the capped components and the capped product *)

Lemma product_le (ca cp cq a p q : Q) :
  0 <= ca <= a -> 0 <= cp <= p -> 0 <= cq <= q -> ca * cp * cq <= a * p * q.
Proof.
  intros Ha Hp Hq.
  assert (H1 : ca * cp <= a * p) by nra.
  assert (H2 : 0 <= ca * cp) by nra.
  nra.
Qed.

Lemma product_lt (ca cq a p q : Q) :
  0 < ca <= a -> 100 < p -> 0 < cq <= q -> ca * 100 * cq < a * p * q.
Proof.
  intros Ha Hp Hq.
  assert (H1 : ca * 100 < a * p) by nra.
  assert (H2 : 0 < ca * 100) by nra.
  nra.
Qed.

Lemma cap_positive (x : Q) : 0 < x -> 0 < cap x <= x.
Proof.
  intros Hx. destruct (cap_cases x) as [[H E] | [[H E] | [H E]]];
    rewrite E; lra.
Qed.

(** A bound below 100 and below a positive [y] is below its cap. *)
Lemma cap_lower_bound (l y : Q) : l <= 100 -> l <= y -> 0 < y -> l <= cap y.
Proof.
  intros H1 H2 Hy. destruct (cap_cases y) as [[H E] | [[H E] | [H E]]];
    rewrite E; lra.
Qed.

Lemma cap_strict_lower_bound (l y : Q) : l < 100 -> l < y -> 0 < y -> l < cap y.
Proof.
  intros H1 H2 Hy. destruct (cap_cases y) as [[H E] | [[H E] | [H E]]];
    rewrite E; lra.
Qed.

Lemma capped_product_le (a p q : Q) :
  cap a * cap p * cap q / 10000 <= cap (a * p * q / 10000).
Proof.
  pose proof (cap_bounds a) as Ba. pose proof (cap_bounds p) as Bp.
  pose proof (cap_bounds q) as Bq.
  pose proof (cap_bounds (a * p * q / 10000)) as Bo.
  assert (Hdiv : forall x, x / 10000 == x * (1 # 10000))
    by (intros x; unfold Qdiv; reflexivity).
  destruct (Qlt_le_dec 0 a) as [Ha | Ha];
    [| rewrite (cap_nonpos a Ha), Hdiv; lra].
  destruct (Qlt_le_dec 0 p) as [Hp | Hp];
    [| rewrite (cap_nonpos p Hp), Hdiv; lra].
  destruct (Qlt_le_dec 0 q) as [Hq | Hq];
    [| rewrite (cap_nonpos q Hq), Hdiv; lra].
  pose proof (cap_positive a Ha) as Pa. pose proof (cap_positive p Hp) as Pp.
  pose proof (cap_positive q Hq) as Pq.
  assert (H1 : cap a * cap p * cap q <= a * p * q)
    by (apply product_le; lra).
  assert (H2 : cap a * cap p * cap q <= 100 * 100 * 100)
    by (apply product_le; lra).
  assert (H3 : 0 < a * p * q).
  { assert (0 < a * p) by nra. nra. }
  apply cap_lower_bound; rewrite !Hdiv; lra.
Qed.

Lemma capped_product_lt (a p q : Q) :
  100 < p -> 0 < a -> 0 < q -> a < 100 \/ q < 100 ->
  cap a * cap p * cap q / 10000 < cap (a * p * q / 10000).
Proof.
  intros Hp Ha Hq Hlt.
  pose proof (cap_bounds a) as Ba. pose proof (cap_bounds q) as Bq.
  pose proof (cap_positive a Ha) as Pa. pose proof (cap_positive q Hq) as Pq.
  assert (Ep : cap p == 100).
  { destruct (cap_cases p) as [[H E] | [[H E] | [H E]]]; rewrite E; lra. }
  assert (Hdiv : forall x, x / 10000 == x * (1 # 10000))
    by (intros x; unfold Qdiv; reflexivity).
  rewrite Ep.
  assert (H1 : cap a * 100 * cap q < a * p * q)
    by (apply product_lt; lra).
  assert (H2 : cap a * cap q < 10000).
  { destruct Hlt as [H | H].
    - assert (cap a < 100) by lra. nra.
    - assert (cap q < 100) by lra. nra. }
  assert (H3 : 0 < a * p * q).
  { assert (0 < a * p) by nra. nra. }
  apply cap_strict_lower_bound; rewrite !Hdiv; lra.
Qed.

(** C10. The oee of the returned record is the cap of the product of the
    components as they are before their own caps.  It is never below the
    product of the returned components, and it is strictly above it when
    the performance before the cap exceeds 100, the availability and the
    quality are positive and one of them is below 100. *)
Theorem oee_from_uncapped_components (data : AggregateRow) (now : Z)
    (asset : string) (start_time end_time : Z) (r : Redis) :
  let a := availability_raw data start_time end_time in
  let p := performance_raw data (ideal_cycle_time_of asset r) in
  let q := quality_raw data in
  exists m r',
    calculate_oee (Some data) now asset start_time end_time r = (Py.Ok m, r')
    /\ oee m = Py.min 100 (Py.max 0 (a * p * q / 10000))
    /\ availability m = Py.min 100 (Py.max 0 a)
    /\ performance m = Py.min 100 (Py.max 0 p)
    /\ quality m = Py.min 100 (Py.max 0 q)
    /\ availability m * performance m * quality m / 10000 <= oee m
    /\ (100 < p -> 0 < a -> 0 < q -> a < 100 \/ q < 100 ->
        availability m * performance m * quality m / 10000 < oee m).
Proof.
  intros a p q.
  destruct (calculate_oee_returns data now asset start_time end_time r)
    as [r' Hr'].
  eexists. exists r'. split; [exact Hr' |]. simpl.
  repeat (split; [reflexivity |]).
  split; [apply capped_product_le | apply capped_product_lt].
Qed.

(** Fifty minutes of runtime in an hour, 90 good and 10 rejected units, one
    minute of ideal cycle time: the performance before the cap is 200. *)
Definition fast_row : AggregateRow :=
  {| a_asset_id := "A1"; a_line_id := "L1";
     total_runtime := Some 50; total_downtime := Some 10;
     total_good := Some 90%Z; total_reject := Some 10%Z;
     avg_temp := None; avg_vibration := None |}.

Lemma oee_from_uncapped_components_witness :
  exists m r',
    calculate_oee (Some fast_row) 0 "A1" 0 3600000000 ∅ = (Py.Ok m, r')
    /\ oee m == 100
    /\ availability m * performance m * quality m / 10000 < oee m.
Proof.
  destruct (oee_from_uncapped_components fast_row 0 "A1" 0 3600000000 ∅)
    as (m & r' & Hm & Ho & _ & _ & _ & _ & Hlt).
  exists m, r'. split; [exact Hm |]. split.
  - rewrite Ho. reflexivity.
  - apply Hlt; [reflexivity | reflexivity | reflexivity | left; reflexivity].
Defined.

End CalculateOee.

(** ** Rounding *)
Section Rounding.

Lemma round_half_even_near (x : Q) :
  Py.round_half_even x = Qfloor x \/ Py.round_half_even x = (Qfloor x + 1)%Z.
Proof.
  unfold Py.round_half_even. cbv zeta.
  repeat case_cmp; auto. destruct (Z.even (Qfloor x)); auto.
Qed.

Lemma round_half_even_monotone (x y : Q) :
  x <= y -> (Py.round_half_even x <= Py.round_half_even y)%Z.
Proof.
  intros Hxy.
  pose proof (Qfloor_resp_le x y Hxy) as Hfl.
  destruct (Z.eq_dec (Qfloor x) (Qfloor y)) as [Heq | Hne].
  - unfold Py.round_half_even. cbv zeta. rewrite <- Heq.
    repeat case_cmp; try destruct (Z.even (Qfloor x));
      solve [lia | exfalso; lra].
  - destruct (round_half_even_near x) as [-> | ->];
      destruct (round_half_even_near y) as [-> | ->]; lia.
Qed.

Lemma round2_monotone (x y : Q) : x <= y -> Py.round2 x <= Py.round2 y.
Proof.
  intros Hxy. unfold Py.round2.
  assert (H : (Py.round_half_even (x * 100) <= Py.round_half_even (y * 100))%Z)
    by (apply round_half_even_monotone; lra).
  rewrite Zle_Qle in H. unfold Qdiv.
  apply Qmult_le_compat_r; [exact H | discriminate].
Qed.

Lemma round2_100 (x : Q) : x == 100 -> Py.round2 x == 100.
Proof.
  intros Hx. apply Qle_antisym.
  - apply Qle_trans with (Py.round2 100);
      [apply round2_monotone; lra | vm_compute; discriminate].
  - apply Qle_trans with (Py.round2 100);
      [vm_compute; discriminate | apply round2_monotone; lra].
Qed.

End Rounding.

(** ** analyze_losses *)
Section LossAnalysisFacts.
Import OEECalculator.

Abbreviation cum := cumulative_percentage.

(** The percentage of a duration before it is rounded. *)
Definition share (total d : Q) : Q :=
  if Py.Qlt_bool 0 total then d / total * 100 else 0.

Lemma share_positive_total (total d : Q) :
  0 < total -> share total d = d / total * 100.
Proof.
  intros H. unfold share. apply Qlt_bool_iff in H. rewrite H. reflexivity.
Qed.

Lemma share_nonneg (total d : Q) : 0 <= d -> 0 <= share total d.
Proof.
  intros Hd. unfold share. case_cmp; [| lra].
  assert (0 < / total) by (apply Qinv_lt_0_compat; exact E).
  unfold Qdiv. nra.
Qed.

Definition nonneg_durations (losses : list LossRow) : Prop :=
  Forall (fun loss => 0 <= total_duration loss) losses.

(** Every entry the loop appends is at or above the rounded running sum
    it started from. *)
Lemma pareto_loop_lower (total c : Q) (losses : list LossRow) :
  nonneg_durations losses ->
  Forall (fun e => Py.round2 c <= cum e) (pareto_loop total c losses).
Proof.
  intros H. revert c. induction H as [| loss rest Hd _ IH]; intros c; simpl.
  - constructor.
  - fold (share total (total_duration loss)).
    pose proof (share_nonneg total _ Hd) as Hs.
    assert (Hc : Py.round2 c
                 <= Py.round2 (c + share total (total_duration loss)))
      by (apply round2_monotone; lra).
    constructor; [exact Hc |].
    eapply Forall_impl; [apply IH |].
    intros e He. simpl in He. lra.
Qed.

Lemma pareto_loop_sorted (total c : Q) (losses : list LossRow) :
  nonneg_durations losses ->
  StronglySorted (fun x y => cum x <= cum y) (pareto_loop total c losses).
Proof.
  intros H. revert c. induction H as [| loss rest Hd Hrest IH]; intros c; simpl.
  - constructor.
  - constructor; [apply IH |].
    apply (pareto_loop_lower total _ rest Hrest).
Qed.

Lemma strongly_sorted_lookup {A} (R : relation A) (l : list A) :
  StronglySorted R l ->
  forall i j a b, (i < j)%nat -> l !! i = Some a -> l !! j = Some b -> R a b.
Proof.
  induction 1 as [| x l Hl IH Hx]; intros i j a b Hij Hi Hj.
  - discriminate.
  - destruct j as [| j]; [lia |]. simpl in Hj.
    destruct i as [| i]; simpl in Hi.
    + injection Hi as <-.
      rewrite Forall_forall in Hx. apply Hx.
      apply list_elem_of_lookup. eauto.
    + apply (IH i j); [lia | assumption | assumption].
Qed.

(** The running sum when the loop ends. *)
Definition running_sum (total c : Q) (losses : list LossRow) : Q :=
  foldl (fun acc loss => acc + share total (total_duration loss)) c losses.

Lemma pareto_loop_last (total c : Q) (losses : list LossRow) (e : ParetoEntry) :
  last (pareto_loop total c losses) = Some e ->
  cum e = Py.round2 (running_sum total c losses).
Proof.
  revert c. induction losses as [| loss rest IH]; intros c; simpl.
  - discriminate.
  - destruct rest as [| loss' rest'].
    + simpl. intros [= <-]. reflexivity.
    + intros H. apply (IH _ H).
Qed.

Lemma running_sum_total (total c a : Q) (losses : list LossRow) :
  0 < total ->
  running_sum total c losses
  == c + (foldl (fun acc loss => acc + total_duration loss) a losses - a)
         / total * 100.
Proof.
  intros Ht. unfold running_sum. revert c a.
  induction losses as [| loss rest IH]; intros c a; simpl.
  - unfold Qdiv. ring.
  - rewrite (IH _ (a + total_duration loss)).
    rewrite share_positive_total by exact Ht.
    unfold Qdiv. ring.
Qed.

Lemma running_sum_100 (losses : list LossRow) :
  0 < sum_durations losses ->
  running_sum (sum_durations losses) 0 losses == 100.
Proof.
  intros Ht. rewrite (running_sum_total _ 0 0 losses Ht).
  fold (sum_durations losses). field. lra.
Qed.

(** [vital] is the prefix of [ranked] through its first entry at 80 or
    above, or all of [ranked] when no entry reaches 80. *)
Definition prefix_through_80 (ranked vital : list ParetoEntry) : Prop :=
  (exists i entry,
      ranked !! i = Some entry
      /\ 80 <= cum entry
      /\ (forall j e, (j < i)%nat -> ranked !! j = Some e -> cum e < 80)
      /\ vital = take (S i) ranked)
  \/ ((forall e, e ∈ ranked -> cum e < 80) /\ vital = ranked).

Lemma vital_few_loop_prefix (ranked : list ParetoEntry) :
  prefix_through_80 ranked (vital_few_loop ranked).
Proof.
  induction ranked as [| x rest IH]; simpl.
  - right. split; [| reflexivity]. intros e He. inversion He.
  - case_cmp.
    + left. exists 0%nat, x.
      split; [reflexivity |]. split; [exact E |]. split.
      * intros j e Hj. lia.
      * simpl. rewrite take_0. reflexivity.
    + destruct IH as [(i & entry & Hi & H80 & Hbelow & Heq) | [Hbelow Heq]].
      * left. exists (S i), entry.
        split; [exact Hi |]. split; [exact H80 |]. split.
        -- intros [| j] e Hj He; simpl in He.
           ++ injection He as <-. exact E.
           ++ apply (Hbelow j); [lia | exact He].
        -- rewrite Heq. reflexivity.
      * right. split; [| rewrite Heq; reflexivity].
        intros e He. apply elem_of_cons in He as [-> | He]; auto.
Qed.

Lemma analyze_losses_nonempty (losses : list LossRow) (start_time end_time : Z) :
  losses <> [] ->
  analyze_losses losses start_time end_time
  = Losses {| period := (start_time, end_time);
              total_loss_time := sum_durations losses;
              total_losses := length losses;
              pareto_analysis := pareto_loop (sum_durations losses) 0 losses;
              vital_few :=
                vital_few_loop (pareto_loop (sum_durations losses) 0 losses);
              recommendations :=
                _generate_recommendations
                  (vital_few_loop
                     (pareto_loop (sum_durations losses) 0 losses)) |}.
Proof. destruct losses; [congruence | reflexivity]. Qed.

(** C4. For a loss list that is not empty, the vital few are the prefix of
    the ranked entries through the first one whose cumulative percentage is
    80 or more, and all of them when none reaches 80. *)
Theorem vital_few_prefix_through_80 (losses : list LossRow)
    (start_time end_time : Z) :
  losses <> [] ->
  exists analysis,
    analyze_losses losses start_time end_time = Losses analysis
    /\ prefix_through_80 (pareto_analysis analysis) (vital_few analysis).
Proof.
  intros H. rewrite (analyze_losses_nonempty losses start_time end_time H).
  eexists. split; [reflexivity |]. apply vital_few_loop_prefix.
Qed.

Definition loss_of (subcategory : string) (minutes : Q) : LossRow :=
  {| l_category := "AVAILABILITY"; l_subcategory := subcategory;
     l_reason := "line 1"; total_duration := minutes;
     total_impact := minutes; l_occurrences := 1 |}.

(** Four causes of 50, 30, 15 and 5 minutes. *)
Definition four_losses : list LossRow :=
  [loss_of "BREAKDOWN" 50; loss_of "SETUP" 30; loss_of "CLEANING" 15;
   loss_of "OTHER" 5].

Lemma vital_few_prefix_through_80_witness :
  exists analysis,
    analyze_losses four_losses 0 3600000000 = Losses analysis
    /\ prefix_through_80 (pareto_analysis analysis) (vital_few analysis)
    /\ cum <$> vital_few analysis = [Py.round2 50; Py.round2 80].
Proof.
  destruct (vital_few_prefix_through_80 four_losses 0 3600000000)
    as (analysis & Ha & Hp); [discriminate |].
  exists analysis. split; [exact Ha |]. split; [exact Hp |].
  vm_compute in Ha. injection Ha as <-. vm_compute. reflexivity.
Defined.

Lemma round2_zero (x : Q) : x == 0 -> Py.round2 x == 0.
Proof.
  intros Hx. apply Qle_antisym.
  - apply Qle_trans with (Py.round2 0);
      [apply round2_monotone; lra | vm_compute; discriminate].
  - apply Qle_trans with (Py.round2 0);
      [vm_compute; discriminate | apply round2_monotone; lra].
Qed.

(** With a total that is not positive the guard gives every entry the
    percentage 0, and the running sum stays 0. *)
Lemma pareto_loop_zero_total (total c : Q) (losses : list LossRow) :
  total <= 0 -> c == 0 ->
  Forall (fun e => percentage e == 0 /\ cum e == 0)
    (pareto_loop total c losses).
Proof.
  intros Ht. revert c. induction losses as [| loss rest IH]; intros c Hc; simpl.
  - constructor.
  - assert (E : Py.Qlt_bool 0 total = false) by (apply Qlt_bool_false, Ht).
    rewrite E. constructor.
    + simpl. split; apply round2_zero; lra.
    + apply IH. lra.
Qed.

(** C5, as the code has it.  For a loss list that is not empty and has no
    negative duration, the cumulative percentages of the ranked entries
    never decrease; when the total duration is positive the last one is 100,
    and when the total duration is 0 every percentage and every cumulative
    percentage is 0. *)
Theorem cumulative_percentage_nondecreasing (losses : list LossRow)
    (start_time end_time : Z) :
  losses <> [] ->
  nonneg_durations losses ->
  exists analysis,
    analyze_losses losses start_time end_time = Losses analysis
    /\ (forall i j ei ej, (i <= j)%nat ->
          pareto_analysis analysis !! i = Some ei ->
          pareto_analysis analysis !! j = Some ej ->
          cum ei <= cum ej)
    /\ (0 < sum_durations losses ->
        exists e, last (pareto_analysis analysis) = Some e /\ cum e == 100)
    /\ (sum_durations losses == 0 ->
        forall e, e ∈ pareto_analysis analysis ->
                  percentage e == 0 /\ cum e == 0).
Proof.
  intros Hne Hd. rewrite (analyze_losses_nonempty losses start_time end_time Hne).
  eexists. split; [reflexivity |]. simpl. split; [| split].
  - intros i j ei ej Hij Hi Hj.
    destruct (decide (i = j)) as [-> | Hneq].
    + rewrite Hi in Hj. injection Hj as <-. lra.
    + apply (strongly_sorted_lookup _ _
               (pareto_loop_sorted (sum_durations losses) 0 losses Hd) i j);
        [lia | exact Hi | exact Hj].
  - intros Ht.
    destruct (last (pareto_loop (sum_durations losses) 0 losses))
      as [e |] eqn:He.
    + exists e. split; [reflexivity |].
      rewrite (pareto_loop_last _ _ _ _ He).
      apply round2_100, running_sum_100, Ht.
    + apply last_None in He. destruct losses; [congruence | discriminate].
  - intros Ht e He.
    assert (Hall := pareto_loop_zero_total (sum_durations losses) 0 losses).
    rewrite Forall_forall in Hall. apply Hall; [lra | reflexivity | exact He].
Qed.

Lemma cumulative_percentage_nondecreasing_witness :
  (exists analysis,
      analyze_losses four_losses 0 3600000000 = Losses analysis
      /\ exists e, last (pareto_analysis analysis) = Some e /\ cum e == 100)
  /\ (exists analysis,
        analyze_losses [loss_of "MICRO_STOP" 0; loss_of "JAM" 0] 0 3600000000
        = Losses analysis
        /\ forall e, e ∈ pareto_analysis analysis ->
                     percentage e == 0 /\ cum e == 0).
Proof.
  split.
  - destruct (cumulative_percentage_nondecreasing four_losses 0 3600000000)
      as (analysis & Ha & _ & Hlast & _).
    + discriminate.
    + repeat constructor; discriminate.
    + exists analysis. split; [exact Ha |]. apply Hlast. reflexivity.
  - destruct (cumulative_percentage_nondecreasing
                [loss_of "MICRO_STOP" 0; loss_of "JAM" 0] 0 3600000000)
      as (analysis & Ha & _ & _ & Hzero).
    + discriminate.
    + repeat constructor; discriminate.
    + exists analysis. split; [exact Ha |]. apply Hzero. reflexivity.
Defined.

(** A loss list whose only row has a zero duration: the total is 0, the
    guard gives every percentage 0, and the last cumulative percentage is 0,
    not 100. *)
Lemma cumulative_percentage_zero_total :
  exists analysis e,
    analyze_losses [loss_of "MICRO_STOP" 0] 0 3600000000 = Losses analysis
    /\ nonneg_durations [loss_of "MICRO_STOP" 0]
    /\ last (pareto_analysis analysis) = Some e
    /\ cum e == 0
    /\ ~ cum e == 100.
Proof.
  eexists. eexists. split; [reflexivity |].
  split; [repeat constructor; discriminate |].
  split; [reflexivity |].
  split; [reflexivity | discriminate].
Qed.

End LossAnalysisFacts.

(** ** predict_oee_trend *)
Section TrendFacts.
Import OEECalculator.

Lemma trend_of_cases (slope : Q) :
  (0.1 < slope -> trend_of slope = "IMPROVING")
  /\ (slope < -0.1 -> trend_of slope = "DECLINING")
  /\ (-0.1 <= slope <= 0.1 -> trend_of slope = "STABLE").
Proof.
  unfold trend_of. repeat split; intros H; repeat case_cmp;
    solve [reflexivity | exfalso; lra].
Qed.

(** C7. With fewer than 7 daily rows the call returns the insufficient-data
    result.  Otherwise it returns a report whose daily change is the fitted
    slope and whose trend is IMPROVING for a slope above 0.1, DECLINING for
    a slope below -0.1 and STABLE otherwise; so 0.15 is IMPROVING, -0.15 is
    DECLINING and 0.05 is STABLE. *)
Theorem predict_oee_trend_classification (data : list (Z * Q)) (now : Z)
    (days_forecast : Z) :
  ((length data < 7)%nat ->
     predict_oee_trend data now days_forecast
     = TrendError "Insufficient data for trend analysis")
  /\ ((7 <= length data)%nat ->
      exists report,
        predict_oee_trend data now days_forecast = Trend report
        /\ daily_change report = slope_of (snd <$> data)
        /\ (0.1 < daily_change report -> trend report = "IMPROVING")
        /\ (daily_change report < -0.1 -> trend report = "DECLINING")
        /\ (-0.1 <= daily_change report <= 0.1 -> trend report = "STABLE"))
  /\ trend_of 0.15 = "IMPROVING"
  /\ trend_of (-0.15) = "DECLINING"
  /\ trend_of 0.05 = "STABLE".
Proof.
  split; [| split; [| repeat split]].
  - intros H. unfold predict_oee_trend.
    apply Nat.ltb_lt in H. rewrite H. reflexivity.
  - intros H. unfold predict_oee_trend.
    apply Nat.ltb_ge in H. rewrite H.
    eexists. split; [reflexivity |]. simpl.
    split; [reflexivity |]. apply trend_of_cases.
Qed.

(** A week of daily values on the line [base + slope * day]. *)
Definition week_on_line (base slope : Q) : list (Z * Q) :=
  (fun day => (Z.of_nat day, base + slope * inject_Z (Z.of_nat day)))
    <$> seq 0 7.

Lemma predict_oee_trend_classification_witness :
  (exists report,
      predict_oee_trend (week_on_line 50 0.15) 0 7 = Trend report
      /\ daily_change report == 0.15 /\ trend report = "IMPROVING")
  /\ (exists report,
        predict_oee_trend (week_on_line 50 (-0.15)) 0 7 = Trend report
        /\ daily_change report == -0.15 /\ trend report = "DECLINING")
  /\ (exists report,
        predict_oee_trend (week_on_line 50 0.05) 0 7 = Trend report
        /\ daily_change report == 0.05 /\ trend report = "STABLE")
  /\ predict_oee_trend (take 6 (week_on_line 50 0.15)) 0 7
     = TrendError "Insufficient data for trend analysis".
Proof.
  split; [| split; [| split]].
  - destruct (predict_oee_trend_classification (week_on_line 50 0.15) 0 7)
      as (_ & H & _).
    destruct H as (report & Hr & Hs & Hup & _); [vm_compute; lia |].
    exists report. split; [exact Hr |].
    assert (E : daily_change report == 0.15)
      by (rewrite Hs; vm_compute; reflexivity).
    split; [exact E |]. apply Hup. rewrite E. reflexivity.
  - destruct (predict_oee_trend_classification (week_on_line 50 (-0.15)) 0 7)
      as (_ & H & _).
    destruct H as (report & Hr & Hs & _ & Hdown & _); [vm_compute; lia |].
    exists report. split; [exact Hr |].
    assert (E : daily_change report == -0.15)
      by (rewrite Hs; vm_compute; reflexivity).
    split; [exact E |]. apply Hdown. rewrite E. reflexivity.
  - destruct (predict_oee_trend_classification (week_on_line 50 0.05) 0 7)
      as (_ & H & _).
    destruct H as (report & Hr & Hs & _ & _ & Hflat); [vm_compute; lia |].
    exists report. split; [exact Hr |].
    assert (E : daily_change report == 0.05)
      by (rewrite Hs; vm_compute; reflexivity).
    split; [exact E |]. apply Hflat. rewrite E. split; discriminate.
  - destruct (predict_oee_trend_classification
                (take 6 (week_on_line 50 0.15)) 0 7) as (H & _).
    apply H. vm_compute. lia.
Defined.

End TrendFacts.

(** * Further properties of the code *)

(** ** _check_anomaly and detect_oee_anomalies *)
Section UnivariateMore.
Import AnomalyDetector.

Lemma z_score_of_abs (value mean std : Q) :
  ~ std == 0 -> z_score_of value mean std == Qabs (value - mean) / Qabs std.
Proof.
  intros Hstd. unfold z_score_of, Py.abs, Qdiv.
  rewrite Qabs_Qmult, Qabs_Qinv. reflexivity.
Qed.

Lemma Qabs_positive (x : Q) : ~ x == 0 -> 0 < Qabs x.
Proof.
  intros Hx. pose proof (Qabs_nonneg x) as Hn.
  destruct (Qlt_le_dec 0 (Qabs x)) as [H | H]; [exact H |].
  exfalso. apply Hx. apply Qabs_Qle_condition in H. lra.
Qed.

(** A score against a threshold, without the division. *)
Lemma z_score_of_ge (t value mean std : Q) :
  ~ std == 0 ->
  (t <= z_score_of value mean std <-> t * Qabs std <= Qabs (value - mean)).
Proof.
  intros Hstd. rewrite (z_score_of_abs _ _ _ Hstd).
  pose proof (Qabs_positive std Hstd) as Hpos.
  split; intros H.
  - apply (Qmult_le_compat_r _ _ (Qabs std)) in H; [| lra].
    assert (E : Qabs (value - mean) / Qabs std * Qabs std
                == Qabs (value - mean)) by (field; lra).
    rewrite E in H. exact H.
  - apply Qle_shift_div_l; assumption.
Qed.

Lemma check_anomaly_is_Some cdf value mean std metric ts asset :
  ~ std == 0 ->
  (is_Some (_check_anomaly cdf value mean (Some std) metric ts asset)
   <-> 2.0 <= z_score_of value mean std).
Proof.
  intros Hstd.
  pose proof (check_anomaly_severity cdf value mean std metric ts asset Hstd)
    as Hsev.
  rewrite severity_of_cases in Hsev.
  split.
  - intros [a Ha]. rewrite Ha in Hsev. simpl in Hsev.
    revert Hsev. repeat case_cmp; intros Hsev; solve [lra | discriminate].
  - intros H.
    destruct (_check_anomaly cdf value mean (Some std) metric ts asset);
      [eauto |].
    simpl in Hsev. revert Hsev.
    repeat case_cmp; intros Hsev; solve [exfalso; lra | discriminate].
Qed.

(** X1. For a stddev that is not zero, a check returns an anomaly exactly
    when the value is at least two stddevs (in absolute value) away from the
    mean, and the anomaly is CRITICAL exactly when it is at least 3.5 of
    them away. *)
Theorem check_anomaly_iff_two_stddev (cdf : Q -> Q) (value mean std : Q)
    (metric : string) (ts : Z) (asset : string) :
  ~ std == 0 ->
  (is_Some (_check_anomaly cdf value mean (Some std) metric ts asset)
   <-> 2 * Qabs std <= Qabs (value - mean))
  /\ (severity <$> _check_anomaly cdf value mean (Some std) metric ts asset
      = Some "CRITICAL"
      <-> 3.5 * Qabs std <= Qabs (value - mean)).
Proof.
  intros Hstd. split.
  - rewrite check_anomaly_is_Some by exact Hstd.
    rewrite (z_score_of_ge 2.0 _ _ _ Hstd).
    assert (E : 2.0 * Qabs std == 2 * Qabs std) by ring. rewrite E. reflexivity.
  - rewrite check_anomaly_severity by exact Hstd.
    rewrite <- (z_score_of_ge 3.5 _ _ _ Hstd).
    rewrite severity_of_cases. split.
    + repeat case_cmp; intros H; solve [assumption | discriminate].
    + intros H. repeat case_cmp; solve [reflexivity | exfalso; lra].
Qed.

Lemma check_anomaly_iff_two_stddev_witness :
  is_Some (_check_anomaly cdf_steps 69 80 (Some (-5)) "OEE" 0 "A1")
  /\ ~ is_Some (_check_anomaly cdf_steps 71 80 (Some 5) "OEE" 0 "A1").
Proof.
  split.
  - apply (check_anomaly_iff_two_stddev cdf_steps 69 80 (-5) "OEE" 0 "A1");
      [intros E; vm_compute in E; discriminate | vm_compute; discriminate].
  - intros H.
    apply (check_anomaly_iff_two_stddev cdf_steps 71 80 5 "OEE" 0 "A1") in H;
      [| intros E; vm_compute in E; discriminate].
    vm_compute in H. apply H. reflexivity.
Defined.

Definition severity_labels : list string := ["LOW"; "MEDIUM"; "HIGH"; "CRITICAL"].

(** X2. An anomaly that [_check_anomaly] returns carries the arguments of
    the call (timestamp, asset, metric, value, the mean as expected value),
    its deviation is the score and is at least 2.0, and its severity is one of
    the four labels. *)
Theorem check_anomaly_fields (cdf : Q -> Q) (value mean : Q) (std : option Q)
    (metric : string) (ts : Z) (asset : string) (a : Anomaly) :
  _check_anomaly cdf value mean std metric ts asset = Some a ->
  AnomalyDetector.timestamp a = ts
  /\ AnomalyDetector.asset_id a = asset
  /\ AnomalyDetector.metric a = metric
  /\ AnomalyDetector.value a = value
  /\ expected_value a = mean
  /\ (exists s, std = Some s /\ ~ s == 0 /\ deviation a = z_score_of value mean s)
  /\ 2.0 <= deviation a
  /\ severity a ∈ severity_labels.
Proof.
  intros Ha. destruct std as [s |]; [| discriminate].
  assert (Hs : ~ s == 0).
  { intros E. unfold _check_anomaly in Ha.
    apply Qeq_bool_iff in E. rewrite E in Ha. discriminate. }
  assert (Hz : 2.0 <= z_score_of value mean s)
    by (apply (check_anomaly_is_Some cdf value mean s metric ts asset Hs); eauto).
  pose proof (check_anomaly_severity cdf value mean s metric ts asset Hs) as Hsev.
  rewrite Ha, severity_of_cases in Hsev. simpl in Hsev.
  assert (Hlab : severity a ∈ severity_labels).
  { unfold severity_labels. revert Hsev.
    repeat case_cmp; intros [= ->]; set_solver. }
  unfold _check_anomaly in Ha.
  apply Qeq_bool_false in Hs as Hs'. rewrite Hs' in Ha.
  destruct (severity_of (z_score_of value mean s)) as [[| c l] |];
    try discriminate.
  injection Ha as <-. simpl in *.
  repeat split; try reflexivity; try assumption.
  exists s. repeat split. exact Hs.
Qed.

Lemma check_anomaly_fields_witness :
  exists a,
    _check_anomaly cdf_steps 95 80 (Some 5) "OEE" 7 "A1" = Some a
    /\ expected_value a = 80 /\ 2.0 <= deviation a
    /\ severity a ∈ severity_labels.
Proof.
  eexists. split; [reflexivity |].
  destruct (check_anomaly_fields cdf_steps 95 80 (Some 5) "OEE" 7 "A1" _ eq_refl)
    as (_ & _ & _ & _ & He & _ & Hd & Hl).
  auto.
Defined.

Lemma severity_of_proper (z1 z2 : Q) :
  z1 == z2 -> severity_of z1 = severity_of z2.
Proof.
  intros H. rewrite !severity_of_cases.
  repeat case_cmp; solve [reflexivity | exfalso; lra].
Qed.

(** X24. The check is symmetric about the mean: a value [d] above the mean
    and a value [d] below it get the same result, anomaly or not, with the
    same severity. *)
Theorem check_anomaly_symmetric (cdf : Q -> Q) (mean d : Q) (std : option Q)
    (metric : string) (ts : Z) (asset : string) :
  severity <$> _check_anomaly cdf (mean + d) mean std metric ts asset
  = severity <$> _check_anomaly cdf (mean - d) mean std metric ts asset.
Proof.
  destruct std as [s |]; [| reflexivity].
  destruct (Qeq_bool s 0) eqn:E.
  - unfold _check_anomaly. rewrite E. reflexivity.
  - apply Qeq_bool_false in E.
    rewrite !check_anomaly_severity by exact E.
    apply severity_of_proper.
    rewrite !z_score_of_abs by exact E.
    assert (H1 : mean + d - mean == d) by ring.
    assert (H2 : mean - d - mean == - d) by ring.
    rewrite H1, H2, Qabs_opp. reflexivity.
Qed.

Lemma check_anomaly_echo cdf value mean std metric ts asset a :
  _check_anomaly cdf value mean std metric ts asset = Some a ->
  AnomalyDetector.timestamp a = ts
  /\ AnomalyDetector.asset_id a = asset
  /\ AnomalyDetector.metric a = metric.
Proof.
  unfold _check_anomaly. destruct std as [s |]; [| discriminate].
  destruct (Qeq_bool s 0); [discriminate |].
  destruct (severity_of (z_score_of value mean s)) as [[| c l] |];
    try discriminate.
  intros [= <-]. auto.
Qed.

(** The dict comprehension over the baseline rows. *)
Lemma baselines_lookup (rows : list BaselineRow) (m : gmap string BaselineRow)
    (k : string) (b : BaselineRow) :
  foldl (fun m row => <[b_asset_id row := row]> m) m rows !! k = Some b ->
  (b ∈ rows /\ b_asset_id b = k) \/ m !! k = Some b.
Proof.
  revert m. induction rows as [| row rows IH]; intros m H; simpl in H.
  - right. exact H.
  - apply IH in H as [[Hin Hk] | H].
    + left. split; [right; exact Hin | exact Hk].
    + destruct (decide (b_asset_id row = k)) as [Hk | Hk].
      * rewrite <- Hk, lookup_insert_eq in H. injection H as <-.
        left. split; [left | exact Hk].
      * rewrite lookup_insert_ne in H by exact Hk. right. exact H.
Qed.

Definition metric_names : list string :=
  ["OEE"; "Availability"; "Performance"; "Quality"].

(** An anomaly raised for the recent row [row], whose asset has a baseline
    row in [rows]. *)
Definition raised_for (rows : list BaselineRow) (row : OeeRow) (a : Anomaly)
    : Prop :=
  AnomalyDetector.asset_id a = r_asset_id row
  /\ AnomalyDetector.timestamp a = r_timestamp row
  /\ AnomalyDetector.metric a ∈ metric_names
  /\ exists b, b ∈ rows /\ b_asset_id b = r_asset_id row.

Lemma append_if_raised cdf rows row value mean std metric anomalies
    (P : Anomaly -> Prop) :
  (forall a, raised_for rows row a -> P a) ->
  metric ∈ metric_names ->
  (exists b, b ∈ rows /\ b_asset_id b = r_asset_id row) ->
  Forall P anomalies ->
  Forall P
    (append_if (_check_anomaly cdf value mean std metric (r_timestamp row)
                  (r_asset_id row)) anomalies).
Proof.
  intros HP Hm Hb H. unfold append_if.
  destruct (_check_anomaly cdf value mean std metric (r_timestamp row)
              (r_asset_id row)) as [a |] eqn:E; [| exact H].
  apply Forall_app. split; [exact H |]. constructor; [| constructor].
  apply check_anomaly_echo in E as (Ht & Ha & Hmet).
  apply HP. unfold raised_for. rewrite Ht, Ha, Hmet. auto.
Qed.

Lemma check_data_point_raised cdf rows m row anomalies (P : Anomaly -> Prop) :
  (forall k b, m !! k = Some b -> b ∈ rows /\ b_asset_id b = k) ->
  (forall a, raised_for rows row a -> P a) ->
  Forall P anomalies ->
  Forall P (check_data_point cdf m anomalies row).
Proof.
  intros Hm HP H. unfold check_data_point.
  destruct (m !! r_asset_id row) as [b |] eqn:Hb; [| exact H].
  apply Hm in Hb.
  repeat (apply (append_if_raised cdf rows row);
          [exact HP | unfold metric_names; repeat constructor
          | exists b; exact Hb |]).
  exact H.
Qed.

Lemma foldl_check_data_point_raised cdf rows m (recent rest : list OeeRow)
    (acc : list Anomaly) :
  (forall k b, m !! k = Some b -> b ∈ rows /\ b_asset_id b = k) ->
  (forall row, row ∈ rest -> row ∈ recent) ->
  Forall (fun a => exists row, row ∈ recent /\ raised_for rows row a) acc ->
  Forall (fun a => exists row, row ∈ recent /\ raised_for rows row a)
    (foldl (check_data_point cdf m) acc rest).
Proof.
  intros Hm. revert acc.
  induction rest as [| row rest IH]; intros acc Hsub Hacc; simpl.
  - exact Hacc.
  - apply IH; [intros r Hr; apply Hsub; right; exact Hr |].
    apply (check_data_point_raised cdf rows m row acc _ Hm); [| exact Hacc].
    intros a Ha. exists row. split; [apply Hsub; left | exact Ha].
Qed.

(** X3. Every anomaly of [detect_oee_anomalies] was raised for a recent row
    whose asset has a baseline row: it carries the asset and the timestamp of
    that row and one of the four metric names.  So recent rows of assets
    without a baseline raise nothing. *)
Theorem detect_oee_anomalies_provenance (cdf : Q -> Q)
    (recent_data : list OeeRow) (baseline_rows : list BaselineRow) :
  Forall (fun a => exists row, row ∈ recent_data
                               /\ raised_for baseline_rows row a)
    (detect_oee_anomalies cdf recent_data baseline_rows)
  /\ ((forall row b, row ∈ recent_data -> b ∈ baseline_rows ->
         r_asset_id row <> b_asset_id b) ->
      detect_oee_anomalies cdf recent_data baseline_rows = []).
Proof.
  assert (Hall :
    Forall (fun a => exists row, row ∈ recent_data
                                 /\ raised_for baseline_rows row a)
      (detect_oee_anomalies cdf recent_data baseline_rows)).
  { unfold detect_oee_anomalies.
    apply foldl_check_data_point_raised; [| auto | constructor].
    intros k b Hb. apply baselines_lookup in Hb as [Hb | Hb];
      [exact Hb | rewrite lookup_empty in Hb; discriminate]. }
  split; [exact Hall |].
  intros Hnone.
  destruct (detect_oee_anomalies cdf recent_data baseline_rows) as [| a l];
    [reflexivity |].
  exfalso. inversion Hall as [| ? ? (row & Hrow & _ & _ & _ & b & Hb & Heq) _].
  apply (Hnone row b Hrow Hb). congruence.
Qed.

Definition steady_baseline : BaselineRow :=
  {| b_asset_id := "A1";
     avg_oee := 80; std_oee := Some 5;
     avg_availability := 90; std_availability := Some 4;
     avg_performance := 92; std_performance := Some 3;
     avg_quality := 97; std_quality := Some 1 |}.

Definition bad_hour (asset : string) : OeeRow :=
  {| r_asset_id := asset; r_timestamp := 3600;
     r_oee := 60; r_availability := 89; r_performance := 70;
     r_quality := 96.5 |}.

Lemma detect_oee_anomalies_provenance_witness :
  detect_oee_anomalies cdf_steps [bad_hour "B7"] [steady_baseline] = []
  /\ AnomalyDetector.metric
       <$> detect_oee_anomalies cdf_steps [bad_hour "A1"] [steady_baseline]
     = ["OEE"; "Performance"].
Proof.
  split; [| vm_compute; reflexivity].
  apply (detect_oee_anomalies_provenance cdf_steps [bad_hour "B7"]
           [steady_baseline]).
  intros row b Hrow Hb.
  apply list_elem_of_singleton in Hrow as ->.
  apply list_elem_of_singleton in Hb as ->. discriminate.
Defined.



End UnivariateMore.

(** ** detect_multivariate_anomalies *)
Section MultivariateMore.
Import AnomalyDetector.

Lemma flag_row_above distance idx row :
  15.09 < distance idx ->
  exists obs, flag_row distance idx row = [obs]
              /\ m_timestamp obs = t_timestamp row
              /\ m_asset_id obs = t_asset_id row
              /\ m_distance obs = distance idx.
Proof.
  intros H. unfold flag_row. apply Qlt_bool_iff in H. rewrite H.
  eexists. split; [reflexivity |]. simpl. auto.
Qed.

(** X5. With 30 rows or more and an inverse of the covariance, every row
    whose distance is above 15.09 is reported: some observation carries its
    timestamp, its asset and its distance. *)
Theorem detect_multivariate_anomalies_complete
    (mahalanobis : list TelemetryRow -> option (nat -> Q))
    (data : list TelemetryRow) (distance : nat -> Q) (idx : nat)
    (row : TelemetryRow) :
  (30 <= length data)%nat ->
  mahalanobis data = Some distance ->
  data !! idx = Some row ->
  15.09 < distance idx ->
  exists obs,
    obs ∈ detect_multivariate_anomalies mahalanobis data
    /\ m_timestamp obs = t_timestamp row
    /\ m_asset_id obs = t_asset_id row
    /\ m_distance obs = distance idx.
Proof.
  intros Hlen Hm Hrow Hd. unfold detect_multivariate_anomalies.
  apply Nat.ltb_ge in Hlen. rewrite Hlen, Hm.
  destruct (flag_row_above distance idx row Hd) as (obs & Hobs & Hfields).
  exists obs. split; [| exact Hfields].
  apply list_elem_of_join. exists [obs]. split; [left |].
  rewrite <- Hobs. apply elem_of_lookup_imap_2, Hrow.
Qed.

Lemma detect_multivariate_anomalies_complete_witness :
  exists obs,
    obs ∈ detect_multivariate_anomalies outlier_distance outlier_window
    /\ m_timestamp obs = 299%Z
    /\ m_asset_id obs = "A1"
    /\ m_distance obs = 17.26.
Proof.
  apply (detect_multivariate_anomalies_complete outlier_distance outlier_window
           (fun idx => if (idx =? 299)%nat then 17.26 else 0.06) 299 outlier_row).
  - vm_compute. lia.
  - reflexivity.
  - reflexivity.
  - reflexivity.
Defined.

Lemma flagged_timestamps_sublist (data : list TelemetryRow) :
  forall distance : nat -> Q,
    sublist (m_timestamp <$> mjoin (imap (flag_row distance) data))
            (t_timestamp <$> data).
Proof.
  induction data as [| row data IH]; intros distance; simpl.
  - constructor.
  - rewrite fmap_app. unfold flag_row at 1.
    destruct (Py.Qlt_bool 15.09 (distance 0%nat)); simpl.
    + apply sublist_skip, IH.
    + apply sublist_cons, IH.
Qed.

(** X6. The observations follow the order of the rows, at most one for each
    row: their timestamps are a subsequence of the timestamps of the rows. *)
Theorem detect_multivariate_anomalies_in_row_order
    (mahalanobis : list TelemetryRow -> option (nat -> Q))
    (data : list TelemetryRow) :
  sublist (m_timestamp <$> detect_multivariate_anomalies mahalanobis data)
          (t_timestamp <$> data)
  /\ (length (detect_multivariate_anomalies mahalanobis data)
      <= length data)%nat.
Proof.
  assert (H : sublist
                (m_timestamp <$> detect_multivariate_anomalies mahalanobis data)
                (t_timestamp <$> data)).
  { unfold detect_multivariate_anomalies.
    destruct (length data <? 30)%nat; [apply sublist_nil_l |].
    destruct (mahalanobis data) as [distance |]; [| apply sublist_nil_l].
    apply flagged_timestamps_sublist. }
  split; [exact H |].
  apply sublist_length in H. rewrite !length_fmap in H. exact H.
Qed.

End MultivariateMore.

(** ** generate_alerts *)
Section AlertsMore.
Import AnomalyDetector.

(** The key an anomaly is grouped by. *)
Definition key_of (a : Anomaly) : string * string :=
  (AnomalyDetector.asset_id a, severity a).

(** The input anomalies that have the key [k], in input order. *)
Definition with_key (k : string * string) (anomalies : list Anomaly)
    : list Anomaly :=
  filter (fun a => key_of a = k) anomalies.

Lemma insert_rev_perm {A K} (leb : K -> K -> bool) (key : A -> K) x l :
  Py.insert_rev leb key x l ≡ₚ x :: l.
Proof.
  induction l as [| y l IH]; simpl; [reflexivity |].
  destruct (leb (key y) (key x)); [reflexivity |].
  rewrite IH. apply Permutation_swap.
Qed.

Lemma sorted_rev_perm {A K} (leb : K -> K -> bool) (key : A -> K) l :
  Py.sorted_rev leb key l ≡ₚ l.
Proof.
  unfold Py.sorted_rev. induction l as [| x l IH]; simpl; [reflexivity |].
  rewrite insert_rev_perm, IH. reflexivity.
Qed.

Lemma group_append_keys key a g :
  (key ∈ g.*1 -> (group_append key a g).*1 = g.*1)
  /\ (key ∉ g.*1 -> (group_append key a g).*1 = g.*1 ++ [key]).
Proof.
  induction g as [| [k grp] g [IH1 IH2]]; simpl.
  - split; [intros H; inversion H | reflexivity].
  - destruct (decide (k = key)) as [-> | Hk]; simpl; split; intros H.
    + reflexivity.
    + exfalso. apply H. left.
    + f_equal. apply IH1.
      apply elem_of_cons in H as [-> | H]; [congruence | exact H].
    + f_equal. apply IH2.
      intros Hin. apply H. right. exact Hin.
Qed.

(** Each group holds the anomalies of [pre] that have its key. *)
Definition groups_of (pre : list Anomaly)
    (g : list ((string * string) * list Anomaly)) : Prop :=
  Forall (fun entry => entry.2 <> [] /\ entry.2 = with_key entry.1 pre) g.

Lemma with_key_snoc_same pre a :
  with_key (key_of a) (pre ++ [a]) = with_key (key_of a) pre ++ [a].
Proof.
  unfold with_key. rewrite filter_app, filter_cons, filter_nil.
  destruct (decide (key_of a = key_of a)); [reflexivity | congruence].
Qed.

Lemma with_key_snoc_other k pre a :
  k <> key_of a -> with_key k (pre ++ [a]) = with_key k pre.
Proof.
  intros H. unfold with_key.
  rewrite filter_app, filter_cons, filter_nil.
  destruct (decide (key_of a = k)); [congruence | apply app_nil_r].
Qed.

Lemma groups_of_snoc_other pre a g :
  key_of a ∉ g.*1 -> groups_of pre g -> groups_of (pre ++ [a]) g.
Proof.
  intros Hk H. unfold groups_of in *. induction H as [| [k grp] g [H1 H2] H IH];
    constructor.
  - simpl in *. split; [exact H1 |].
    rewrite with_key_snoc_other; [exact H2 |].
    intros ->. apply Hk. left.
  - apply IH. intros Hin. apply Hk. right. exact Hin.
Qed.

Lemma group_append_groups_of pre a g :
  NoDup g.*1 ->
  (with_key (key_of a) pre = [] \/ key_of a ∈ g.*1) ->
  groups_of pre g ->
  groups_of (pre ++ [a]) (group_append (key_of a) a g).
Proof.
  intros Hnd Hk H. unfold groups_of in *.
  induction H as [| [k grp] g [H1 H2] H IH]; simpl in *.
  - destruct Hk as [Hk | Hk]; [| inversion Hk].
    constructor; [| constructor]. simpl. split; [discriminate |].
    rewrite with_key_snoc_same, Hk. reflexivity.
  - apply NoDup_cons in Hnd as [Hnotin Hnd].
    destruct (decide (k = key_of a)) as [-> | Hne].
    + constructor.
      * simpl. split; [destruct grp; discriminate |].
        rewrite with_key_snoc_same, H2. reflexivity.
      * apply groups_of_snoc_other; assumption.
    + constructor.
      * simpl. split; [exact H1 |].
        rewrite with_key_snoc_other by exact Hne. exact H2.
      * apply IH; [exact Hnd |].
        destruct Hk as [Hk | Hk]; [left; exact Hk |].
        apply elem_of_cons in Hk as [Hk | Hk]; [congruence | right; exact Hk].
Qed.

(** What the grouping loop keeps true after it has read [pre]. *)
Definition grouped (pre : list Anomaly)
    (g : list ((string * string) * list Anomaly)) : Prop :=
  NoDup g.*1
  /\ groups_of pre g
  /\ (forall a, a ∈ pre -> key_of a ∈ g.*1)
  /\ sum_list_with (fun entry => length entry.2) g = length pre.

Lemma group_append_length key a g :
  sum_list_with (fun entry => length entry.2) (group_append key a g)
  = S (sum_list_with (fun entry => length entry.2) g).
Proof.
  induction g as [| [k grp] g IH]; simpl; [reflexivity |].
  destruct (decide (k = key)); simpl.
  - rewrite length_app. simpl. lia.
  - rewrite IH. lia.
Qed.

Lemma group_append_grouped pre a g :
  grouped pre g -> grouped (pre ++ [a]) (group_append (key_of a) a g).
Proof.
  intros (Hnd & Hg & Hcov & Hlen). unfold grouped.
  rewrite group_append_length, length_app. simpl.
  destruct (group_append_keys (key_of a) a g) as [Hin Hout].
  assert (Hgroups : groups_of (pre ++ [a]) (group_append (key_of a) a g)).
  { apply group_append_groups_of; [exact Hnd | | exact Hg].
    destruct (decide (key_of a ∈ g.*1)) as [H | H]; [right; exact H | left].
    unfold with_key.
    destruct (filter (fun a0 => key_of a0 = key_of a) pre) as [| b l] eqn:E;
      [reflexivity |].
    exfalso. assert (Hb : b ∈ filter (fun a0 => key_of a0 = key_of a) pre)
      by (rewrite E; left).
    apply list_elem_of_filter in Hb as [Hkb Hb].
    apply H. rewrite <- Hkb. apply Hcov, Hb. }
  destruct (decide (key_of a ∈ g.*1)) as [H | H].
  - rewrite (Hin H). split; [exact Hnd |]. split; [exact Hgroups |].
    split; [| lia].
    intros b Hb. apply elem_of_app in Hb as [Hb | Hb]; [apply Hcov, Hb |].
    apply list_elem_of_singleton in Hb as ->. exact H.
  - rewrite (Hout H). split; [| split; [exact Hgroups | split; [| lia]]].
    + apply NoDup_app. split; [exact Hnd |]. split; [| apply NoDup_singleton].
      intros x Hx Hx'. apply list_elem_of_singleton in Hx' as ->. auto.
    + intros b Hb. apply elem_of_app in Hb as [Hb | Hb].
      * apply elem_of_app. left. apply Hcov, Hb.
      * apply list_elem_of_singleton in Hb as ->.
        apply elem_of_app. right. left.
Qed.

Lemma group_anomalies_grouped (anomalies : list Anomaly) :
  grouped anomalies (group_anomalies anomalies).
Proof.
  unfold group_anomalies.
  assert (H : forall rest pre g,
    grouped pre g ->
    grouped (pre ++ rest)
      (foldl (fun grouped anomaly =>
                group_append (AnomalyDetector.asset_id anomaly,
                              severity anomaly) anomaly grouped) g rest)).
  { induction rest as [| a rest IH]; intros pre g Hg; simpl.
    - rewrite app_nil_r. exact Hg.
    - replace (pre ++ a :: rest) with ((pre ++ [a]) ++ rest)
        by (rewrite <- app_assoc; reflexivity).
      apply IH. apply (group_append_grouped pre a g Hg). }
  apply (H anomalies [] []).
  repeat split; try constructor. intros a Ha. inversion Ha.
Qed.

(** X7. The grouping of [generate_alerts]: the keys (asset, severity) of
    the groups are distinct, the group of a key holds exactly the input
    anomalies with that asset and severity, in input order, and is not empty,
    and every input anomaly is in the group of its key. *)
Theorem group_anomalies_partition (anomalies : list Anomaly) :
  NoDup (group_anomalies anomalies).*1
  /\ (forall k grp, (k, grp) ∈ group_anomalies anomalies ->
        grp <> [] /\ grp = with_key k anomalies)
  /\ (forall a, a ∈ anomalies ->
        (key_of a, with_key (key_of a) anomalies) ∈ group_anomalies anomalies
        /\ a ∈ with_key (key_of a) anomalies).
Proof.
  destruct (group_anomalies_grouped anomalies) as (Hnd & Hg & Hcov & _).
  unfold groups_of in Hg. rewrite Forall_forall in Hg.
  split; [exact Hnd |]. split.
  - intros k grp Hin. apply (Hg (k, grp) Hin).
  - intros a Ha. split.
    + apply Hcov in Ha. apply list_elem_of_fmap in Ha as ([k grp] & Hk & Hin).
      simpl in Hk. subst k.
      destruct (Hg _ Hin) as [_ Heq]. simpl in Heq. rewrite <- Heq. exact Hin.
    + apply list_elem_of_filter. split; [reflexivity | exact Ha].
Qed.

Lemma group_anomalies_partition_witness :
  (group_anomalies [critical_oee; high_availability; critical_oee]).*1
  = [("A1", "CRITICAL"); ("A1", "HIGH")]
  /\ (("A1", "CRITICAL"), [critical_oee; critical_oee])
     ∈ group_anomalies [critical_oee; high_availability; critical_oee].
Proof.
  split; [reflexivity |].
  destruct (group_anomalies_partition
              [critical_oee; high_availability; critical_oee]) as (_ & _ & H).
  apply (H critical_oee). left.
Defined.

Lemma generate_alerts_elem (anomalies : list Anomaly) (alert : Alert) :
  alert ∈ generate_alerts anomalies
  <-> exists entry, entry ∈ group_anomalies anomalies
                    /\ alert ∈ alerts_of_group entry.
Proof.
  unfold generate_alerts. rewrite sorted_rev_perm, list_elem_of_join.
  split.
  - intros (l & Hin & Hl). apply list_elem_of_fmap in Hl as (entry & -> & He).
    eauto.
  - intros (entry & He & Hin). exists (alerts_of_group entry).
    split; [exact Hin |]. apply list_elem_of_fmap. eauto.
Qed.

Definition alert_asset (x : Alert) : string :=
  match x with
  | MULTIPLE_ANOMALIES asset _ _ _ _ _ => asset
  | SINGLE_ANOMALY asset _ _ _ _ _ _ => asset
  end.

(** What an alert says about the input it was made from. *)
Definition alert_sound (anomalies : list Anomaly) (x : Alert) : Prop :=
  match x with
  | MULTIPLE_ANOMALIES asset sev count metrics action ts =>
      count = length (with_key (asset, sev) anomalies)
      /\ (3 <= count)%nat
      /\ (forall m, m ∈ metrics
                    <-> exists a, a ∈ with_key (asset, sev) anomalies
                                  /\ AnomalyDetector.metric a = m)
      /\ action = "Immediate investigation required"
  | SINGLE_ANOMALY asset sev metric value expected action ts =>
      (sev = "HIGH" \/ sev = "CRITICAL")
      /\ (length (with_key (asset, sev) anomalies) < 3)%nat
      /\ exists a, a ∈ anomalies
                   /\ key_of a = (asset, sev)
                   /\ metric = AnomalyDetector.metric a
                   /\ value = AnomalyDetector.value a
                   /\ expected = expected_value a
                   /\ action = _get_recommended_action a
                   /\ ts = AnomalyDetector.timestamp a
  end.

(** X8. Every alert of [generate_alerts] is backed by the input.  A
    MULTIPLE_ANOMALIES alert counts the input anomalies of its asset and
    severity, which are three or more, and names exactly their metrics.  A
    SINGLE_ANOMALY alert is HIGH or CRITICAL, stands for an input anomaly of
    its asset and severity of which there are fewer than three, and carries
    that anomaly's metric, value, expected value and timestamp. *)
Theorem generate_alerts_sound (anomalies : list Anomaly) :
  Forall (alert_sound anomalies) (generate_alerts anomalies).
Proof.
  apply Forall_forall. intros alert Hin.
  apply generate_alerts_elem in Hin as ([[asset sev] grp] & He & Hin).
  destruct (group_anomalies_grouped anomalies) as (_ & Hg & _ & _).
  unfold groups_of in Hg. rewrite Forall_forall in Hg.
  destruct (Hg _ He) as [_ Heq]. simpl in Heq.
  unfold alerts_of_group in Hin.
  destruct (3 <=? length grp)%nat eqn:Hlen.
  - apply list_elem_of_singleton in Hin as ->. simpl.
    apply Nat.leb_le in Hlen. rewrite <- Heq.
    repeat split; try assumption.
    + intros Hm. apply elem_of_list_to_set, list_elem_of_fmap in Hm
        as (a & -> & Ha). eauto.
    + intros (a & Ha & <-). apply elem_of_list_to_set, list_elem_of_fmap. eauto.
  - apply Nat.leb_gt in Hlen.
    destruct (bool_decide (sev = "HIGH" \/ sev = "CRITICAL")) eqn:Hsev;
      [| inversion Hin].
    apply bool_decide_eq_true in Hsev.
    apply list_elem_of_fmap in Hin as (a & -> & Ha). simpl.
    rewrite <- Heq. split; [exact Hsev |]. split; [exact Hlen |].
    rewrite Heq in Ha. apply list_elem_of_filter in Ha as [Hk Ha].
    exists a. repeat split; assumption.
Qed.

(** X9. Which (asset, severity) pairs are alerted: a pair gets an alert
    exactly when some input anomaly has it and either three or more input
    anomalies have it or the severity is HIGH or CRITICAL. *)
Theorem generate_alerts_alerted_iff (anomalies : list Anomaly)
    (asset sev : string) :
  (exists alert, alert ∈ generate_alerts anomalies
                 /\ alert_asset alert = asset
                 /\ alert_severity alert = sev)
  <-> (with_key (asset, sev) anomalies <> []
       /\ ((3 <= length (with_key (asset, sev) anomalies))%nat
           \/ sev = "HIGH" \/ sev = "CRITICAL")).
Proof.
  destruct (group_anomalies_grouped anomalies) as (_ & Hg & Hcov & _).
  unfold groups_of in Hg. rewrite Forall_forall in Hg.
  split.
  - intros (alert & Hin & <- & <-).
    apply generate_alerts_elem in Hin as ([[asset sev] grp] & He & Hin).
    destruct (Hg _ He) as [Hne Heq]. simpl in Hne, Heq.
    unfold alerts_of_group in Hin.
    destruct (3 <=? length grp)%nat eqn:Hlen.
    + apply list_elem_of_singleton in Hin as ->. simpl.
      apply Nat.leb_le in Hlen. rewrite <- Heq. auto.
    + destruct (bool_decide (sev = "HIGH" \/ sev = "CRITICAL")) eqn:Hsev;
        [| inversion Hin].
      apply bool_decide_eq_true in Hsev.
      apply list_elem_of_fmap in Hin as (a & -> & Ha). simpl.
      rewrite <- Heq. auto.
  - intros [Hne Hwhy].
    destruct (with_key (asset, sev) anomalies) as [| a l] eqn:E;
      [congruence |].
    assert (Ha : a ∈ with_key (asset, sev) anomalies) by (rewrite E; left).
    apply list_elem_of_filter in Ha as [Hk Ha].
    apply Hcov in Ha. rewrite Hk in Ha.
    apply list_elem_of_fmap in Ha as ([k grp] & Hkey & He).
    simpl in Hkey. subst k.
    destruct (Hg _ He) as [_ Heq]. simpl in Heq. rewrite E in Heq.
    destruct (3 <=? length grp)%nat eqn:Hlen.
    + eexists. split.
      * apply generate_alerts_elem. exists ((asset, sev), grp).
        split; [exact He |]. unfold alerts_of_group. rewrite Hlen. left.
      * split; reflexivity.
    + assert (Hsev : sev = "HIGH" \/ sev = "CRITICAL").
      { destruct Hwhy as [H3 | H]; [| exact H].
        apply Nat.leb_gt in Hlen. rewrite Heq in Hlen. lia. }
      eexists. split.
      * apply generate_alerts_elem. exists ((asset, sev), grp).
        split; [exact He |]. unfold alerts_of_group. rewrite Hlen.
        rewrite bool_decide_eq_true_2 by exact Hsev.
        rewrite Heq. left.
      * split; reflexivity.
Qed.

Lemma alerts_of_group_length entry :
  (length (alerts_of_group entry) <= length entry.2)%nat.
Proof.
  destruct entry as [[asset sev] grp]. unfold alerts_of_group. cbn [snd].
  destruct (3 <=? length grp)%nat eqn:Hlen.
  - apply Nat.leb_le in Hlen. cbn [length]. lia.
  - destruct (bool_decide _); [rewrite length_fmap | cbn [length]]; lia.
Qed.

(** X10. [generate_alerts] returns at most one alert for each input
    anomaly. *)
Theorem generate_alerts_at_most_input (anomalies : list Anomaly) :
  (length (generate_alerts anomalies) <= length anomalies)%nat.
Proof.
  destruct (group_anomalies_grouped anomalies) as (_ & _ & _ & Hlen).
  unfold generate_alerts. rewrite sorted_rev_perm, <- Hlen.
  generalize (group_anomalies anomalies). intros g.
  induction g as [| entry g IH]; [simpl; lia |].
  pose proof (alerts_of_group_length entry) as He.
  rewrite fmap_cons. simpl in *. rewrite length_app. lia.
Qed.

(** Lookups in the nested action table. *)
Ltac lookup_table :=
  repeat first
    [ rewrite lookup_insert_eq
    | rewrite lookup_singleton_eq
    | rewrite lookup_insert_ne by (first [discriminate | congruence])
    | rewrite lookup_singleton_ne by (first [discriminate | congruence])
    | rewrite lookup_empty ].

Definition default_action : string := "Monitor situation closely".

Lemma recommended_action_cases (m s : string) :
  let action := default default_action (default ∅ (actions !! m) !! s) in
  (m ∈ metric_names /\ (s = "HIGH" \/ s = "CRITICAL")
   /\ action <> default_action)
  \/ (~ (m ∈ metric_names /\ (s = "HIGH" \/ s = "CRITICAL"))
      /\ action = default_action).
Proof.
  unfold metric_names, actions. cbv zeta.
  destruct (decide (s = "HIGH")) as [-> | Hs1];
    [| destruct (decide (s = "CRITICAL")) as [-> | Hs2]];
    (destruct (decide (m = "OEE")) as [-> | H1];
     [| destruct (decide (m = "Availability")) as [-> | H2];
        [| destruct (decide (m = "Performance")) as [-> | H3];
           [| destruct (decide (m = "Quality")) as [-> | H4]]]]);
    lookup_table; cbv beta iota delta [default from_option id];
    lookup_table; cbv beta iota delta [default from_option id];
    first
      [ left; split; [repeat constructor |];
        split; [auto | discriminate]
      | right; split; [| reflexivity];
        intros [Hm Hs];
        first
          [ destruct Hs; congruence
          | repeat (apply elem_of_cons in Hm as [Hm | Hm]; [congruence |]);
            inversion Hm ] ].
Qed.

(** X11. [_get_recommended_action] falls back to "Monitor situation closely"
    exactly when the metric is not one of OEE, Availability, Performance,
    Quality or the severity is neither HIGH nor CRITICAL. *)
Theorem recommended_action_default_iff (anomaly : Anomaly) :
  _get_recommended_action anomaly = "Monitor situation closely"
  <-> ~ (AnomalyDetector.metric anomaly ∈ metric_names
         /\ (severity anomaly = "HIGH" \/ severity anomaly = "CRITICAL")).
Proof.
  unfold _get_recommended_action.
  destruct (recommended_action_cases (AnomalyDetector.metric anomaly)
              (severity anomaly)) as [(Hm & Hs & Ha) | [Hn Ha]];
    cbv zeta in Ha; unfold default_action in Ha.
  - split; [intros E; contradiction | intros Hn; exfalso; apply Hn; auto].
  - split; [intros _; exact Hn | intros _; exact Ha].
Qed.

Lemma detect_oee_anomalies_metric cdf recent_data baseline_rows :
  Forall (fun a => AnomalyDetector.metric a ∈ metric_names)
    (detect_oee_anomalies cdf recent_data baseline_rows).
Proof.
  unfold detect_oee_anomalies.
  eapply Forall_impl.
  - apply (foldl_check_data_point_raised cdf baseline_rows _ recent_data);
      [| auto | constructor].
    intros k b Hb. apply baselines_lookup in Hb as [Hb | Hb];
      [exact Hb | rewrite lookup_empty in Hb; discriminate].
  - intros a (row & _ & _ & _ & Hmet & _). exact Hmet.
Qed.

(** X12. The detector and the alerts together: a SINGLE_ANOMALY alert made
    from the anomalies of [detect_oee_anomalies] never carries the fallback
    action. *)
Theorem detected_single_alert_has_action (cdf : Q -> Q)
    (recent_data : list OeeRow) (baseline_rows : list BaselineRow)
    (asset sev metric : string) (value expected : Q) (action : string)
    (ts : Z) :
  SINGLE_ANOMALY asset sev metric value expected action ts
    ∈ generate_alerts (detect_oee_anomalies cdf recent_data baseline_rows) ->
  action <> "Monitor situation closely".
Proof.
  intros Hin.
  apply generate_alerts_elem in Hin as ([[asset' sev'] grp] & He & Hin).
  destruct (group_anomalies_grouped
              (detect_oee_anomalies cdf recent_data baseline_rows))
    as (_ & Hg & _ & _).
  unfold groups_of in Hg. rewrite Forall_forall in Hg.
  destruct (Hg _ He) as [_ Heq]. simpl in Heq.
  unfold alerts_of_group in Hin.
  destruct (3 <=? length grp)%nat.
  { apply list_elem_of_singleton in Hin. discriminate. }
  destruct (bool_decide (sev' = "HIGH" \/ sev' = "CRITICAL")) eqn:Hsev;
    [| inversion Hin].
  apply bool_decide_eq_true in Hsev.
  apply list_elem_of_fmap in Hin as (a & Halert & Ha).
  injection Halert as -> -> -> -> -> -> ->.
  rewrite Heq in Ha. apply list_elem_of_filter in Ha as [Hk Ha].
  injection Hk as _ Hk.
  assert (Hm : AnomalyDetector.metric a ∈ metric_names).
  { pose proof (detect_oee_anomalies_metric cdf recent_data baseline_rows)
      as Hall.
    rewrite Forall_forall in Hall. apply Hall, Ha. }
  intros Hdef.
  destruct (recommended_action_cases (AnomalyDetector.metric a) (severity a))
    as [(_ & _ & Hact) | [Hn _]].
  - apply Hact. exact Hdef.
  - apply Hn. split; [exact Hm | rewrite Hk; exact Hsev].
Qed.

Lemma detected_single_alert_has_action_witness :
  generate_alerts
    (detect_oee_anomalies cdf_steps [bad_hour "A1"] [steady_baseline])
  = [ SINGLE_ANOMALY "A1" "CRITICAL" "OEE" 60 80
        "Stop production and investigate" 3600;
      SINGLE_ANOMALY "A1" "CRITICAL" "Performance" 70 92
        "Check for major speed losses" 3600 ]
  /\ "Stop production and investigate" <> "Monitor situation closely".
Proof.
  assert (E : generate_alerts
                (detect_oee_anomalies cdf_steps [bad_hour "A1"]
                   [steady_baseline])
              = [ SINGLE_ANOMALY "A1" "CRITICAL" "OEE" 60 80
                    "Stop production and investigate" 3600;
                  SINGLE_ANOMALY "A1" "CRITICAL" "Performance" 70 92
                    "Check for major speed losses" 3600 ])
    by (vm_compute; reflexivity).
  split; [exact E |].
  apply (detected_single_alert_has_action cdf_steps [bad_hour "A1"]
           [steady_baseline] "A1" "CRITICAL" "OEE" 60 80 _ 3600).
  rewrite E. left.
Defined.

End AlertsMore.

(** ** detect_pattern_anomalies *)
Section PatternsMore.
Import AnomalyDetector.

Lemma select_elem {A} (data : list A) (mask : list bool) (row : A) :
  row ∈ select data mask
  <-> exists i, data !! i = Some row /\ mask !! i = Some true.
Proof.
  revert mask. induction data as [| x data IH]; intros mask; simpl.
  - split; [intros H; inversion H | intros (i & H & _); discriminate].
  - destruct mask as [| m mask].
    + split; [intros H; inversion H | intros (i & _ & H); discriminate].
    + split.
      * intros H. destruct m.
        -- apply elem_of_cons in H as [-> | H]; [exists 0%nat; auto |].
           apply IH in H as (i & H1 & H2). exists (S i). auto.
        -- apply IH in H as (i & H1 & H2). exists (S i). auto.
      * intros ([| i] & H1 & H2); simpl in H1, H2.
        -- injection H1 as ->. injection H2 as ->. left.
        -- assert (row ∈ select data mask) by (apply IH; eauto).
           destruct m; [right |]; assumption.
Qed.

Lemma select_length {A} (data : list A) (mask : list bool) :
  (length (select data mask) <= length data)%nat.
Proof.
  revert mask. induction data as [| x data IH]; intros [| m mask]; simpl;
    try lia.
  specialize (IH mask). destruct m; simpl; lia.
Qed.

Lemma nan_lt_true (a b : option Q) :
  nan_lt a b = true <-> exists x y, a = Some x /\ b = Some y /\ x < y.
Proof.
  destruct a as [x |], b as [y |]; simpl.
  - rewrite Qlt_bool_iff. split.
    + intros H. exists x, y. auto.
    + intros (x' & y' & [= <-] & [= <-] & H). exact H.
  - split; [discriminate | intros (? & ? & _ & ? & _); discriminate].
  - split; [discriminate | intros (? & ? & ? & _); discriminate].
  - split; [discriminate | intros (? & ? & ? & _); discriminate].
Qed.

(** The cells of [Series.diff()]. *)
Lemma series_diff_lookup (s : list (option Q)) (i : nat) (d : option Q) :
  series_diff s !! i = Some d
  <-> (i = 0%nat /\ s <> [] /\ d = None)
      \/ (exists j a b, i = S j /\ s !! j = Some a /\ s !! S j = Some b
                        /\ d = nan_sub b a).
Proof.
  unfold series_diff. destruct s as [| a0 rest]; simpl.
  - split; [discriminate |].
    intros [(_ & H & _) | (j & a & b & _ & H & _)];
      [congruence | discriminate].
  - destruct i as [| j]; simpl.
    + split.
      * intros [= <-]. left. repeat split. discriminate.
      * intros [(_ & _ & ->) | (j & a & b & H & _)];
          [reflexivity | discriminate].
    + rewrite lookup_zip_with_Some. split.
      * intros (b & a & -> & Hb & Ha). right. exists j, a, b. auto.
      * intros [(H & _) | (j' & a & b & [= <-] & Ha & Hb & ->)];
          [discriminate |].
        exists b, a. auto.
Qed.

(** A row is a sudden drop when its oee is more than 20 points below the
    oee of the row before it. *)
Definition drops_after (data : list PatternRow) (cur : PatternRow) : Prop :=
  exists j prev x y,
    data !! j = Some prev /\ data !! S j = Some cur
    /\ p_oee prev = Some x /\ p_oee cur = Some y /\ y - x < -20.

Lemma sudden_drops_elem (data : list PatternRow) (cur : PatternRow) :
  cur ∈ select data
          ((fun d => nan_lt d (Some (-20))) <$> series_diff (p_oee <$> data))
  <-> drops_after data cur.
Proof.
  rewrite select_elem. unfold drops_after. split.
  - intros (i & Hi & Hm).
    rewrite list_lookup_fmap in Hm.
    destruct (series_diff (p_oee <$> data) !! i) as [d |] eqn:Hd;
      [| discriminate].
    injection Hm as Hm. apply nan_lt_true in Hm as (v & t & -> & [= <-] & Hv).
    apply series_diff_lookup in Hd
      as [(_ & _ & Hd) | (j & a & b & -> & Ha & Hb & Hd)]; [discriminate |].
    rewrite list_lookup_fmap in Ha, Hb.
    destruct (data !! j) as [prev |] eqn:Hprev; [| discriminate].
    rewrite Hi in Hb. injection Ha as <-. injection Hb as <-.
    destruct (p_oee cur) as [y |] eqn:Hy, (p_oee prev) as [x |] eqn:Hx;
      try discriminate.
    injection Hd as ->. exists j, prev, x, y. auto.
  - intros (j & prev & x & y & Hprev & Hcur & Hx & Hy & Hlt).
    exists (S j). split; [exact Hcur |].
    rewrite list_lookup_fmap.
    assert (Hd : series_diff (p_oee <$> data) !! S j = Some (Some (y - x))).
    { apply series_diff_lookup. right. exists j, (Some x), (Some y).
      rewrite !list_lookup_fmap, Hprev, Hcur. simpl. rewrite Hx, Hy. auto. }
    rewrite Hd. simpl. f_equal. apply Qlt_bool_iff. exact Hlt.
Qed.

(** A row breaches the threshold when its downtime is above 0.3 times its
    runtime. *)
Definition breaches (row : PatternRow) : Prop :=
  exists r d, p_runtime row = Some r /\ p_downtime row = Some d /\ r * 0.3 < d.

Lemma high_downtime_elem (data : list PatternRow) (row : PatternRow) :
  row ∈ select data
          ((fun row => nan_lt (nan_mul (p_runtime row) (Some 0.3))
                         (p_downtime row)) <$> data)
  <-> row ∈ data /\ breaches row.
Proof.
  rewrite select_elem. unfold breaches. split.
  - intros (i & Hi & Hm). rewrite list_lookup_fmap, Hi in Hm.
    injection Hm as Hm. apply nan_lt_true in Hm as (v & d & Hv & Hd & Hlt).
    split; [apply list_elem_of_lookup; eauto |].
    destruct (p_runtime row) as [r |]; [| discriminate].
    injection Hv as <-. exists r, d. auto.
  - intros [Hin (r & d & Hr & Hd & Hlt)].
    apply list_elem_of_lookup in Hin as [i Hi]. exists i.
    split; [exact Hi |]. rewrite list_lookup_fmap, Hi. simpl.
    rewrite Hr, Hd. simpl. f_equal. apply Qlt_bool_iff. exact Hlt.
Qed.

Lemma select_sublist {A} (data : list A) (mask : list bool) :
  sublist (select data mask) data.
Proof.
  revert mask. induction data as [| x data IH]; intros [| m mask]; simpl;
    try apply sublist_nil_l.
  destruct m; [apply sublist_skip | apply sublist_cons]; apply IH.
Qed.

(** A float column: some cell holds a number. *)
Definition float_column (s : list (option Q)) : Prop := exists v, Some v ∈ s.

Lemma float_column_not_object (s : list (option Q)) :
  float_column s -> object_column s = false.
Proof.
  intros [v Hv]. induction s as [| cell s IH]; [inversion Hv |].
  apply elem_of_cons in Hv as [<- | Hv]; [reflexivity |].
  simpl. destruct cell; [reflexivity | apply IH, Hv].
Qed.

(** The columns the function computes with are float columns; the reject
    counts are read from twenty rows on. *)
Definition float_columns (data : list PatternRow) : Prop :=
  float_column (p_oee <$> data)
  /\ float_column (p_runtime <$> data)
  /\ float_column (p_downtime <$> data)
  /\ ((20 <= length data)%nat -> float_column (p_reject_count <$> data)).

Section Shape.
Variable str_timestamp : Z -> string.
Variable object_arith_raises : bool.

(** The three parts of the result. *)
Definition sudden_drops (data : list PatternRow) : list PatternRow :=
  select data
    ((fun d => nan_lt d (Some (-20))) <$> series_diff (p_oee <$> data)).

Definition trend_part (data : list PatternRow) (end_time : Z)
    : list PatternEvent :=
  if (20 <=? length data)%nat then
    if nan_lt
         (nan_mul (series_mean (p_reject_count <$> take 10 data)) (Some 1.5))
         (series_mean (p_reject_count <$> drop (length data - 10) data))
    then [trend_event end_time] else []
  else [].

Definition high_downtime (data : list PatternRow) : list PatternRow :=
  select data
    ((fun row => nan_lt (nan_mul (p_runtime row) (Some 0.3)) (p_downtime row))
       <$> data).

(** On float columns the call returns, whatever pandas does with object
    columns. *)
Lemma detect_pattern_anomalies_parts (data : list PatternRow) (end_time : Z) :
  (10 <= length data)%nat ->
  float_columns data ->
  detect_pattern_anomalies str_timestamp object_arith_raises data end_time
  = Returns
      ((sudden_drop_event str_timestamp <$> sudden_drops data)
         ++ trend_part data end_time
         ++ (threshold_breach_event str_timestamp <$> high_downtime data)).
Proof.
  intros H (Hoee & Hrun & Hdown & _).
  unfold detect_pattern_anomalies, trend_part.
  apply Nat.ltb_ge in H. rewrite H.
  rewrite (float_column_not_object _ Hoee), (float_column_not_object _ Hrun),
    (float_column_not_object _ Hdown), andb_false_r.
  cbv zeta. fold (sudden_drops data). fold (high_downtime data).
  destruct (20 <=? length data)%nat; [| reflexivity].
  destruct (nan_lt _ _); [rewrite <- app_assoc |]; reflexivity.
Qed.

Lemma sudden_drops_tail (data : list PatternRow) :
  sublist (sudden_drops data) (tail data).
Proof.
  unfold sudden_drops. destruct data as [| row data]; simpl;
    [constructor |].
  apply select_sublist.
Qed.

Lemma trend_part_not (data : list PatternRow) (end_time : Z) (e : PatternEvent) :
  e ∈ trend_part data end_time -> e_type e = "TREND".
Proof.
  unfold trend_part. destruct (20 <=? length data)%nat;
    [| intros H; inversion H].
  destruct (nan_lt _ _); [| intros H; inversion H].
  intros H. apply list_elem_of_singleton in H as ->. reflexivity.
Qed.

(** X13. On ten rows or more whose columns are float columns (oee, runtime
    and downtime, and from twenty rows on reject_count, each hold a number in
    some row), the call returns, and its SUDDEN_DROP events are exactly the
    events of the rows whose oee is more than 20 points below the oee of the
    row before them; rows with a missing oee on either side give none. *)
Theorem sudden_drop_events_iff (data : list PatternRow) (end_time : Z) :
  (10 <= length data)%nat ->
  float_columns data ->
  exists events,
    detect_pattern_anomalies str_timestamp object_arith_raises data end_time
    = Returns events
    /\ forall e,
         (e ∈ events /\ e_type e = "SUDDEN_DROP")
         <-> exists cur, drops_after data cur
                         /\ e = sudden_drop_event str_timestamp cur.
Proof.
  intros Hlen Hfloat.
  rewrite (detect_pattern_anomalies_parts data end_time Hlen Hfloat).
  eexists. split; [reflexivity |]. intros e.
  rewrite !elem_of_app, !list_elem_of_fmap. split.
  - intros [[(cur & -> & Hcur) | [Ht | (row & -> & _)]] Htype].
    + exists cur. split; [apply sudden_drops_elem, Hcur | reflexivity].
    + apply trend_part_not in Ht. congruence.
    + discriminate.
  - intros (cur & Hcur & ->). split; [| reflexivity].
    left. exists cur. split; [reflexivity | apply sudden_drops_elem, Hcur].
Qed.

(** X14. On ten rows or more whose columns are float columns (oee, runtime
    and downtime, and from twenty rows on reject_count, each hold a number in
    some row), the call returns, and its THRESHOLD_BREACH events are exactly
    the events of the rows whose downtime is above 0.3 times their runtime;
    rows with a missing runtime or downtime give none. *)
Theorem threshold_breach_events_iff (data : list PatternRow) (end_time : Z) :
  (10 <= length data)%nat ->
  float_columns data ->
  exists events,
    detect_pattern_anomalies str_timestamp object_arith_raises data end_time
    = Returns events
    /\ forall e,
         (e ∈ events /\ e_type e = "THRESHOLD_BREACH")
         <-> exists row, row ∈ data /\ breaches row
                         /\ e = threshold_breach_event str_timestamp row.
Proof.
  intros Hlen Hfloat.
  rewrite (detect_pattern_anomalies_parts data end_time Hlen Hfloat).
  eexists. split; [reflexivity |]. intros e.
  rewrite !elem_of_app, !list_elem_of_fmap. split.
  - intros [[(cur & -> & _) | [Ht | (row & -> & Hrow)]] Htype].
    + discriminate.
    + apply trend_part_not in Ht. congruence.
    + apply high_downtime_elem in Hrow as [Hin Hb]. exists row. auto.
  - intros (row & Hin & Hb & ->). split; [| reflexivity].
    right. right. exists row. split; [reflexivity |].
    apply high_downtime_elem. auto.
Qed.

(** X15. Fewer than ten rows give no event.  On ten rows or more the call
    raises TypeError when the oee column is NULL in every row.  When the
    columns are float columns (oee, runtime and downtime, and from twenty
    rows on reject_count, each hold a number in some row) it returns the
    sudden drops in row order (never the first row), then at most one TREND
    event, which needs twenty rows, then the threshold breaches in row
    order. *)
Theorem detect_pattern_anomalies_shape (data : list PatternRow)
    (end_time : Z) :
  ((length data < 10)%nat ->
     detect_pattern_anomalies str_timestamp object_arith_raises data end_time
     = Returns [])
  /\ ((10 <= length data)%nat ->
      object_column (p_oee <$> data) = true ->
      detect_pattern_anomalies str_timestamp object_arith_raises data end_time
      = RaisesTypeError)
  /\ ((10 <= length data)%nat ->
      float_columns data ->
      exists drops trend high,
        detect_pattern_anomalies str_timestamp object_arith_raises data
          end_time
        = Returns
            ((sudden_drop_event str_timestamp <$> drops) ++ trend
               ++ (threshold_breach_event str_timestamp <$> high))
        /\ sublist drops (tail data)
        /\ sublist high data
        /\ (trend = []
            \/ (trend = [trend_event end_time] /\ (20 <= length data)%nat))).
Proof.
  split; [| split].
  - intros H. unfold detect_pattern_anomalies.
    apply Nat.ltb_lt in H. rewrite H. reflexivity.
  - intros H Hobj. unfold detect_pattern_anomalies.
    apply Nat.ltb_ge in H. rewrite H, Hobj. reflexivity.
  - intros Hlen Hfloat.
    exists (sudden_drops data), (trend_part data end_time),
      (high_downtime data).
    split; [apply detect_pattern_anomalies_parts; assumption |].
    split; [apply sudden_drops_tail |].
    split; [apply select_sublist |].
    unfold trend_part.
    destruct (20 <=? length data)%nat eqn:H20; [| left; reflexivity].
    apply Nat.leb_le in H20.
    destruct (nan_lt _ _); [right | left]; auto.
Qed.

End Shape.

(** Ten hourly rows: the oee falls from 80 to 55 at the fourth row, and the
    seventh row has 30 minutes of downtime for 30 minutes of runtime. *)
Definition quiet_row (ts : Z) : PatternRow :=
  {| p_timestamp := ts; p_oee := Some 80; p_runtime := Some 55;
     p_downtime := Some 5; p_good_count := Some 100;
     p_reject_count := Some 2 |}.

Definition dropped_row : PatternRow :=
  {| p_timestamp := 3; p_oee := Some 55; p_runtime := Some 55;
     p_downtime := Some 5; p_good_count := Some 60;
     p_reject_count := Some 2 |}.

Definition stopped_row : PatternRow :=
  {| p_timestamp := 6; p_oee := Some 60; p_runtime := Some 30;
     p_downtime := Some 30; p_good_count := Some 50;
     p_reject_count := Some 2 |}.

Definition ten_rows : list PatternRow :=
  [quiet_row 0; quiet_row 1; quiet_row 2; dropped_row; quiet_row 4;
   quiet_row 5; stopped_row; quiet_row 7; quiet_row 8; quiet_row 9].

Lemma ten_rows_float_columns : float_columns ten_rows.
Proof.
  split; [exists 80; left |]. split; [exists 55; left |].
  split; [exists 5; left |]. intros _. exists 2. left.
Qed.

(** The same rows with no oee at all. *)
Definition no_oee (row : PatternRow) : PatternRow :=
  {| p_timestamp := p_timestamp row; p_oee := None;
     p_runtime := p_runtime row; p_downtime := p_downtime row;
     p_good_count := p_good_count row;
     p_reject_count := p_reject_count row |}.

Lemma sudden_drop_events_iff_witness :
  exists events,
    detect_pattern_anomalies pretty true ten_rows 10 = Returns events
    /\ sudden_drop_event pretty dropped_row ∈ events
    /\ e_value (sudden_drop_event pretty dropped_row) = Some (Some 55).
Proof.
  destruct (sudden_drop_events_iff pretty true ten_rows 10)
    as (events & Hev & Hiff).
  - vm_compute. lia.
  - exact ten_rows_float_columns.
  - exists events. split; [exact Hev |]. split; [| reflexivity].
    apply Hiff. exists dropped_row. split; [| reflexivity].
    exists 2%nat, (quiet_row 2), 80, 55. repeat split.
Defined.

Lemma threshold_breach_events_iff_witness :
  exists events,
    detect_pattern_anomalies pretty true ten_rows 10 = Returns events
    /\ threshold_breach_event pretty stopped_row ∈ events.
Proof.
  destruct (threshold_breach_events_iff pretty true ten_rows 10)
    as (events & Hev & Hiff).
  - vm_compute. lia.
  - exact ten_rows_float_columns.
  - exists events. split; [exact Hev |].
    apply Hiff. exists stopped_row. split; [| split; [| reflexivity]].
    + unfold ten_rows. repeat constructor.
    + exists 30, 30. repeat split.
Defined.

Lemma detect_pattern_anomalies_shape_witness :
  detect_pattern_anomalies pretty false (take 9 ten_rows) 10 = Returns []
  /\ detect_pattern_anomalies pretty false (no_oee <$> ten_rows) 10
     = RaisesTypeError
  /\ exists events,
       detect_pattern_anomalies pretty false ten_rows 10 = Returns events
       /\ e_type <$> events = ["SUDDEN_DROP"; "THRESHOLD_BREACH"].
Proof.
  destruct (detect_pattern_anomalies_shape pretty false (take 9 ten_rows) 10)
    as (Hshort & _).
  destruct (detect_pattern_anomalies_shape pretty false (no_oee <$> ten_rows) 10)
    as (_ & Hobj & _).
  split; [apply Hshort; vm_compute; lia |].
  split; [apply Hobj; [vm_compute; lia | reflexivity] |].
  eexists. split; vm_compute; reflexivity.
Defined.

End PatternsMore.

(** ** _get_ideal_cycle_time and calculate_oee *)
Section OeeMore.
Import OEECalculator.

Definition cache_key (asset_id : string) : string :=
  "ideal_cycle_time:" +:+ asset_id.

Lemma get_ideal_cycle_time_hit asset (r : Redis) ttl c :
  r !! cache_key asset = Some (ttl, c) ->
  _get_ideal_cycle_time asset r = (Py.Ok c, r).
Proof.
  intros H. unfold _get_ideal_cycle_time, bind, redis_get.
  fold (cache_key asset). rewrite H. reflexivity.
Qed.

Lemma get_ideal_cycle_time_miss asset (r : Redis) :
  r !! cache_key asset = None ->
  _get_ideal_cycle_time asset r
  = (Py.Ok 1.0, <[cache_key asset := (3600%Z, 1.0)]> r).
Proof.
  intros H. unfold _get_ideal_cycle_time, bind, redis_get.
  fold (cache_key asset). rewrite H. reflexivity.
Qed.

Lemma ideal_cycle_time_of_get asset (r : Redis) :
  exists r',
    _get_ideal_cycle_time asset r = (Py.Ok (ideal_cycle_time_of asset r), r')
    /\ ideal_cycle_time_of asset r' = ideal_cycle_time_of asset r
    /\ _get_ideal_cycle_time asset r'
       = (Py.Ok (ideal_cycle_time_of asset r), r').
Proof.
  unfold ideal_cycle_time_of. fold (cache_key asset).
  destruct (r !! cache_key asset) as [[ttl c] |] eqn:E.
  - exists r. rewrite (get_ideal_cycle_time_hit asset r ttl c E), E. auto.
  - exists (<[cache_key asset := (3600%Z, 1.0)]> r).
    rewrite (get_ideal_cycle_time_miss asset r E), lookup_insert_eq.
    split; [reflexivity |]. split; [reflexivity |].
    apply (get_ideal_cycle_time_hit _ _ 3600%Z), lookup_insert_eq.
Qed.

(** The record of a call, as a function of the row and the ideal cycle
    time. *)
Definition oee_record (data : AggregateRow) (now : Z) (asset : string)
    (start_time end_time : Z) (ideal : Q) : OEEMetrics :=
  let a := availability_raw data start_time end_time in
  let p := performance_raw data ideal in
  let q := quality_raw data in
  {| timestamp := now;
     asset_id := asset;
     line_id := a_line_id data;
     oee := cap (a * p * q / 10000);
     availability := cap a;
     performance := cap p;
     quality := cap q;
     runtime := runtime_of data;
     downtime := Py.or0 (total_downtime data);
     total_count := total_count_of data;
     good_count := good_count_of data;
     reject_count := reject_count_of data |}.

Lemma calculate_oee_run (data : AggregateRow) (now : Z) (asset : string)
    (start_time end_time : Z) (r r' : Redis) (ideal : Q) :
  _get_ideal_cycle_time asset r = (Py.Ok ideal, r') ->
  calculate_oee (Some data) now asset start_time end_time r
  = (Py.Ok (oee_record data now asset start_time end_time ideal), r').
Proof.
  intros Hr'. unfold calculate_oee.
  unfold bind at 1. rewrite ratio_pct_ok.
  unfold bind at 1. rewrite Hr'.
  unfold bind at 1. rewrite ratio_pct_ok.
  unfold bind at 1. rewrite ratio_pct_ok.
  reflexivity.
Qed.

(** X17. [calculate_oee] and the cache.  Without a row the call raises
    before it reads the cache, which stays as it is.  With a row, the cache
    afterwards answers for the asset with the ideal cycle time the call used,
    and the same call on that cache returns the same record and changes
    nothing more. *)
Theorem calculate_oee_cache (data : AggregateRow) (now : Z) (asset : string)
    (start_time end_time : Z) (r : Redis) :
  (calculate_oee None now asset start_time end_time r).2 = r
  /\ exists m r',
       calculate_oee (Some data) now asset start_time end_time r
       = (Py.Ok m, r')
       /\ (exists ttl, r' !! cache_key asset
                       = Some (ttl, ideal_cycle_time_of asset r))
       /\ (forall k, k <> cache_key asset -> r' !! k = r !! k)
       /\ calculate_oee (Some data) now asset start_time end_time r'
          = (Py.Ok m, r').
Proof.
  split; [reflexivity |].
  destruct (ideal_cycle_time_of_get asset r) as (r' & Hcall & Hsame & Hagain).
  exists (oee_record data now asset start_time end_time
            (ideal_cycle_time_of asset r)), r'.
  split; [apply calculate_oee_run, Hcall |].
  split; [| split; [| apply calculate_oee_run, Hagain]].
  - unfold ideal_cycle_time_of in *. fold (cache_key asset) in *.
    destruct (r !! cache_key asset) as [[ttl c] |] eqn:E.
    + rewrite (get_ideal_cycle_time_hit asset r ttl c E) in Hcall.
      injection Hcall as <-. eauto.
    + rewrite (get_ideal_cycle_time_miss asset r E) in Hcall.
      injection Hcall as <-. rewrite lookup_insert_eq. eauto.
  - intros k Hk.
    destruct (r !! cache_key asset) as [[ttl c] |] eqn:E.
    + rewrite (get_ideal_cycle_time_hit asset r ttl c E) in Hcall.
      injection Hcall as _ <-. reflexivity.
    + rewrite (get_ideal_cycle_time_miss asset r E) in Hcall.
      injection Hcall as _ <-. apply lookup_insert_ne. congruence.
Qed.

Lemma cap_id (x : Q) : 0 <= x <= 100 -> cap x == x.
Proof.
  intros Hx. destruct (cap_cases x) as [[H E] | [[H E] | [H E]]];
    rewrite E; lra.
Qed.

(** X18. When the three components are within [0,100] before the cap, the
    record is consistent: its oee is availability x performance x quality /
    10000 of its own fields. *)
Theorem oee_product_identity (data : AggregateRow) (now : Z) (asset : string)
    (start_time end_time : Z) (r : Redis) :
  0 <= availability_raw data start_time end_time <= 100 ->
  0 <= performance_raw data (ideal_cycle_time_of asset r) <= 100 ->
  0 <= quality_raw data <= 100 ->
  exists m r',
    calculate_oee (Some data) now asset start_time end_time r = (Py.Ok m, r')
    /\ oee m == availability m * performance m * quality m / 10000.
Proof.
  intros Ha Hp Hq.
  destruct (ideal_cycle_time_of_get asset r) as (r' & Hcall & _).
  eexists. exists r'. split; [apply calculate_oee_run, Hcall |].
  unfold oee_record. cbn [oee availability performance quality].
  set (a := availability_raw data start_time end_time) in *.
  set (p := performance_raw data (ideal_cycle_time_of asset r)) in *.
  set (q := quality_raw data) in *.
  rewrite (cap_id a Ha), (cap_id p Hp), (cap_id q Hq).
  apply cap_id.
  assert (Hdiv : a * p * q / 10000 == a * p * q * (1 # 10000))
    by (unfold Qdiv; reflexivity).
  rewrite Hdiv.
  assert (H1 : 0 <= a * p * q) by (assert (0 <= a * p) by nra; nra).
  assert (H2 : a * p * q <= 100 * 100 * 100) by (apply product_le; lra).
  lra.
Qed.

(** Forty-five minutes of runtime in an hour, 36 good and 4 rejected
    units. *)
Definition slow_row : AggregateRow :=
  {| a_asset_id := "A1"; a_line_id := "L1";
     total_runtime := Some 45; total_downtime := Some 15;
     total_good := Some 36%Z; total_reject := Some 4%Z;
     avg_temp := None; avg_vibration := None |}.

Lemma oee_product_identity_witness :
  exists m r',
    calculate_oee (Some slow_row) 0 "A1" 0 3600000000 ∅ = (Py.Ok m, r')
    /\ oee m == availability m * performance m * quality m / 10000.
Proof.
  apply (oee_product_identity slow_row 0 "A1" 0 3600000000 ∅);
    split; vm_compute; discriminate.
Defined.

End OeeMore.

(** ** _get_ideal_cycle_time on a cache of strings *)
Section CacheStrings.

Variable float : string -> option Q.

Lemma get_ideal_cycle_time_miss_strings asset (r : gmap string (Z * string)) :
  (r !! cache_key asset = None
   \/ exists ttl, r !! cache_key asset = Some (ttl, "")) ->
  RedisStrings._get_ideal_cycle_time float asset r
  = (Py.Ok 1.0, <[cache_key asset := (3600%Z, "1.0")]> r).
Proof.
  unfold RedisStrings._get_ideal_cycle_time. fold (cache_key asset).
  intros [H | [ttl H]]; rewrite H; reflexivity.
Qed.

Lemma get_ideal_cycle_time_hit_strings asset (r : gmap string (Z * string))
    ttl s :
  r !! cache_key asset = Some (ttl, s) -> s <> "" ->
  RedisStrings._get_ideal_cycle_time float asset r
  = match float s with
    | Some x => (Py.Ok x, r)
    | None =>
        (Py.Raise
           (Py.ValueError
              ("could not convert string to float: '" +:+ s +:+ "'")), r)
    end.
Proof.
  intros H Hs. unfold RedisStrings._get_ideal_cycle_time.
  fold (cache_key asset). rewrite H. simpl.
  destruct (String.eqb_spec s ""); [contradiction | reflexivity].
Qed.

(** The cache of [OEECalculator] read off the strings: an empty string
    counts as no value, another string as the number [float] gives. *)
Definition decode_entry (e : Z * string) : option (Z * Q) :=
  if String.eqb e.2 "" then None
  else (fun x => (e.1, x)) <$> float e.2.

Definition decode (r : gmap string (Z * string)) : OEECalculator.Redis :=
  omap decode_entry r.

(** Where the cached string of the asset is a number, the call on the
    strings and the call on the numbers agree. *)
Lemma get_ideal_cycle_time_decode (asset : string)
    (r : gmap string (Z * string)) :
  float "1.0" = Some 1.0 ->
  (forall ttl s, r !! cache_key asset = Some (ttl, s) -> s <> "" ->
     is_Some (float s)) ->
  OEECalculator._get_ideal_cycle_time asset (decode r)
  = ((RedisStrings._get_ideal_cycle_time float asset r).1,
     decode (RedisStrings._get_ideal_cycle_time float asset r).2).
Proof.
  intros H1 Hparse.
  assert (Hins : decode (<[cache_key asset := (3600%Z, "1.0")]> r)
                 = <[cache_key asset := (3600%Z, 1.0)]> (decode r)).
  { unfold decode. apply omap_insert_Some.
    unfold decode_entry. simpl. rewrite H1. reflexivity. }
  destruct (r !! cache_key asset) as [[ttl s] |] eqn:E.
  - destruct (String.eqb_spec s "") as [-> | Hs].
    + rewrite get_ideal_cycle_time_miss_strings by eauto. simpl.
      rewrite Hins. apply get_ideal_cycle_time_miss.
      unfold decode. rewrite lookup_omap, E. reflexivity.
    + rewrite (get_ideal_cycle_time_hit_strings asset r ttl s E Hs).
      destruct (Hparse ttl s eq_refl Hs) as [x Hx]. rewrite Hx. simpl.
      apply (get_ideal_cycle_time_hit _ _ ttl).
      unfold decode. rewrite lookup_omap, E. simpl. unfold decode_entry. simpl.
      destruct (String.eqb_spec s ""); [contradiction |].
      rewrite Hx. reflexivity.
  - rewrite get_ideal_cycle_time_miss_strings by auto. simpl.
    rewrite Hins. apply get_ideal_cycle_time_miss.
    unfold decode. rewrite lookup_omap, E. reflexivity.
Qed.

(** X16. [_get_ideal_cycle_time] on the strings of the cache.  A missing or
    empty cached value is a miss: the call returns 1.0 and stores "1.0"
    under the asset's key with an expiry of 3600.  A cached string that
    [float] accepts is returned as its number and the cache stays as it is;
    one that [float] rejects raises ValueError and the cache stays as it is.
    Other keys are never touched, and after a miss the same call returns 1.0
    again and changes nothing. *)
Theorem get_ideal_cycle_time_strings (asset : string)
    (r : gmap string (Z * string)) :
  ((r !! cache_key asset = None
    \/ exists ttl, r !! cache_key asset = Some (ttl, "")) ->
   RedisStrings._get_ideal_cycle_time float asset r
   = (Py.Ok 1.0, <[cache_key asset := (3600%Z, "1.0")]> r))
  /\ (forall ttl s x, r !! cache_key asset = Some (ttl, s) -> s <> "" ->
        float s = Some x ->
        RedisStrings._get_ideal_cycle_time float asset r = (Py.Ok x, r))
  /\ (forall ttl s, r !! cache_key asset = Some (ttl, s) -> s <> "" ->
        float s = None ->
        exists msg,
          RedisStrings._get_ideal_cycle_time float asset r
          = (Py.Raise (Py.ValueError msg), r))
  /\ (forall k, k <> cache_key asset ->
        (RedisStrings._get_ideal_cycle_time float asset r).2 !! k = r !! k)
  /\ (float "1.0" = Some 1.0 ->
      (r !! cache_key asset = None
       \/ exists ttl, r !! cache_key asset = Some (ttl, "")) ->
      RedisStrings._get_ideal_cycle_time float asset
        (RedisStrings._get_ideal_cycle_time float asset r).2
      = (Py.Ok 1.0, (RedisStrings._get_ideal_cycle_time float asset r).2)).
Proof.
  split; [apply get_ideal_cycle_time_miss_strings |].
  split; [| split; [| split]].
  - intros ttl s x H Hs Hx.
    rewrite (get_ideal_cycle_time_hit_strings asset r ttl s H Hs), Hx.
    reflexivity.
  - intros ttl s H Hs Hx.
    rewrite (get_ideal_cycle_time_hit_strings asset r ttl s H Hs), Hx.
    eexists. reflexivity.
  - intros k Hk.
    destruct (r !! cache_key asset) as [[ttl s] |] eqn:E.
    + destruct (String.eqb_spec s "") as [-> | Hs].
      * rewrite get_ideal_cycle_time_miss_strings by eauto.
        apply lookup_insert_ne. congruence.
      * rewrite (get_ideal_cycle_time_hit_strings asset r ttl s E Hs).
        destruct (float s); reflexivity.
    + rewrite get_ideal_cycle_time_miss_strings by auto.
      apply lookup_insert_ne. congruence.
  - intros H1 Hmiss.
    rewrite (get_ideal_cycle_time_miss_strings asset r Hmiss). simpl.
    rewrite (get_ideal_cycle_time_hit_strings asset _ 3600%Z "1.0");
      [rewrite H1; reflexivity | apply lookup_insert_eq | discriminate].
Qed.

End CacheStrings.

(** A [float] that reads the two strings of the example and rejects the
    rest. *)
Definition float_of_example (s : string) : option Q :=
  if String.eqb s "1.0" then Some 1.0
  else if String.eqb s "0.5" then Some 0.5
  else None.

Lemma get_ideal_cycle_time_strings_witness :
  RedisStrings._get_ideal_cycle_time float_of_example "A1" ∅
  = (Py.Ok 1.0, {[ cache_key "A1" := (3600%Z, "1.0") ]})
  /\ RedisStrings._get_ideal_cycle_time float_of_example "A1"
       {[ cache_key "A1" := (60%Z, "0.5") ]}
     = (Py.Ok 0.5, {[ cache_key "A1" := (60%Z, "0.5") ]})
  /\ exists msg,
       RedisStrings._get_ideal_cycle_time float_of_example "A1"
         {[ cache_key "A1" := (60%Z, "fast") ]}
       = (Py.Raise (Py.ValueError msg), {[ cache_key "A1" := (60%Z, "fast") ]}).
Proof.
  split; [| split].
  - destruct (get_ideal_cycle_time_strings float_of_example "A1" ∅)
      as (Hmiss & _).
    rewrite Hmiss; [reflexivity | left; apply lookup_empty].
  - destruct (get_ideal_cycle_time_strings float_of_example "A1"
                {[ cache_key "A1" := (60%Z, "0.5") ]}) as (_ & Hhit & _).
    apply (Hhit 60%Z "0.5"); [apply lookup_singleton_eq | discriminate
                              | reflexivity].
  - destruct (get_ideal_cycle_time_strings float_of_example "A1"
                {[ cache_key "A1" := (60%Z, "fast") ]}) as (_ & _ & Hbad & _).
    apply (Hbad 60%Z "fast"); [apply lookup_singleton_eq | discriminate
                               | reflexivity].
Defined.


(** ** analyze_losses and _generate_recommendations *)
Section LossesMore.
Import OEECalculator.

Abbreviation cum := cumulative_percentage.

Lemma foldl_durations_shift (a : Q) (losses : list LossRow) :
  foldl (fun acc loss => acc + total_duration loss) a losses
  == a + sum_durations losses.
Proof.
  unfold sum_durations. revert a.
  induction losses as [| loss rest IH]; intros a; simpl; [ring |].
  rewrite (IH (a + total_duration loss)), (IH (0 + total_duration loss)). ring.
Qed.

Lemma sum_durations_cons (loss : LossRow) (rest : list LossRow) :
  sum_durations (loss :: rest) == total_duration loss + sum_durations rest.
Proof.
  unfold sum_durations at 1. simpl. rewrite foldl_durations_shift. ring.
Qed.

Lemma sum_durations_nonneg (losses : list LossRow) :
  nonneg_durations losses -> 0 <= sum_durations losses.
Proof.
  induction 1 as [| loss rest Hd _ IH].
  - unfold sum_durations. simpl. lra.
  - rewrite sum_durations_cons. lra.
Qed.

Lemma duration_le_sum (losses : list LossRow) (loss : LossRow) :
  nonneg_durations losses -> loss ∈ losses ->
  total_duration loss <= sum_durations losses.
Proof.
  induction 1 as [| l rest Hd Hrest IH]; intros Hin; [inversion Hin |].
  rewrite sum_durations_cons.
  pose proof (sum_durations_nonneg rest Hrest).
  apply elem_of_cons in Hin as [-> | Hin]; [lra |].
  specialize (IH Hin). lra.
Qed.

Lemma share_le_100 (total d : Q) : 0 <= d <= total -> share total d <= 100.
Proof.
  intros Hd. unfold share. case_cmp; [| lra].
  assert (H : d / total <= 1)
    by (apply Qle_shift_div_r; [exact E | lra]).
  lra.
Qed.

Lemma round2_0 : Py.round2 0 == 0.
Proof. reflexivity. Qed.

Lemma round2_within (x : Q) : 0 <= x <= 100 -> 0 <= Py.round2 x <= 100.
Proof.
  intros [H0 H100]. split.
  - rewrite <- round2_0. apply round2_monotone, H0.
  - rewrite <- (round2_100 100) by reflexivity. apply round2_monotone, H100.
Qed.

(** The entry the loop makes of the row at position [i]. *)
Lemma pareto_loop_lookup (total c : Q) (losses : list LossRow) (i : nat)
    (row : LossRow) :
  losses !! i = Some row ->
  exists entry,
    pareto_loop total c losses !! i = Some entry
    /\ category entry = l_category row
    /\ subcategory entry = l_subcategory row
    /\ reason entry = l_reason row
    /\ duration entry = total_duration row
    /\ impact entry = total_impact row
    /\ occurrences entry = l_occurrences row
    /\ percentage entry = Py.round2 (share total (total_duration row)).
Proof.
  revert c i. induction losses as [| loss rest IH]; intros c i Hi;
    [discriminate |].
  destruct i as [| i]; simpl in *.
  - injection Hi as ->. eexists. split; [reflexivity |]. simpl.
    repeat split; reflexivity.
  - apply IH, Hi.
Qed.

Lemma pareto_loop_length (total c : Q) (losses : list LossRow) :
  length (pareto_loop total c losses) = length losses.
Proof.
  revert c. induction losses as [| loss rest IH]; intros c; simpl;
    [reflexivity |].
  rewrite IH. reflexivity.
Qed.

(** X19. The ranked entries of [analyze_losses] follow the rows of the
    query one for one: the same number, the same order, the same category,
    subcategory, reason, duration, impact and occurrences.  With no negative
    duration every percentage lies in [0,100]. *)
Theorem pareto_analysis_follows_rows (losses : list LossRow)
    (start_time end_time : Z) :
  losses <> [] ->
  exists analysis,
    analyze_losses losses start_time end_time = Losses analysis
    /\ total_losses analysis = length losses
    /\ length (pareto_analysis analysis) = length losses
    /\ (forall i row, losses !! i = Some row ->
          exists entry,
            pareto_analysis analysis !! i = Some entry
            /\ category entry = l_category row
            /\ subcategory entry = l_subcategory row
            /\ reason entry = l_reason row
            /\ duration entry = total_duration row
            /\ impact entry = total_impact row
            /\ occurrences entry = l_occurrences row
            /\ (nonneg_durations losses -> 0 <= percentage entry <= 100)).
Proof.
  intros Hne. rewrite (analyze_losses_nonempty losses start_time end_time Hne).
  eexists. split; [reflexivity |]. simpl.
  split; [reflexivity |]. split; [apply pareto_loop_length |].
  intros i row Hi.
  destruct (pareto_loop_lookup (sum_durations losses) 0 losses i row Hi)
    as (entry & He & H1 & H2 & H3 & H4 & H5 & H6 & Hp).
  exists entry. repeat (split; [assumption |]).
  intros Hd. rewrite Hp. apply round2_within.
  assert (Hrow : row ∈ losses) by (apply list_elem_of_lookup; eauto).
  assert (H0 : 0 <= total_duration row).
  { unfold nonneg_durations in Hd. rewrite Forall_forall in Hd. auto. }
  split; [apply share_nonneg, H0 |].
  apply share_le_100. split; [exact H0 | apply duration_le_sum; assumption].
Qed.

Lemma pareto_analysis_follows_rows_witness :
  exists analysis,
    analyze_losses four_losses 0 3600000000 = Losses analysis
    /\ subcategory <$> pareto_analysis analysis
       = ["BREAKDOWN"; "SETUP"; "CLEANING"; "OTHER"].
Proof.
  destruct (pareto_analysis_follows_rows four_losses 0 3600000000)
    as (analysis & Ha & _); [discriminate |].
  exists analysis. split; [exact Ha |].
  vm_compute in Ha. injection Ha as <-. reflexivity.
Defined.

Lemma vital_few_loop_nonempty (ranked : list ParetoEntry) :
  ranked <> [] -> vital_few_loop ranked <> [].
Proof. destruct ranked; [congruence | discriminate]. Qed.

Lemma vital_few_loop_prefix_of (ranked : list ParetoEntry) :
  vital_few_loop ranked `prefix_of` ranked.
Proof.
  induction ranked as [| x rest IH]; simpl; [reflexivity |].
  destruct (Qle_bool 80 (cum x)).
  - apply prefix_cons, prefix_nil.
  - apply prefix_cons, IH.
Qed.

(** X20. The vital few are never empty and are the first entries of the
    ranking.  With no negative duration and a positive total, the threshold
    is always reached: the last of the vital few has a cumulative percentage
    of 80 or more and the ones before it are below 80. *)
Theorem vital_few_reaches_80 (losses : list LossRow) (start_time end_time : Z) :
  losses <> [] ->
  exists analysis,
    analyze_losses losses start_time end_time = Losses analysis
    /\ vital_few analysis <> []
    /\ vital_few analysis `prefix_of` pareto_analysis analysis
    /\ (nonneg_durations losses -> 0 < sum_durations losses ->
        exists i entry,
          vital_few analysis = take (S i) (pareto_analysis analysis)
          /\ pareto_analysis analysis !! i = Some entry
          /\ last (vital_few analysis) = Some entry
          /\ 80 <= cum entry
          /\ (forall j e, (j < i)%nat ->
                pareto_analysis analysis !! j = Some e -> cum e < 80)).
Proof.
  intros Hne. rewrite (analyze_losses_nonempty losses start_time end_time Hne).
  eexists. split; [reflexivity |]. simpl.
  set (ranked := pareto_loop (sum_durations losses) 0 losses).
  assert (Hr : ranked <> []).
  { intros E. apply (f_equal length) in E. unfold ranked in E.
    rewrite pareto_loop_length in E. destruct losses; [congruence | discriminate]. }
  split; [apply vital_few_loop_nonempty, Hr |].
  split; [apply vital_few_loop_prefix_of |].
  intros Hd Ht.
  destruct (vital_few_loop_prefix ranked)
    as [(i & entry & Hi & H80 & Hbelow & Heq) | [Hbelow _]].
  - exists i, entry. split; [exact Heq |]. split; [exact Hi |].
    split; [| split; assumption].
    rewrite Heq, last_lookup, length_take.
    apply lookup_lt_Some in Hi as Hlt.
    replace (pred (S i `min` length ranked)) with i by lia.
    rewrite lookup_take_lt by lia. exact Hi.
  - exfalso. destruct (last ranked) as [e |] eqn:He.
    + assert (Hin : e ∈ ranked) by (apply last_Some_elem_of, He).
      apply Hbelow in Hin.
      rewrite (pareto_loop_last _ _ _ _ He) in Hin.
      rewrite (round2_100 _ (running_sum_100 losses Ht)) in Hin. lra.
    + apply last_None in He. contradiction.
Qed.

Lemma vital_few_reaches_80_witness :
  exists analysis entry,
    analyze_losses four_losses 0 3600000000 = Losses analysis
    /\ last (vital_few analysis) = Some entry
    /\ 80 <= cum entry.
Proof.
  destruct (vital_few_reaches_80 four_losses 0 3600000000)
    as (analysis & Ha & _ & _ & H); [discriminate |].
  destruct H as (i & entry & _ & _ & Hlast & H80 & _).
  - repeat constructor; discriminate.
  - reflexivity.
  - exists analysis, entry. auto.
Defined.

Definition priorities : list string := ["HIGH"; "MEDIUM"; "LOW"].

Definition rule_categories : list string :=
  ["AVAILABILITY"; "PERFORMANCE"; "QUALITY"].

(** One entry gives at most one recommendation, none outside the three
    categories, always one for QUALITY. *)
Lemma recommend_cases (loss : ParetoEntry) :
  (length (recommend loss) <= 1)%nat
  /\ Forall (fun rec => priority rec ∈ priorities) (recommend loss)
  /\ (category loss ∉ rule_categories -> recommend loss = [])
  /\ (category loss = "QUALITY" ->
      exists rec, recommend loss = [rec]
                  /\ area rec = "Quality Control" /\ priority rec = "HIGH").
Proof.
  unfold recommend, priorities, rule_categories.
  destruct (String.eqb_spec (category loss) "AVAILABILITY") as [Ha | Ha];
    [| destruct (String.eqb_spec (category loss) "PERFORMANCE") as [Hp | Hp];
       [| destruct (String.eqb_spec (category loss) "QUALITY") as [Hq | Hq]]];
    repeat match goal with
           | |- context [String.eqb ?a ?b] => destruct (String.eqb a b)
           end;
    (split; [simpl; lia |]);
    (split; [repeat constructor |]);
    (split; [intros Hn; try reflexivity; exfalso; apply Hn;
             rewrite ?Ha, ?Hp, ?Hq; repeat constructor |]);
    intros Hc; try congruence; eexists; repeat split.
Qed.

(** X21. [_generate_recommendations] looks at the first five vital entries
    only and gives at most one recommendation for each; every priority is
    HIGH, MEDIUM or LOW; entries outside the categories AVAILABILITY,
    PERFORMANCE and QUALITY give none, and a QUALITY entry among the first
    five always gives a HIGH "Quality Control" one. *)
Theorem generate_recommendations_bounded (vital_losses : list ParetoEntry) :
  (length (_generate_recommendations vital_losses)
   <= 5 `min` length vital_losses)%nat
  /\ Forall (fun rec => priority rec ∈ priorities)
       (_generate_recommendations vital_losses)
  /\ (Forall (fun loss => category loss ∉ rule_categories)
        (take 5 vital_losses) ->
      _generate_recommendations vital_losses = [])
  /\ (forall loss, loss ∈ take 5 vital_losses -> category loss = "QUALITY" ->
        exists rec, rec ∈ _generate_recommendations vital_losses
                    /\ area rec = "Quality Control" /\ priority rec = "HIGH").
Proof.
  unfold _generate_recommendations.
  rewrite <- (length_take vital_losses 5).
  generalize (take 5 vital_losses). intros l.
  split; [| split; [| split]].
  - induction l as [| loss l IH]; [simpl; lia |].
    rewrite fmap_cons. simpl in *. rewrite length_app.
    destruct (recommend_cases loss) as (H & _). lia.
  - apply Forall_forall. intros rec Hin.
    apply list_elem_of_join in Hin as (recs & Hin & Hrecs).
    apply list_elem_of_fmap in Hrecs as (loss & -> & _).
    destruct (recommend_cases loss) as (_ & H & _).
    rewrite Forall_forall in H. apply H, Hin.
  - induction 1 as [| loss l Hloss _ IH]; [reflexivity |].
    rewrite fmap_cons. simpl in *.
    destruct (recommend_cases loss) as (_ & _ & H & _).
    rewrite (H Hloss), IH. reflexivity.
  - intros loss Hin Hq.
    destruct (recommend_cases loss) as (_ & _ & _ & H).
    destruct (H Hq) as (rec & Hrec & Harea & Hprio).
    exists rec. split; [| auto].
    apply list_elem_of_join. exists [rec]. split; [left |].
    rewrite <- Hrec. apply list_elem_of_fmap. eauto.
Qed.

Definition scrap_entry : ParetoEntry :=
  {| category := "QUALITY"; subcategory := "SCRAP"; reason := "burrs";
     duration := 40; impact := 40; occurrences := 3;
     percentage := 40; cumulative_percentage := 40 |}.

Definition lunch_entry : ParetoEntry :=
  {| category := "PLANNED"; subcategory := "BREAK"; reason := "lunch";
     duration := 60; impact := 0; occurrences := 1;
     percentage := 60; cumulative_percentage := 100 |}.

Lemma generate_recommendations_bounded_witness :
  _generate_recommendations [lunch_entry] = []
  /\ exists rec, rec ∈ _generate_recommendations [scrap_entry; lunch_entry]
                 /\ area rec = "Quality Control" /\ priority rec = "HIGH".
Proof.
  split.
  - destruct (generate_recommendations_bounded [lunch_entry])
      as (_ & _ & H & _).
    apply H. repeat constructor. intros Hin.
    repeat (apply elem_of_cons in Hin as [Hin | Hin]; [discriminate |]).
    inversion Hin.
  - destruct (generate_recommendations_bounded [scrap_entry; lunch_entry])
      as (_ & _ & _ & H).
    apply (H scrap_entry); [left | reflexivity].
Defined.

End LossesMore.

(** ** predict_oee_trend *)
Section TrendMore.
Import OEECalculator.

Lemma predict_oee_trend_report (data : list (Z * Q)) (now days_forecast : Z) :
  (7 <= length data)%nat ->
  let y := snd <$> data in
  let n := length data in
  let slope := slope_of y in
  let intercept := np_mean y - slope * np_mean (day_nums n) in
  predict_oee_trend data now days_forecast
  = Trend {| historical_average := np_mean y;
             trend := trend_of slope;
             trend_strength :=
               (let x := day_nums n in
                let y_pred := (fun xi => slope * xi + intercept) <$> x in
                let ss_res :=
                  np_sum (zip_with (fun yi pi => (yi - pi) ^ 2) y y_pred) in
                let ss_tot := np_sum ((fun yi => (yi - np_mean y) ^ 2) <$> y) in
                if Qeq_bool ss_tot 0 then 0 else 1 - ss_res / ss_tot);
             daily_change := slope;
             forecast :=
               zip_with
                 (fun date value => (date, Py.min 100 (Py.max 0 value)))
                 ((fun i => (now + (Z.of_nat i + 1) * microseconds_per_day)%Z)
                    <$> seq 0 (Z.to_nat days_forecast))
                 ((fun day => slope * inject_Z (Z.of_nat day) + intercept)
                    <$> seq n (Z.to_nat days_forecast)) |}.
Proof.
  intros H y n slope intercept. unfold predict_oee_trend.
  apply Nat.ltb_ge in H. rewrite H.
  subst y n slope intercept. cbv zeta.
  unfold day_nums. rewrite !length_fmap, !length_seq. reflexivity.
Qed.

(** X22. With seven rows or more the forecast has one entry for each
    requested day (none for a request that is not positive); entry i is
    dated i + 1 days after now, and its value is the fitted line at day
    n + i, cut to [0,100]. *)
Theorem forecast_entries (data : list (Z * Q)) (now days_forecast : Z) :
  (7 <= length data)%nat ->
  exists report,
    predict_oee_trend data now days_forecast = Trend report
    /\ length (forecast report) = Z.to_nat days_forecast
    /\ (forall i date value, forecast report !! i = Some (date, value) ->
          date = (now + (Z.of_nat i + 1) * microseconds_per_day)%Z
          /\ 0 <= value <= 100
          /\ value
             = Py.min 100
                 (Py.max 0
                    (daily_change report
                       * inject_Z (Z.of_nat (length data + i))
                     + (historical_average report
                        - daily_change report
                          * np_mean (day_nums (length data)))))).
Proof.
  intros H. rewrite (predict_oee_trend_report data now days_forecast H).
  eexists. split; [reflexivity |].
  cbv zeta. cbn [forecast daily_change historical_average].
  split.
  - rewrite length_zip_with, !length_fmap, !length_seq. lia.
  - intros i date value Hi.
    apply lookup_zip_with_Some in Hi as (d & v & [= -> ->] & Hd & Hv).
    rewrite list_lookup_fmap in Hd. rewrite list_lookup_fmap in Hv.
    destruct (seq 0 (Z.to_nat days_forecast) !! i) as [k |] eqn:Hk;
      [| discriminate].
    destruct (seq (length data) (Z.to_nat days_forecast) !! i) as [k' |] eqn:Hk';
      [| discriminate].
    apply lookup_seq in Hk as [-> _]. apply lookup_seq in Hk' as [-> _].
    injection Hd as <-. injection Hv as <-.
    split; [reflexivity |]. split; [apply cap_bounds | reflexivity].
Qed.

Lemma forecast_entries_witness :
  exists report,
    predict_oee_trend (week_on_line 99 0.5) 0 3 = Trend report
    /\ length (forecast report) = 3%nat
    /\ forall date value, forecast report !! 2%nat = Some (date, value) ->
          date = 259200000000%Z /\ 0 <= value <= 100.
Proof.
  destruct (forecast_entries (week_on_line 99 0.5) 0 3)
    as (report & Hr & Hl & Hentry); [vm_compute; lia |].
  exists report. split; [exact Hr |]. split; [exact Hl |].
  intros date value H. destruct (Hentry 2%nat date value H) as (Hd & Hv & _).
  split; [exact Hd | exact Hv].
Defined.

(** *** The fit of exactly linear data *)

Lemma np_sum_shift (a : Q) (l : list Q) : foldl Qplus a l == a + np_sum l.
Proof.
  unfold np_sum. revert a. induction l as [| x l IH]; intros a; simpl; [ring |].
  rewrite (IH (a + x)), (IH (0 + x)). ring.
Qed.

Lemma np_sum_cons (x : Q) (l : list Q) : np_sum (x :: l) == x + np_sum l.
Proof. unfold np_sum at 1. simpl. rewrite np_sum_shift. ring. Qed.

Lemma np_sum_nil : np_sum [] == 0.
Proof. reflexivity. Qed.

(** Sums of lists that agree cell by cell. *)
Lemma np_sum_ext (l k : list Q) : Forall2 Qeq l k -> np_sum l == np_sum k.
Proof.
  induction 1 as [| x y l k Hxy _ IH]; [reflexivity |].
  rewrite !np_sum_cons, Hxy, IH. reflexivity.
Qed.

Lemma np_sum_linear (a b : Q) (l : list Q) :
  np_sum ((fun x => a + b * x) <$> l)
  == a * inject_Z (Z.of_nat (length l)) + b * np_sum l.
Proof.
  induction l as [| x l IH].
  - simpl. rewrite np_sum_nil. ring.
  - rewrite fmap_cons, !np_sum_cons, IH.
    cbn [length]. rewrite Nat2Z.inj_succ, <- Z.add_1_r, inject_Z_plus.
    change (inject_Z 1) with 1. ring.
Qed.

Lemma np_sum_scale (b : Q) (l : list Q) :
  np_sum ((fun x => b * x) <$> l) == b * np_sum l.
Proof.
  induction l as [| x l IH].
  - simpl. rewrite np_sum_nil. ring.
  - rewrite fmap_cons, !np_sum_cons, IH. ring.
Qed.

Lemma np_sum_nonneg (l : list Q) : Forall (fun x => 0 <= x) l -> 0 <= np_sum l.
Proof.
  induction 1 as [| x l Hx _ IH]; [rewrite np_sum_nil; lra |].
  rewrite np_sum_cons. lra.
Qed.

Lemma np_sum_ge_elem (l : list Q) (x : Q) :
  Forall (fun x => 0 <= x) l -> x ∈ l -> x <= np_sum l.
Proof.
  induction 1 as [| y l Hy Hl IH]; intros Hin; [inversion Hin |].
  rewrite np_sum_cons. pose proof (np_sum_nonneg l Hl).
  apply elem_of_cons in Hin as [-> | Hin]; [lra |].
  specialize (IH Hin). lra.
Qed.

Lemma Qsquare (x : Q) : x ^ 2 == x * x.
Proof. reflexivity. Qed.

Lemma Qsquare_nonneg (x : Q) : 0 <= x ^ 2.
Proof.
  rewrite Qsquare. destruct (Qlt_le_dec x 0) as [H | H].
  - assert (E : x * x == (- x) * (- x)) by ring.
    rewrite E. apply Qmult_le_0_compat; lra.
  - apply Qmult_le_0_compat; lra.
Qed.

Lemma np_sum_zip_ext (f : Q -> Q -> Q) (g : Q -> Q) (x y : list Q) :
  Forall2 (fun xi yi => f xi yi == g xi) x y ->
  np_sum (zip_with f x y) == np_sum (g <$> x).
Proof.
  induction 1 as [| xi yi x y H _ IH]; [reflexivity |].
  rewrite fmap_cons. cbn [zip_with]. rewrite !np_sum_cons, H, IH. reflexivity.
Qed.

Lemma np_sum_fmap_ext (h g : Q -> Q) (x y : list Q) :
  Forall2 (fun xi yi => h yi == g xi) x y ->
  np_sum (h <$> y) == np_sum (g <$> x).
Proof.
  induction 1 as [| xi yi x y H _ IH]; [reflexivity |].
  rewrite !fmap_cons, !np_sum_cons, H, IH. reflexivity.
Qed.

Lemma np_sum_residuals (p : Q -> Q) (x y : list Q) :
  Forall2 (fun xi yi => yi == p xi) x y ->
  np_sum (zip_with (fun yi pi => (yi - pi) ^ 2) y (p <$> x)) == 0.
Proof.
  induction 1 as [| xi yi x y H _ IH]; [reflexivity |].
  rewrite fmap_cons. cbn [zip_with]. rewrite np_sum_cons, IH, Qsquare, H. ring.
Qed.

Lemma day_nums_length (n : nat) : length (day_nums n) = n.
Proof. unfold day_nums. rewrite length_fmap, length_seq. reflexivity. Qed.

Lemma day_nums_elem (n k : nat) : (k < n)%nat -> inject_Z (Z.of_nat k) ∈ day_nums n.
Proof.
  intros H. unfold day_nums. apply list_elem_of_fmap. exists k.
  split; [reflexivity |]. apply elem_of_seq. lia.
Qed.

(** The spread of the day numbers around any centre is positive. *)
Lemma day_spread_positive (n : nat) (c : Q) :
  (2 <= n)%nat -> 0 < np_sum ((fun xi => (xi - c) ^ 2) <$> day_nums n).
Proof.
  intros Hn.
  assert (Hall : Forall (fun v => 0 <= v) ((fun xi => (xi - c) ^ 2) <$> day_nums n)).
  { apply Forall_forall. intros v Hv.
    apply list_elem_of_fmap in Hv as (xi & -> & _). apply Qsquare_nonneg. }
  assert (H0 : (0 - c) ^ 2 <= np_sum ((fun xi => (xi - c) ^ 2) <$> day_nums n)).
  { apply np_sum_ge_elem; [exact Hall |]. apply list_elem_of_fmap.
    exists 0. split; [reflexivity |]. apply (day_nums_elem n 0). lia. }
  assert (H1 : (1 - c) ^ 2 <= np_sum ((fun xi => (xi - c) ^ 2) <$> day_nums n)).
  { apply np_sum_ge_elem; [exact Hall |]. apply list_elem_of_fmap.
    exists 1. split; [reflexivity |]. apply (day_nums_elem n 1). lia. }
  rewrite Qsquare in H0, H1.
  destruct (Qlt_le_dec 0 (np_sum ((fun xi => (xi - c) ^ 2) <$> day_nums n)))
    as [H | H]; [exact H | exfalso; nra].
Qed.

(** Daily values that lie on the line [a + b * day]. *)
Definition on_line (a b : Q) (y : list Q) : Prop :=
  Forall2 (fun xi yi => yi == a + b * xi) (day_nums (length y)) y.

Lemma on_line_mean (a b : Q) (y : list Q) :
  y <> [] -> on_line a b y ->
  np_mean y == a + b * np_mean (day_nums (length y)).
Proof.
  intros Hne H. unfold np_mean. rewrite day_nums_length.
  assert (Hs : np_sum y == np_sum ((fun xi => a + b * xi) <$> day_nums (length y))).
  { rewrite <- (list_fmap_id y) at 1. apply (np_sum_fmap_ext id). exact H. }
  rewrite Hs, np_sum_linear, day_nums_length.
  assert (Hn : ~ inject_Z (Z.of_nat (length y)) == 0).
  { destruct y; [congruence |]. cbn [length].
    rewrite Nat2Z.inj_succ, <- Z.add_1_r, inject_Z_plus.
    assert (0 <= inject_Z (Z.of_nat (length y)))
      by (change 0 with (inject_Z 0); rewrite <- Zle_Qle; lia).
    change (inject_Z 1) with 1. lra. }
  field. exact Hn.
Qed.

Lemma slope_of_on_line (a b : Q) (y : list Q) :
  (2 <= length y)%nat -> on_line a b y -> slope_of y == b.
Proof.
  intros Hn H.
  assert (Hne : y <> []) by (destruct y; [simpl in Hn; lia | discriminate]).
  pose proof (on_line_mean a b y Hne H) as Hm.
  unfold slope_of. cbv zeta.
  set (x := day_nums (length y)) in *.
  set (xm := np_mean x) in *. set (ym := np_mean y) in *.
  set (den := np_sum ((fun xi => (xi - xm) ^ 2) <$> x)).
  assert (Hden : 0 < den) by (apply day_spread_positive, Hn).
  assert (Hnum : np_sum (zip_with (fun xi yi => (xi - xm) * (yi - ym)) x y)
                 == b * den).
  { rewrite (np_sum_zip_ext _ (fun xi => b * (xi - xm) ^ 2)).
    - unfold den.
      rewrite <- np_sum_scale, <- list_fmap_compose. reflexivity.
    - eapply Forall2_impl; [exact H |].
      intros xi yi Hy. simpl in Hy. rewrite Hy, Hm, Qsquare. ring. }
  assert (Hb : Qeq_bool den 0 = false) by (apply Qeq_bool_false; lra).
  rewrite Hb, Hnum. field. lra.
Qed.

Lemma np_sum_app (l k : list Q) : np_sum (l ++ k) == np_sum l + np_sum k.
Proof.
  induction l as [| x l IH]; simpl; [rewrite np_sum_nil; ring |].
  rewrite !np_sum_cons, IH. ring.
Qed.

Lemma np_sum_day_nums (n : nat) :
  np_sum (day_nums n)
  == inject_Z (Z.of_nat n) * (inject_Z (Z.of_nat n) - 1) / 2.
Proof.
  unfold day_nums. induction n as [| n IH].
  - reflexivity.
  - rewrite seq_S, fmap_app, np_sum_app, IH. cbn [fmap list_fmap plus].
    rewrite np_sum_cons, np_sum_nil.
    rewrite Nat2Z.inj_succ, <- Z.add_1_r, inject_Z_plus.
    change (inject_Z 1) with 1. field.
Qed.

Lemma np_mean_day_nums (n : nat) :
  (0 < n)%nat -> np_mean (day_nums n) == (inject_Z (Z.of_nat n) - 1) / 2.
Proof.
  intros Hn. unfold np_mean. rewrite day_nums_length, np_sum_day_nums.
  assert (0 < inject_Z (Z.of_nat n))
    by (change 0 with (inject_Z 0); rewrite <- Zlt_Qlt; lia).
  field. lra.
Qed.

(** X23. Daily values that lie exactly on a line are fitted exactly: the
    daily change is the slope of the line, the historical average is its
    value at the middle day, the trend is the class of the slope, and the
    trend strength is 1 for a slope that is not zero and 0 for a constant
    series. *)
Theorem trend_of_linear_data (data : list (Z * Q)) (now days_forecast : Z)
    (a b : Q) :
  (7 <= length data)%nat ->
  on_line a b (snd <$> data) ->
  exists report,
    predict_oee_trend data now days_forecast = Trend report
    /\ daily_change report == b
    /\ historical_average report
       == a + b * ((inject_Z (Z.of_nat (length data)) - 1) / 2)
    /\ (0.1 < b -> trend report = "IMPROVING")
    /\ (b < -0.1 -> trend report = "DECLINING")
    /\ (-0.1 <= b <= 0.1 -> trend report = "STABLE")
    /\ (~ b == 0 -> trend_strength report == 1)
    /\ (b == 0 -> trend_strength report = 0).
Proof.
  intros Hn Hline.
  rewrite (predict_oee_trend_report data now days_forecast Hn).
  eexists. split; [reflexivity |].
  cbv zeta. cbn [daily_change historical_average trend trend_strength].
  set (y := snd <$> data) in *.
  assert (Hlen : length y = length data) by (unfold y; apply length_fmap).
  assert (Hne : y <> []) by (destruct y; [simpl in Hlen; lia | discriminate]).
  assert (Hslope : slope_of y == b)
    by (apply (slope_of_on_line a); [lia | exact Hline]).
  pose proof (on_line_mean a b y Hne Hline) as Hmean.
  unfold on_line in Hline. rewrite Hlen in Hline, Hmean.
  set (x := day_nums (length data)) in *.
  destruct (trend_of_cases (slope_of y)) as (Hup & Hdown & Hflat).
  split; [exact Hslope |].
  split; [rewrite Hmean; unfold x; rewrite np_mean_day_nums by lia;
          reflexivity |].
  split; [intros H; apply Hup; rewrite Hslope; exact H |].
  split; [intros H; apply Hdown; rewrite Hslope; exact H |].
  split; [intros H; apply Hflat; rewrite Hslope; exact H |].
  assert (Htot : np_sum ((fun yi => (yi - np_mean y) ^ 2) <$> y)
                 == b * b * np_sum ((fun xi => (xi - np_mean x) ^ 2) <$> x)).
  { rewrite (np_sum_fmap_ext _ (fun xi => (b * b) * (xi - np_mean x) ^ 2) x).
    - rewrite <- np_sum_scale, <- list_fmap_compose. reflexivity.
    - eapply Forall2_impl; [exact Hline |].
      intros xi yi Hy. simpl in Hy. rewrite Hy, Hmean, !Qsquare. ring. }
  assert (Hden : 0 < np_sum ((fun xi => (xi - np_mean x) ^ 2) <$> x))
    by (apply day_spread_positive; lia).
  split.
  - intros Hb.
    assert (Hpos : 0 < np_sum ((fun yi => (yi - np_mean y) ^ 2) <$> y)).
    { rewrite Htot. assert (0 < b * b) by nra. nra. }
    assert (E : Qeq_bool (np_sum ((fun yi => (yi - np_mean y) ^ 2) <$> y)) 0
                = false) by (apply Qeq_bool_false; lra).
    rewrite E.
    rewrite (np_sum_residuals
               (fun xi => slope_of y * xi
                          + (np_mean y - slope_of y * np_mean x)) x y).
    + field. lra.
    + eapply Forall2_impl; [exact Hline |].
      intros xi yi Hy. simpl in Hy. rewrite Hy, Hmean, Hslope. ring.
  - intros Hb.
    assert (E : Qeq_bool (np_sum ((fun yi => (yi - np_mean y) ^ 2) <$> y)) 0
                = true).
    { apply Qeq_bool_iff. rewrite Htot, Hb. ring. }
    rewrite E. reflexivity.
Qed.

Lemma week_on_line_on_line (a b : Q) : on_line a b (snd <$> week_on_line a b).
Proof. repeat constructor. Qed.

Lemma trend_of_linear_data_witness :
  exists report,
    predict_oee_trend (week_on_line 70 (-0.5)) 0 7 = Trend report
    /\ daily_change report == -0.5
    /\ trend report = "DECLINING"
    /\ trend_strength report == 1.
Proof.
  destruct (trend_of_linear_data (week_on_line 70 (-0.5)) 0 7 70 (-0.5))
    as (report & Hr & Hs & _ & _ & Hdown & _ & Hr2 & _).
  - vm_compute. lia.
  - apply week_on_line_on_line.
  - exists report. split; [exact Hr |]. split; [exact Hs |].
    split; [apply Hdown; reflexivity | apply Hr2; discriminate].
Defined.

End TrendMore.
